(** * nexobot: URL classification, sitemap traversal and content extraction

    A shallow embedding of the Python sources
      - [nexobot/validators.py]  (class [URLValidator]),
      - [nexobot/sitemap.py]     (class [SitemapParser]),
      - [nexobot/extractors.py]  (class [ContentExtractor]),
      - [nexobot/scraper.py]     ([Scraper.is_valid_article]),
      - [nexobot/models.py]      ([ContentSection]),
    followed by the properties of these functions.

    Conventions of the model.
      - A Python [str] is a [string]; one [ascii] stands for one character
        (a code point below 256), so [String.length] is Python's [len].
      - The results of the libraries the code calls ([urllib.parse],
        [re], [bs4]) are modelled by the small modules [PyStr], [Re],
        [Url] and [Soup] below. *)

From Stdlib Require Import Ascii String ZArith Bool Lia.
From stdpp Require Import base option list gmap strings pretty.

Local Open Scope string_scope.
Local Open Scope list_scope.

#[local] Set Warnings "-clear-no-such-hyp".

(* ===================================================================== *)
(** * Python string operations *)
(* ===================================================================== *)

Module PyStr.

Definition code (c : ascii) : N := N_of_ascii c.

Definition in_range (lo hi : N) (c : ascii) : bool :=
  (lo <=? code c)%N && (code c <=? hi)%N.

(** [str.isspace] on one character: TAB..CR, FS..US, space, NEL, NBSP. *)
Definition is_space (c : ascii) : bool :=
  in_range 9 13 c || in_range 28 32 c || (code c =? 133)%N || (code c =? 160)%N.

(** [\d] of [re] on a [str] pattern: the decimal digits. *)
Definition is_decimal (c : ascii) : bool := in_range 48 57 c.

(** [str.isdigit] on one character: the decimal digits and the
    superscripts 1, 2, 3. *)
Definition is_digit_char (c : ascii) : bool :=
  is_decimal c || (code c =? 178)%N || (code c =? 179)%N || (code c =? 185)%N.

(** [str.lower] on one character. *)
Definition lower_char (c : ascii) : ascii :=
  if in_range 65 90 c || (in_range 192 222 c && negb (code c =? 215)%N)
  then ascii_of_N (code c + 32) else c.

Fixpoint lower (s : string) : string :=
  match s with
  | EmptyString => EmptyString
  | String c s' => String (lower_char c) (lower s')
  end.

Definition is_empty (s : string) : bool :=
  match s with EmptyString => true | String _ _ => false end.

(** Truth value of a [str]. *)
Definition truthy (s : string) : bool := negb (is_empty s).

Fixpoint all_chars (p : ascii -> bool) (s : string) : bool :=
  match s with
  | EmptyString => true
  | String c s' => p c && all_chars p s'
  end.

(** [s.isdigit()]: non-empty and every character a digit. *)
Definition isdigit (s : string) : bool := truthy s && all_chars is_digit_char s.

Fixpoint lstrip (p : ascii -> bool) (s : string) : string :=
  match s with
  | EmptyString => EmptyString
  | String c s' => if p c then lstrip p s' else s
  end.

Fixpoint rstrip (p : ascii -> bool) (s : string) : string :=
  match s with
  | EmptyString => EmptyString
  | String c s' =>
      let r := rstrip p s' in
      if p c && is_empty r then EmptyString else String c r
  end.

(** [s.strip(chars)], the characters to remove given as a predicate. *)
Definition strip_chars (p : ascii -> bool) (s : string) : string :=
  rstrip p (lstrip p s).

(** [s.strip()]. *)
Definition strip (s : string) : string := strip_chars is_space s.

(** [s.strip('/')]. *)
Definition strip_slash (s : string) : string := strip_chars (Ascii.eqb "/") s.

(** [s.split(sep)] for a one-character separator: never the empty list. *)
Fixpoint split (sep : ascii) (s : string) : list string :=
  match s with
  | EmptyString => [EmptyString]
  | String c s' =>
      if Ascii.eqb c sep then EmptyString :: split sep s'
      else match split sep s' with
           | h :: t => String c h :: t
           | [] => [String c EmptyString]
           end
  end.

(** [s.partition(sep)]: the text before the first [sep], whether [sep]
    occurs, and the text after it. *)
Fixpoint partition (sep : ascii) (s : string) : string * bool * string :=
  match s with
  | EmptyString => (EmptyString, false, EmptyString)
  | String c s' =>
      if Ascii.eqb c sep then (EmptyString, true, s')
      else let '(a, found, b) := partition sep s' in (String c a, found, b)
  end.

(** [needle in s]. *)
Fixpoint contains (needle s : string) : bool :=
  String.prefix needle s ||
  match s with
  | EmptyString => false
  | String _ s' => contains needle s'
  end.

(** [s.replace(a, b)] for single characters. *)
Fixpoint replace_char (a b : ascii) (s : string) : string :=
  match s with
  | EmptyString => EmptyString
  | String c s' => String (if Ascii.eqb c a then b else c) (replace_char a b s')
  end.

(** [sep.join(parts)]. *)
Definition join (sep : string) (parts : list string) : string :=
  String.concat sep parts.

(** [parts[-1]] of a list of strings known to be non-empty. *)
Definition last_item (parts : list string) : string := List.last parts EmptyString.

(** [x in xs] for a list of strings. *)
Definition mem (x : string) (xs : list string) : bool :=
  existsb (String.eqb x) xs.

(** The number of non-empty pieces of a split (used to count the
    segments of a path). *)
Definition pieces (sep : ascii) (s : string) : nat :=
  length (List.filter truthy (split sep s)).

End PyStr.

(* ===================================================================== *)
(** * Regular expressions of [re], as far as the sources use them *)
(* ===================================================================== *)

Module Re.

(** One-character items of a pattern. *)
Inductive atom : Type :=
| AChar (c : ascii)      (* a literal character *)
| ANot (c : ascii)       (* [^c] *)
| ADigit                 (* \d *)
| AAny.                  (* any character, newline included *)

Inductive regex : Type :=
| Void
| Eps
| Atom (a : atom)
| Cat (r1 r2 : regex)
| Alt (r1 r2 : regex)
| Star (r : regex).

(** [r+], [r?] and a literal word. *)
Definition Plus (r : regex) : regex := Cat r (Star r).
Definition Opt (r : regex) : regex := Alt r Eps.
Fixpoint Lit (s : string) : regex :=
  match s with
  | EmptyString => Eps
  | String c s' => Cat (Atom (AChar c)) (Lit s')
  end.

(** A compiled pattern: [^] at its start, the body, [$] at its end, and
    the [re.IGNORECASE] flag. *)
Record pattern : Type := mkPattern {
  p_bol : bool;
  p_body : regex;
  p_eol : bool;
  p_ignorecase : bool
}.

Definition char_eq (ic : bool) (c a : ascii) : bool :=
  if ic then Ascii.eqb (PyStr.lower_char c) (PyStr.lower_char a)
  else Ascii.eqb c a.

Definition atom_match (ic : bool) (a : atom) (c : ascii) : bool :=
  match a with
  | AChar c0 => char_eq ic c0 c
  | ANot c0 => negb (char_eq ic c0 c)
  | ADigit => PyStr.is_decimal c
  | AAny => true
  end.

Fixpoint nullable (r : regex) : bool :=
  match r with
  | Void => false
  | Eps => true
  | Atom _ => false
  | Cat r1 r2 => nullable r1 && nullable r2
  | Alt r1 r2 => nullable r1 || nullable r2
  | Star _ => true
  end.

(** The residual of [r] after reading [c]. *)
Fixpoint deriv (ic : bool) (c : ascii) (r : regex) : regex :=
  match r with
  | Void => Void
  | Eps => Void
  | Atom a => if atom_match ic a c then Eps else Void
  | Cat r1 r2 =>
      if nullable r1
      then Alt (Cat (deriv ic c r1) r2) (deriv ic c r2)
      else Cat (deriv ic c r1) r2
  | Alt r1 r2 => Alt (deriv ic c r1) (deriv ic c r2)
  | Star r1 => Cat (deriv ic c r1) (Star r1)
  end.

(** [r] matches the whole of [s]. *)
Fixpoint fullmatch (ic : bool) (r : regex) (s : string) : bool :=
  match s with
  | EmptyString => nullable r
  | String c s' => fullmatch ic (deriv ic c r) s'
  end.

(** What may precede and follow the body inside the searched text:
    nothing before under [^]; nothing, or one final newline, after under
    [$] (no [re.MULTILINE]). *)
Definition before (p : pattern) : regex :=
  if p_bol p then Eps else Star (Atom AAny).
Definition after (p : pattern) : regex :=
  if p_eol p then Opt (Atom (AChar "010")) else Star (Atom AAny).

(** [bool(p.search(s))]. *)
Definition search (p : pattern) (s : string) : bool :=
  fullmatch (p_ignorecase p)
            (Cat (before p) (Cat (p_body p) (after p))) s.

(** The strings of a regex. *)
Inductive lang (ic : bool) : regex -> string -> Prop :=
| L_eps : lang ic Eps EmptyString
| L_atom a c : atom_match ic a c = true -> lang ic (Atom a) (String c EmptyString)
| L_cat r1 r2 s1 s2 :
    lang ic r1 s1 -> lang ic r2 s2 -> lang ic (Cat r1 r2) (s1 ++ s2)
| L_alt_l r1 r2 s : lang ic r1 s -> lang ic (Alt r1 r2) s
| L_alt_r r1 r2 s : lang ic r2 s -> lang ic (Alt r1 r2) s
| L_star_nil r : lang ic (Star r) EmptyString
| L_star_cons r s1 s2 :
    lang ic r s1 -> lang ic (Star r) s2 -> lang ic (Star r) (s1 ++ s2).

End Re.

(* ===================================================================== *)
(** * [urllib.parse]: the parts of a parsed URL and [parse_qs] *)
(* ===================================================================== *)

Module Url.

(** The fields of [urlparse(url)] that the validator reads; a URL is
    given to the validator by these parts, for instance
    [https://example.com/a/b/c?page=2] by [example.com], [/a/b/c] and
    [page=2]. *)
Record ParseResult : Type := mkUrl {
  netloc : string;
  path : string;
  query : string
}.

Section ParseQs.

(** The decoding of the [%XX] escapes of a text that has some (UTF-8,
    undecodable bytes replaced) is left open. *)
Variable unquote_escapes : string -> string.

(** [unquote(s)]: a text without [%] is returned as it is. *)
Definition unquote (s : string) : string :=
  if PyStr.contains "%" s then unquote_escapes s else s.

(** One [name=value] field of a query under the defaults of
    [parse_qsl] ([keep_blank_values=False], [strict_parsing=False],
    [separator='&']): an empty field and a field without [=] are
    skipped, and a field with a blank value is ignored as if it were not
    there; in a field that is kept, [+] stands for a space and the name
    and the value are unquoted. *)
Definition parse_field (name_value : string) : option (string * string) :=
  if PyStr.is_empty name_value then None
  else
    let '(name, has_eq, value) := PyStr.partition "=" name_value in
    if has_eq && PyStr.truthy value
    then Some (unquote (PyStr.replace_char "+" " " name),
               unquote (PyStr.replace_char "+" " " value))
    else None.

(** [parse_qsl(qs)]. *)
Definition parse_qsl (qs : string) : list (string * string) :=
  omap parse_field (PyStr.split "&" qs).

(** One step of the loop of [parse_qs] that collects the values of a
    name. *)
Definition add_pair (d : gmap string (list string)) (nv : string * string)
  : gmap string (list string) :=
  match d !! nv.1 with
  | Some vs => <[nv.1 := vs ++ [nv.2]]> d
  | None => <[nv.1 := [nv.2]]> d
  end.

(** [parse_qs(qs)]. *)
Definition parse_qs (qs : string) : gmap string (list string) :=
  fold_left add_pair (parse_qsl qs) ∅.

End ParseQs.

(** [key in d]. *)
Definition has_key (key : string) (d : gmap string (list string)) : bool :=
  match d !! key with Some _ => true | None => false end.

End Url.

(* ===================================================================== *)
(** * validators.py: [URLValidator] *)
(* ===================================================================== *)

Module Validators.
Import Re.

Definition slash : regex := Atom (AChar "/").
Definition seg_re : regex := Plus (Atom (ANot "/")).
Definition digits : regex := Plus (Atom ADigit).

Definition archive (bol : bool) (body : regex) (eol : bool) : pattern :=
  mkPattern bol body eol true.

(** [ARCHIVE_PATTERNS], compiled with [re.IGNORECASE]. *)
Definition ARCHIVE_PATTERNS : list pattern :=
  [ (* ^/page/\d+/?$ *)
    archive true (Cat (Lit "/page/") (Cat digits (Opt slash))) true;
    (* ^/[^/]+/?$ *)
    archive true (Cat slash (Cat seg_re (Opt slash))) true;
    (* ^/[^/]+/page/\d+/?$ *)
    archive true
      (Cat slash (Cat seg_re (Cat (Lit "/page/") (Cat digits (Opt slash))))) true;
    (* ^/category/ *)
    archive true (Lit "/category/") false;
    (* ^/tag/ *)
    archive true (Lit "/tag/") false;
    (* ^/author/ *)
    archive true (Lit "/author/") false;
    (* ^/archive/ *)
    archive true (Lit "/archive/") false;
    (* ^/search *)
    archive true (Lit "/search") false;
    (* /feed/?$ *)
    archive false (Cat (Lit "/feed") (Opt slash)) true;
    (* \.(xml|rss)$ *)
    archive false (Cat (Lit ".") (Alt (Lit "xml") (Lit "rss"))) true ].

Definition PAGINATION_PARAMS : list string := ["page"; "paged"; "p"; "offset"].

Definition BLOG_SUBDOMAINS : list string := ["blog"; "news"; "articles"; "content"].

(** The pattern [/page/\d+] of [has_pagination] (no flag). *)
Definition PAGE_IN_PATH : pattern :=
  mkPattern false (Cat (Lit "/page/") digits) false false.

Section Validator.

Variable unquote_escapes : string -> string.

(** [self.min_path_depth]. *)
Variable min_path_depth : Z.

Definition get_path_depth (url : Url.ParseResult) : nat :=
  let path := PyStr.strip_slash (Url.path url) in
  if PyStr.is_empty path then 0
  else length (PyStr.split "/" path).

Definition has_pagination (url : Url.ParseResult) : bool :=
  let query_params := Url.parse_qs unquote_escapes (Url.query url) in
  if existsb (fun param => Url.has_key param query_params) PAGINATION_PARAMS
  then true
  else if search PAGE_IN_PATH (Url.path url) then true
  else false.

Definition has_subdomain (url : Url.ParseResult) : bool :=
  let hostname := PyStr.lower (Url.netloc url) in
  let parts := PyStr.split "." hostname in
  if (3 <=? length parts)%nat then
    let subdomain := List.hd EmptyString parts in
    if negb (String.eqb subdomain "www") && PyStr.mem subdomain BLOG_SUBDOMAINS
    then true else false
  else false.

(** The loop of [matches_archive_pattern] from index [i] on. *)
Fixpoint archive_loop (is_subdomain : bool) (path : string)
         (i : nat) (patterns : list pattern) : bool :=
  match patterns with
  | [] => false
  | pattern :: rest =>
      if Nat.eqb i 1 && is_subdomain
      then archive_loop is_subdomain path (S i) rest
      else if search pattern path then true
      else archive_loop is_subdomain path (S i) rest
  end.

Definition matches_archive_pattern (url : Url.ParseResult) : bool :=
  let path := Url.path url in
  let is_subdomain := has_subdomain url in
  archive_loop is_subdomain path 0 ARCHIVE_PATTERNS.

Definition is_root_domain (url : Url.ParseResult) : bool :=
  let path := PyStr.strip_slash (Url.path url) in
  negb (PyStr.truthy path) && negb (PyStr.truthy (Url.query url)).

Definition too_shallow (depth min_depth : Z) : string :=
  "URL path too shallow (" +:+ pretty depth +:+ " segments, need "
    +:+ pretty min_depth +:+ ")".

Definition is_single_post (url : Url.ParseResult) : bool * string :=
  let path := PyStr.strip_slash (Url.path url) in
  if is_root_domain url then
    (false, "URL is a root domain (use sitemap discovery)")
  else if has_pagination url then
    (false, "URL has pagination parameters")
  else if matches_archive_pattern url then
    (false, "URL matches archive pattern")
  else
    let depth := Z.of_nat (get_path_depth url) in
    let min_depth := if has_subdomain url then 1%Z else min_path_depth in
    if (depth <? min_depth)%Z then (false, too_shallow depth min_depth)
    else
      let path_parts := PyStr.split "/" path in
      let last_segment := PyStr.last_item path_parts in
      if negb (PyStr.truthy last_segment) || PyStr.isdigit last_segment
      then (false, "URL doesn't end with a valid slug")
      else (true, "Valid single post URL").

End Validator.

End Validators.

(* ===================================================================== *)
(** * [bs4]: the parsed document *)
(* ===================================================================== *)

Module Soup.

(** A node of the parsed tree: a text ([NavigableString]) or an element
    ([Tag]) with its name, its attributes and its children.  The
    document itself ([BeautifulSoup]) is an element. *)
#[warnings="-register-all"]
Inductive node : Type :=
| Text (s : string)
| Tag (name : string) (attrs : gmap string string) (contents : list node).

(** [tag.descendants]: every node below, in document order. *)
Fixpoint descendants (n : node) : list node :=
  match n with
  | Text _ => []
  | Tag _ _ contents => flat_map (fun c => c :: descendants c) contents
  end.

Definition has_name (names : list string) (n : node) : bool :=
  match n with
  | Text _ => false
  | Tag name _ _ => PyStr.mem name names
  end.

(** [tag.get(key)]. *)
Definition get (key : string) (n : node) : option string :=
  match n with
  | Text _ => None
  | Tag _ attrs _ => attrs !! key
  end.

(** [tag.find_all(names)], with an optional further test on the
    element. *)
Definition find_all_where (names : list string) (test : node -> bool) (n : node)
  : list node :=
  List.filter (fun d => has_name names d && test d) (descendants n).

Definition find_all (names : list string) (n : node) : list node :=
  find_all_where names (fun _ => true) n.

(** [tag.find(name)]: the first one, or [None]. *)
Definition find_where (names : list string) (test : node -> bool) (n : node)
  : option node :=
  List.head (find_all_where names test n).

Definition find (name : string) (n : node) : option node :=
  find_where [name] (fun _ => true) n.

(** The texts below an element, in document order. *)
Definition strings (n : node) : list string :=
  omap (fun d => match d with Text s => Some s | Tag _ _ _ => None end)
       (descendants n).

(** [tag.get_text(strip=True)]: every text stripped, the empty ones
    left out, the rest concatenated. *)
Definition get_text_strip (n : node) : string :=
  PyStr.join "" (List.filter PyStr.truthy (map PyStr.strip (strings n))).

(** The values of a multi-valued attribute ([class], [rel]): the
    maximal runs of non-blank characters. *)
Fixpoint words (s : string) : list string :=
  match s with
  | EmptyString => []
  | String c s' =>
      if PyStr.is_space c then words s'
      else match s' with
           | EmptyString => [String c EmptyString]
           | String c' _ =>
               if PyStr.is_space c' then String c EmptyString :: words s'
               else match words s' with
                    | w :: ws => String c w :: ws
                    | [] => [String c EmptyString]
                    end
           end
  end.

(** A test against a multi-valued attribute holds when it holds of one
    of the values or of the values joined by single spaces; an element
    without the attribute is tested by the caller. *)
Definition multi_match (test : string -> bool) (value : string) : bool :=
  let values := words value in
  existsb test values || test (PyStr.join " " values).

(** [attrs={key: wanted}] on a single-valued attribute. *)
Definition attr_is (key wanted : string) (n : node) : bool :=
  match get key n with
  | Some v => String.eqb v wanted
  | None => false
  end.

(** [rel=wanted]. *)
Definition rel_is (wanted : string) (n : node) : bool :=
  match get "rel" n with
  | Some v => multi_match (String.eqb wanted) v
  | None => false
  end.

(** [class_=test], for a [test] that is false on [None]. *)
Definition class_where (test : string -> bool) (n : node) : bool :=
  match get "class" n with
  | Some v => multi_match test v
  | None => false
  end.

End Soup.

(* ===================================================================== *)
(** * sitemap.py: [SitemapParser] *)
(* ===================================================================== *)

Module Sitemap.
Import Soup.

Section Parser.

(** Python's [float] and its constructor from a text; [None] stands
    for the [ValueError] of a text that is no number. *)
Variable float : Type.
Variable float_of_str : string -> option float.

Record SitemapEntry : Type := mkEntry {
  url : string;
  lastmod : option string;
  changefreq : option string;
  priority : option float
}.

Definition is_sitemap_index (soup : node) : bool :=
  match find "sitemapindex" soup with Some _ => true | None => false end.

(** The loop of [parse_sitemap_index]. *)
Fixpoint sitemap_locs (elems : list node) (sitemaps : list string) : list string :=
  match elems with
  | [] => sitemaps
  | sitemap :: rest =>
      match find "loc" sitemap with
      | Some loc => sitemap_locs rest (sitemaps ++ [get_text_strip loc])
      | None => sitemap_locs rest sitemaps
      end
  end.

Definition parse_sitemap_index (soup : node) : list string :=
  sitemap_locs (find_all ["sitemap"] soup) [].

(** The body of the loop of [parse_urlset] for one [url] element:
    [None] when the element has no [loc] ([continue]). *)
Definition parse_url_elem (url_elem : node) : option SitemapEntry :=
  match find "loc" url_elem with
  | None => None
  | Some loc =>
      let entry := mkEntry (get_text_strip loc) None None None in
      let entry :=
        match find "lastmod" url_elem with
        | Some lastmod =>
            mkEntry (url entry) (Some (get_text_strip lastmod))
                    (changefreq entry) (priority entry)
        | None => entry
        end in
      let entry :=
        match find "changefreq" url_elem with
        | Some changefreq' =>
            mkEntry (url entry) (lastmod entry)
                    (Some (get_text_strip changefreq')) (priority entry)
        | None => entry
        end in
      let entry :=
        match find "priority" url_elem with
        | Some priority' =>
            match float_of_str (get_text_strip priority') with
            | Some x => mkEntry (url entry) (lastmod entry) (changefreq entry) (Some x)
            | None => entry      (* except ValueError: pass *)
            end
        | None => entry
        end in
      Some entry
  end.

(** The loop of [parse_urlset]. *)
Fixpoint urlset_loop (elems : list node) (entries : list SitemapEntry)
  : list SitemapEntry :=
  match elems with
  | [] => entries
  | url_elem :: rest =>
      match parse_url_elem url_elem with
      | None => urlset_loop rest entries
      | Some entry => urlset_loop rest (entries ++ [entry])
      end
  end.

Definition parse_urlset (soup : node) : list SitemapEntry :=
  urlset_loop (find_all ["url"] soup) [].

(** What a run of the generator [get_all_urls] does, in order: the
    sitemaps it fetches and the entries it yields. *)
Inductive event : Type :=
| Fetch (sitemap_url : string)
| Yield (entry : SitemapEntry).

(** [fetch_sitemap]: the parsed document, or [None] on a failed
    request. *)
Variable fetch_sitemap : string -> option node.

(** [max_urls and count >= max_urls]. *)
Definition limit_reached (max_urls : option Z) (count : Z) : bool :=
  match max_urls with
  | None => false
  | Some m => negb (m =? 0)%Z && (m <=? count)%Z
  end.

(** [pattern and not pattern.search(entry.url)], the compiled filter
    given by its [search]. *)
Definition filtered_out (pattern : option (string -> bool)) (entry : SitemapEntry)
  : bool :=
  match pattern with
  | None => false
  | Some search => negb (search (url entry))
  end.

(** The loop over the entries of one url set: the events and the
    count at its end. *)
Fixpoint yield_loop (pattern : option (string -> bool)) (max_urls : option Z)
         (entries : list SitemapEntry) (count : Z) : list event * Z :=
  match entries with
  | [] => ([], count)
  | entry :: rest =>
      if limit_reached max_urls count then ([], count)
      else if filtered_out pattern entry
           then yield_loop pattern max_urls rest count
           else let '(evs, count') :=
                  yield_loop pattern max_urls rest (count + 1) in
                (Yield entry :: evs, count')
  end.

Definition has_post (url : string) : bool :=
  PyStr.contains "post" (PyStr.last_item (PyStr.split "/" (PyStr.lower url))).

Definition ignore_keywords : list string :=
  ["category"; "tag"; "author"; "user"; "page"].

Definition ignored (child_sitemap_url : string) : bool :=
  existsb (fun k => PyStr.contains k (PyStr.lower child_sitemap_url))
          ignore_keywords.

(** The loop over [target_sitemaps]; [filter_for_posts] is the truth
    value of [post_sitemaps]. *)
Fixpoint child_loop (pattern : option (string -> bool)) (max_urls : option Z)
         (filter_for_posts : bool) (targets : list string) (count : Z)
  : list event * Z :=
  match targets with
  | [] => ([], count)
  | child_sitemap_url :: rest =>
      if limit_reached max_urls count then ([], count)
      else if negb filter_for_posts && ignored child_sitemap_url
           then child_loop pattern max_urls filter_for_posts rest count
           else
             match fetch_sitemap child_sitemap_url with
             | Some child_soup =>
                 let '(evs, count') :=
                   yield_loop pattern max_urls (parse_urlset child_soup) count in
                 let '(evs', count'') :=
                   child_loop pattern max_urls filter_for_posts rest count' in
                 (Fetch child_sitemap_url :: evs ++ evs', count'')
             | None =>
                 let '(evs', count') :=
                   child_loop pattern max_urls filter_for_posts rest count in
                 (Fetch child_sitemap_url :: evs', count')
             end
  end.

(** [get_all_urls(sitemap_url, url_filter, max_urls)], run to its end;
    [pattern] is [re.compile(url_filter)], or [None] when [url_filter]
    is [None] or empty. *)
Definition get_all_urls (sitemap_url : string)
           (pattern : option (string -> bool)) (max_urls : option Z)
  : list event :=
  let count := 0%Z in
  match fetch_sitemap sitemap_url with
  | None => [Fetch sitemap_url]
  | Some soup =>
      Fetch sitemap_url ::
      if is_sitemap_index soup then
        let child_sitemaps := parse_sitemap_index soup in
        let post_sitemaps := List.filter has_post child_sitemaps in
        let filter_for_posts :=
          match post_sitemaps with [] => false | _ :: _ => true end in
        let target_sitemaps :=
          if filter_for_posts then post_sitemaps else child_sitemaps in
        fst (child_loop pattern max_urls filter_for_posts target_sitemaps count)
      else
        fst (yield_loop pattern max_urls (parse_urlset soup) count)
  end.

(** The entries a consumer receives, and the sitemaps requested. *)
Definition yielded (evs : list event) : list SitemapEntry :=
  omap (fun ev => match ev with Yield e => Some e | Fetch _ => None end) evs.

Definition fetched (evs : list event) : list string :=
  omap (fun ev => match ev with Fetch u => Some u | Yield _ => None end) evs.

End Parser.

Arguments mkEntry {float}.
Arguments url {float}.
Arguments lastmod {float}.
Arguments changefreq {float}.
Arguments priority {float}.
Arguments Fetch {float}.
Arguments Yield {float}.
Arguments yielded {float}.
Arguments fetched {float}.

End Sitemap.

(* ===================================================================== *)
(** * models.py *)
(* ===================================================================== *)

Module Models.

Record ContentSection : Type := mkSection {
  heading : string;
  content : string;
  level : Z
}.

Record ArticleContent : Type := mkArticle {
  a_url : string;
  a_title : string;
  a_author : string;
  a_publish_date : string;
  a_category : string;
  a_meta_description : string;
  a_content_html : string;
  a_sections : list ContentSection;
  a_tags : list string;
  a_scraped_at : string
}.

End Models.

(* ===================================================================== *)
(** * extractors.py: [ContentExtractor] *)
(* ===================================================================== *)

Module Extractors.
Import Soup Models.

(** ** [extract_tags] *)

(** [tags.add(x)]. *)
Definition add (x : string) (tags : gset string) : gset string := {[ x ]} ∪ tags.

(** Strategy A: the loop over the comma-separated keywords. *)
Fixpoint add_keywords (keywords : list string) (tags : gset string) : gset string :=
  match keywords with
  | [] => tags
  | kw :: rest =>
      let kw := PyStr.strip kw in
      add_keywords rest (if PyStr.truthy kw then add kw tags else tags)
  end.

Definition strategy_a (soup : node) (tags : gset string) : gset string :=
  match find_where ["meta"] (attr_is "name" "keywords") soup with
  | Some meta_keywords =>
      match get "content" meta_keywords with
      | Some c =>
          if PyStr.truthy c then add_keywords (PyStr.split "," c) tags else tags
      | None => tags
      end
  | None => tags
  end.

(** Strategy B: the loop over the [article:tag] meta elements. *)
Fixpoint add_article_tags (metas : list node) (tags : gset string) : gset string :=
  match metas with
  | [] => tags
  | meta_tag :: rest =>
      add_article_tags rest
        match get "content" meta_tag with
        | Some c => if PyStr.truthy c then add (PyStr.strip c) tags else tags
        | None => tags
        end
  end.

Definition strategy_b (soup : node) (tags : gset string) : gset string :=
  add_article_tags (find_all_where ["meta"] (attr_is "property" "article:tag") soup) tags.

(** Strategy C: the loop over the anchors with [rel="tag"]. *)
Fixpoint add_links (links : list node) (tags : gset string) : gset string :=
  match links with
  | [] => tags
  | link :: rest =>
      let tag_text := get_text_strip link in
      add_links rest (if PyStr.truthy tag_text then add tag_text tags else tags)
  end.

Definition strategy_c (soup : node) (tags : gset string) : gset string :=
  add_links (find_all_where ["a"] (rel_is "tag") soup) tags.

(** Strategy D: the loops over the containers and over their anchors. *)
Fixpoint add_short_links (links : list node) (tags : gset string) : gset string :=
  match links with
  | [] => tags
  | link :: rest =>
      let tag_text := get_text_strip link in
      add_short_links rest
        (if PyStr.truthy tag_text && (String.length tag_text <? 50)%nat
         then add tag_text tags else tags)
  end.

Fixpoint add_containers (containers : list node) (tags : gset string) : gset string :=
  match containers with
  | [] => tags
  | container :: rest =>
      add_containers rest (add_short_links (find_all ["a"] container) tags)
  end.

(** [lambda c: c and 'tag' in c.lower() if c else False]. *)
Definition tag_class (c : string) : bool :=
  if PyStr.truthy c then PyStr.truthy c && PyStr.contains "tag" (PyStr.lower c)
  else false.

Definition strategy_d (soup : node) (tags : gset string) : gset string :=
  add_containers
    (find_all_where ["div"; "span"; "ul"] (class_where tag_class) soup) tags.

(** The set [tags] at the [return]. *)
Definition extract_tags_set (soup : node) : gset string :=
  strategy_d soup (strategy_c soup (strategy_b soup (strategy_a soup ∅))).

(** [extract_tags]: [list(tags)], in the order of the set's
    enumeration. *)
Definition extract_tags (soup : node) : list string :=
  elements (extract_tags_set soup).

(** ** [_extract_sections] *)

(** [_extract_table_text]: the loop over the rows. *)
Fixpoint table_rows (trs : list node) (rows : list string) : list string :=
  match trs with
  | [] => rows
  | tr :: rest =>
      let cells := map get_text_strip (find_all ["td"; "th"] tr) in
      match cells with
      | [] => table_rows rest rows
      | _ :: _ => table_rows rest (rows ++ [PyStr.join " | " cells])
      end
  end.

Definition _extract_table_text (table : node) : string :=
  PyStr.join (String "010" "") (table_rows (find_all ["tr"] table) []).

(** The prefix of a list item in the text of a list: two blanks, the
    three characters U+00E2, U+20AC, U+00A2 of the source file and a
    blank, one character of the string for each, so that [String.length]
    is [len].  U+20AC lies outside Latin-1 and is written as character
    128, its Windows-1252 code; like U+20AC, character 128 is no blank,
    digit or letter and has no other case for the operations above. *)
Definition BULLET : string :=
  String " " (String " " (String "226" (String "128" (String "162" " ")))).

Definition NL : string := String "010" "".

(** The variables of the loop of [_extract_sections]. *)
Record state : Type := mkState {
  intro_parts : list string;
  current_section : option ContentSection;
  sections : list ContentSection
}.

Definition name_of (element : node) : string :=
  match element with Tag name _ _ => name | Text _ => "" end.

(** [current_section.content += text]. *)
Definition append_content (text : string) (s : ContentSection) : ContentSection :=
  mkSection (heading s) (content s +:+ text) (level s).

(** [current_section and current_section.content.strip()]: the section
    to append, if any. *)
Definition closed (current : option ContentSection) : list ContentSection :=
  match current with
  | Some s => if PyStr.truthy (PyStr.strip (content s)) then [s] else []
  | None => []
  end.

(** The body of the loop for one element. *)
Definition step (st : state) (element : node) : state :=
  let name := name_of element in
  if String.eqb name "h2" then
    let heading_text := get_text_strip element in
    mkState (intro_parts st)
            (Some (mkSection heading_text "" 2))
            (sections st ++ closed (current_section st))
  else
    match String.eqb name "h3", current_section st with
    | true, Some cur =>
        mkState (intro_parts st)
                (Some (append_content
                         (NL +:+ NL +:+ "### " +:+ get_text_strip element +:+ NL) cur))
                (sections st)
    | _, _ =>
        if String.eqb name "p" then
          let text := get_text_strip element in
          if PyStr.truthy text then
            match current_section st with
            | None => mkState (intro_parts st ++ [text]) None (sections st)
            | Some cur =>
                mkState (intro_parts st)
                        (Some (append_content (NL +:+ text) cur)) (sections st)
            end
          else st
        else if PyStr.mem name ["ul"; "ol"] then
          let items := find_all ["li"] element in
          let list_text :=
            PyStr.join NL (map (fun li => BULLET +:+ get_text_strip li) items) in
          match current_section st with
          | Some cur =>
              mkState (intro_parts st)
                      (Some (append_content (NL +:+ list_text) cur)) (sections st)
          | None => mkState (intro_parts st ++ [list_text]) None (sections st)
          end
        else if String.eqb name "table" then
          let table_text := _extract_table_text element in
          match current_section st with
          | Some cur =>
              mkState (intro_parts st)
                      (Some (append_content (NL +:+ NL +:+ table_text +:+ NL) cur))
                      (sections st)
          | None => st
          end
        else st
    end.

(** The statements after the loop. *)
Definition finish (st : state) : list ContentSection :=
  let sections := sections st ++ closed (current_section st) in
  let intro_text := PyStr.join (NL +:+ NL) (intro_parts st) in
  let all_sections :=
    if PyStr.truthy (PyStr.strip intro_text)
    then [mkSection "" intro_text 0] else [] in
  all_sections ++ sections.

Definition BLOCKS : list string := ["p"; "h2"; "h3"; "ul"; "ol"; "table"].

Definition _extract_sections (article : node) : list ContentSection :=
  finish (fold_left step (find_all BLOCKS article) (mkState [] None [])).

End Extractors.

(* ===================================================================== *)
(** * scraper.py: [Scraper.is_valid_article] and the end of [scrape] *)
(* ===================================================================== *)

Module Scraper.
Import Models.

(** The dictionary [content]; a key may be missing. *)
Record content_dict : Type := mkContent {
  title : option string;
  content_html : option string;
  sections : option (list ContentSection)
}.

(** [d.get(key, default)]. *)
Definition get_or {A : Type} (field : option A) (default : A) : A :=
  match field with Some v => v | None => default end.

(** The loop [for section in sections: total_length += len(section.content)]. *)
Fixpoint add_lengths (sections : list ContentSection) (total_length : nat) : nat :=
  match sections with
  | [] => total_length
  | section :: rest => add_lengths rest (total_length + String.length (content section))
  end.

Definition is_valid_article (content : content_dict) : bool * string :=
  let content_html := get_or (content_html content) "" in
  let sections := get_or (sections content) [] in
  let total_length := String.length content_html in
  let total_length :=
    if (total_length =? 0)%nat then add_lengths sections total_length
    else total_length in
  if (total_length <? 100)%nat then (false, "Content too short")
  else (true, "Valid article").

(** Step 4 of [scrape] and the construction of the record, from the
    results of the extraction ([meta], [info], [content], [tags]) of a
    fetched page; [None] is the [return None] of a rejected page. *)
Definition scrape_extracted (url og_title description author date category : string)
           (content : content_dict) (tags : list string) (now : string)
  : option ArticleContent :=
  let '(is_valid, reason) := is_valid_article content in
  if negb is_valid then None
  else
    let title := get_or (title content) "" in
    Some (mkArticle url (if PyStr.truthy title then title else og_title)
                    author date category description
                    (get_or (content_html content) "")
                    (get_or (sections content) [])
                    tags now).

End Scraper.

(* ===================================================================== *)
(** * Sample documents *)
(* ===================================================================== *)

Module Examples.
Import Soup.

(** An element without attributes. *)
Definition elem (name : string) (contents : list node) : node :=
  Tag name ∅ contents.

Definition loc (u : string) : node := elem "loc" [Text u].

(** A sitemap index that lists [children]. *)
Definition sitemap_index (children : list string) : node :=
  elem "[document]"
       [elem "sitemapindex" (map (fun u => elem "sitemap" [loc u]) children)].

(** A url set with one bare [url] entry per address. *)
Definition urlset (urls : list string) : node :=
  elem "[document]" [elem "urlset" (map (fun u => elem "url" [loc u]) urls)].

(** A url set whose second entry has a priority that is no number. *)
Definition urlset_bad_priority : node :=
  elem "[document]"
       [elem "urlset"
             [elem "url" [loc "https://example.com/a"; elem "priority" [Text "0.8"]];
              elem "url" [loc "https://example.com/b";
                          elem "lastmod" [Text "2024-01-02"];
                          elem "changefreq" [Text " weekly "];
                          elem "priority" [Text "high"]];
              elem "url" [loc "https://example.com/c"]]].

(** A stand-in for [float]: the few priorities of the samples, in tenths. *)
Definition tenths (s : string) : option Z :=
  if String.eqb s "0.5" then Some 5%Z
  else if String.eqb s "0.8" then Some 8%Z
  else if String.eqb s "1.0" then Some 10%Z
  else None.

Definition numbered (stem : string) (ns : list string) : list string :=
  map (fun n => stem +:+ n) ns.

(** The sitemaps of a sample site, by address. *)
Definition site (u : string) : option node :=
  if String.eqb u "https://example.com/sitemap.xml" then
    Some (sitemap_index ["https://example.com/post-sitemap.xml";
                         "https://example.com/category-sitemap.xml";
                         "https://example.com/tag-sitemap.xml"])
  else if String.eqb u "https://example.com/sitemap-taxonomies.xml" then
    Some (sitemap_index ["https://example.com/category-sitemap.xml";
                         "https://example.com/tag-sitemap.xml"])
  else if String.eqb u "https://example.com/sitemap-posts.xml" then
    Some (sitemap_index ["https://example.com/post-sitemap.xml";
                         "https://example.com/post-sitemap2.xml"])
  else if String.eqb u "https://example.com/post-sitemap.xml" then
    Some (urlset (numbered "https://example.com/blog/2024/post-" ["1"; "2"; "3"]))
  else if String.eqb u "https://example.com/post-sitemap2.xml" then
    Some (urlset (numbered "https://example.com/blog/2023/post-"
                           ["1"; "2"; "3"; "4"; "5"; "6"; "7"]))
  else if String.eqb u "https://example.com/category-sitemap.xml" then
    Some (urlset ["https://example.com/category/news"])
  else if String.eqb u "https://example.com/tag-sitemap.xml" then
    Some (urlset ["https://example.com/tag/python"])
  else None.

(** A page with the keywords "a, b, a" and one anchor [rel="tag"] of
    text "c". *)
Definition tags_page : node :=
  elem "[document]"
       [elem "html"
             [elem "head"
                   [Tag "meta" {[ "name" := "keywords"; "content" := "a, b, a" ]} []];
              elem "body" [Tag "a" {[ "rel" := "tag"; "href" := "/tag/c" ]} [Text "c"]]]].

(** A table of one row, "a | b" as text. *)
Definition small_table : node :=
  elem "table" [elem "tr" [elem "td" [Text "a"]; elem "td" [Text "b"]]].

(** A list of one item. *)
Definition small_list : node := elem "ul" [elem "li" [Text "a"]].

(** An article whose only block is the table, and one whose only block
    is the list. *)
Definition table_only : node := elem "div" [small_table].
Definition list_only : node := elem "div" [small_list].

(** An article with a level-3 heading before its first level-2 heading,
    and the same article without it. *)
Definition early_h3 : node :=
  elem "div" [elem "p" [Text "Lead."];
              elem "h3" [Text "Too early"];
              elem "h2" [Text "First"];
              elem "h3" [Text "Inside"];
              elem "p" [Text "Body."]].

Definition early_h3_removed : node :=
  elem "div" [elem "p" [Text "Lead."];
              elem "h2" [Text "First"];
              elem "h3" [Text "Inside"];
              elem "p" [Text "Body."]].

End Examples.

(* ===================================================================== *)
(** * The vocabulary of the properties *)
(* ===================================================================== *)

Module UrlProps.
Import PyStr Url Validators.

(** The query has a field whose name, the text before its [=], is
    [key]. *)
Definition query_mentions_key (key qs : string) : bool :=
  existsb (fun field => String.eqb (partition "=" field).1.1 key) (split "&" qs).

(** A field [name=value] with a value, whose decoded name is a
    pagination key: what [parse_qs] keeps of a query. *)
Definition pagination_field (unquote_escapes : string -> string) (field : string)
  : Prop :=
  exists name value,
    partition "=" field = (name, true, value) /\ value <> "" /\
    In (unquote unquote_escapes (replace_char "+" " " name)) PAGINATION_PARAMS.

(** The path has [/page/] followed by at least one decimal digit. *)
Definition page_in_path (p : string) : Prop :=
  exists pre ds post,
    p = pre +:+ "/page/" +:+ ds +:+ post /\ ds <> "" /\
    all_chars is_decimal ds = true.

(** The host has at least three labels and the first is a blog
    subdomain. *)
Definition blog_host (host : string) : Prop :=
  let labels := split "." (lower host) in
  3 <= length labels /\ In (List.hd "" labels) BLOG_SUBDOMAINS.

(** The path is [/seg] or [/seg/] for a non-empty [seg] without [/]. *)
Definition single_segment (p seg : string) : Prop :=
  seg <> "" /\ all_chars (fun c => negb (Ascii.eqb "/" c)) seg = true /\
  (p = String "/" seg \/ p = String "/" (seg +:+ "/")).

(** No pagination key among the keys of the parsed query. *)
Definition no_pagination_key (unquote_escapes : string -> string) (qs : string)
  : Prop :=
  forall param, In param PAGINATION_PARAMS ->
                has_key param (parse_qs unquote_escapes qs) = false.

End UrlProps.

Module SitemapProps.
Import Soup Sitemap.

Section Props.

Variable float : Type.
Variable float_of_str : string -> option float.
Variable fetch_sitemap : string -> option node.
Variable pattern : option (string -> bool).

(** The child sitemaps that smart filtering retains: those whose last
    segment contains "post" if there is one, else those whose URL
    contains none of the keywords. *)
Definition retained (child_sitemaps : list string) : list string :=
  if existsb has_post child_sitemaps
  then List.filter has_post child_sitemaps
  else List.filter (fun c => negb (ignored c)) child_sitemaps.

(** The entries of a url set that pass the filter, in document
    order. *)
Definition matching (entries : list (SitemapEntry float))
  : list (SitemapEntry float) :=
  List.filter (fun e => negb (filtered_out float pattern e)) entries.

(** The filter-matching entries of a child sitemap; none when its
    request fails. *)
Definition child_entries (child : string) : list (SitemapEntry float) :=
  match fetch_sitemap child with
  | Some soup => matching (parse_urlset float float_of_str soup)
  | None => []
  end.

(** The filter-matching entries of the retained children of an index,
    child after child. *)
Definition index_entries (soup : node) : list (SitemapEntry float) :=
  flat_map child_entries (retained (parse_sitemap_index soup)).

(** All the filter-matching entries behind a sitemap URL. *)
Definition all_entries (sitemap_url : string) : list (SitemapEntry float) :=
  match fetch_sitemap sitemap_url with
  | None => []
  | Some soup =>
      if is_sitemap_index soup then index_entries soup
      else matching (parse_urlset float float_of_str soup)
  end.

End Props.

(** How many more entries may be yielded at [count]; [None] when there
    is no limit ([max_urls] is [None] or zero). *)
Definition quota (max_urls : option Z) (count : Z) : option nat :=
  match max_urls with
  | None => None
  | Some m => if (m =? 0)%Z then None else Some (Z.to_nat (m - count))
  end.

Definition cut {A : Type} (q : option nat) (l : list A) : list A :=
  match q with
  | None => l
  | Some n => firstn n l
  end.

(** The children that the loop over [target_sitemaps] does not skip. *)
Definition kept (filter_for_posts : bool) (targets : list string) : list string :=
  List.filter (fun c => negb (negb filter_for_posts && ignored c)) targets.

Definition unlimited (max_urls : option Z) : Prop :=
  max_urls = None \/ max_urls = Some 0%Z.

End SitemapProps.

Module ExtractorProps.
Import Soup Extractors.

(** The four sources of tags, each as the list of what it finds. *)

(** (a) The comma-separated keywords of the first [keywords] meta
    element, trimmed, the empty ones left out. *)
Definition keywords_tags (soup : node) : list string :=
  match find_where ["meta"] (attr_is "name" "keywords") soup with
  | Some meta_keywords =>
      match get "content" meta_keywords with
      | Some c => List.filter PyStr.truthy (map PyStr.strip (PyStr.split "," c))
      | None => []
      end
  | None => []
  end.

(** (b) The trimmed content of every [article:tag] meta element that has
    a content. *)
Definition article_tags (soup : node) : list string :=
  omap (fun meta_tag =>
          match get "content" meta_tag with
          | Some c => if PyStr.truthy c then Some (PyStr.strip c) else None
          | None => None
          end)
       (find_all_where ["meta"] (attr_is "property" "article:tag") soup).

(** (c) The text of every anchor with [rel="tag"] that has a text. *)
Definition rel_tags (soup : node) : list string :=
  List.filter PyStr.truthy
              (map get_text_strip (find_all_where ["a"] (rel_is "tag") soup)).

(** (d) The text, if it has one of fewer than 50 characters, of every
    anchor inside a [div], [span] or [ul] whose class contains "tag". *)
Definition container_tags (soup : node) : list string :=
  List.filter (fun t => PyStr.truthy t && (String.length t <? 50)%nat)
              (map get_text_strip
                   (flat_map (find_all ["a"])
                             (find_all_where ["div"; "span"; "ul"]
                                             (class_where tag_class) soup))).

End ExtractorProps.

Module ScraperProps.
Import Models Scraper.

(** The total extracted length: the length of [content_html], or, when
    that is zero, the sum of the lengths of the section bodies. *)
Definition total_length (c : content_dict) : nat :=
  let n := String.length (get_or (content_html c) "") in
  if (n =? 0)%nat
  then list_sum (map (fun s => String.length (content s)) (get_or (sections c) []))
  else n.

End ScraperProps.

(* ===================================================================== *)
(** * sitemap.py: [discover_sitemap] *)
(* ===================================================================== *)

Module Discovery.

Definition common_paths : list string :=
  ["/sitemap.xml"; "/sitemap_index.xml"; "/sitemap-index.xml";
   "/post-sitemap.xml"; "/page-sitemap.xml"; "/wp-sitemap.xml"].

Section Discover.

(** [requests.head(url, ...)]: the status code of the answer, or [None]
    for a [RequestException]. *)
Variable head : string -> option Z.

(** The loop over [common_paths]: the location found, if any, and the
    locations requested, in order. *)
Fixpoint probe (base_url : string) (paths : list string)
  : option string * list string :=
  match paths with
  | [] => (None, [])
  | path :: rest =>
      let url := base_url +:+ path in
      match head url with
      | Some status_code =>
          if (status_code =? 200)%Z then (Some url, [url])
          else let '(found, requested) := probe base_url rest in
               (found, url :: requested)
      | None =>                             (* except RequestException: continue *)
          let '(found, requested) := probe base_url rest in
          (found, url :: requested)
      end
  end.

Definition discover_sitemap (base_url : string) : option string * list string :=
  let base_url := PyStr.rstrip (Ascii.eqb "/") base_url in
  probe base_url common_paths.

End Discover.

End Discovery.

(* ===================================================================== *)
(** * extractors.py: metadata, content area and cleaned HTML *)
(* ===================================================================== *)

Module Content.
Import Soup Models Extractors.

(** [tag.get_text()]: the texts below, concatenated as they are. *)
Definition get_text (n : node) : string := PyStr.join "" (strings n).

(** ** [extract_meta] *)

Record meta : Type := mkMeta {
  og_title : string;
  og_image : string;
  description : string
}.

(** [elem.get('content', '')] of an optional element; [default] when
    there is no element. *)
Definition content_of (found : option node) (default : string) : string :=
  match found with
  | Some m => match get "content" m with Some c => c | None => "" end
  | None => default
  end.

Definition extract_meta (soup : node) : meta :=
  mkMeta (content_of (find_where ["meta"] (attr_is "property" "og:title") soup) "")
         (content_of (find_where ["meta"] (attr_is "property" "og:image") soup) "")
         (content_of (find_where ["meta"] (attr_is "name" "description") soup) "").

(** ** [extract_article_info] *)

Record info : Type := mkInfo {
  author : string;
  category : string;
  date : string
}.

(** [lambda c: c and word in c.lower() if c else False]. *)
Definition class_has (word c : string) : bool :=
  if PyStr.truthy c then PyStr.truthy c && PyStr.contains word (PyStr.lower c)
  else false.

(** [a or b] on optional elements. *)
Definition or_else (a b : option node) : option node :=
  match a with Some _ => a | None => b end.

Section Info.

(** [re.search(date_pattern, page_text)]: the text matched, if any. *)
Variable search_date : string -> option string.

Definition extract_article_info (soup : node) : info :=
  let author :=
    match find_where ["a"] (class_where (class_has "author")) soup with
    | Some author_elem => get_text_strip author_elem
    | None => "Unknown"
    end in
  let category :=
    match or_else (find_where ["a"] (rel_is "category tag") soup)
                  (find_where ["a"] (class_where (class_has "category")) soup) with
    | Some cat_elem => get_text_strip cat_elem
    | None => "Unknown"
    end in
  let date :=
    match search_date (get_text soup) with
    | Some matched => matched
    | None => "Unknown"
    end in
  mkInfo author category date.

End Info.

(** ** [_extract_html_content] *)

(** [f"<{tag}>{text}</{tag}>"]. *)
Definition wrap (tag text : string) : string :=
  "<" +:+ tag +:+ ">" +:+ text +:+ "</" +:+ tag +:+ ">".

(** [_extract_table_html]: the loop over the rows. *)
Fixpoint table_html_rows (trs : list node) (rows_html : list string) : list string :=
  match trs with
  | [] => rows_html
  | tr :: rest =>
      let cells := map (fun td => wrap "td" (get_text_strip td))
                       (find_all ["td"; "th"] tr) in
      match cells with
      | [] => table_html_rows rest rows_html
      | _ :: _ => table_html_rows rest (rows_html ++ [wrap "tr" (PyStr.join "" cells)])
      end
  end.

Definition _extract_table_html (table : node) : string :=
  wrap "table" (PyStr.join "" (table_html_rows (find_all ["tr"] table) [])).

Definition _clean_html_element (element : node) : string :=
  let tag_name := name_of element in
  if PyStr.mem tag_name ["p"; "h2"; "h3"; "h4"; "blockquote"] then
    let text := get_text_strip element in
    if PyStr.truthy text then wrap tag_name text else ""
  else if PyStr.mem tag_name ["ul"; "ol"] then
    let items := find_all ["li"] element in
    let list_html := PyStr.join "" (map (fun li => wrap "li" (get_text_strip li)) items) in
    wrap tag_name list_html
  else if String.eqb tag_name "table" then _extract_table_html element
  else "".

Definition allowed_tags : list string :=
  ["p"; "h2"; "h3"; "h4"; "ul"; "ol"; "li"; "table"; "tr"; "td"; "th";
   "strong"; "em"; "br"; "blockquote"].

Definition HTML_BLOCKS : list string :=
  ["p"; "h2"; "h3"; "h4"; "ul"; "ol"; "table"; "blockquote"].

(** The loop of [_extract_html_content]. *)
Fixpoint html_loop (elements : list node) (html_parts : list string) : list string :=
  match elements with
  | [] => html_parts
  | element :: rest =>
      if PyStr.mem (name_of element) allowed_tags then
        let clean_elem := _clean_html_element element in
        if PyStr.truthy clean_elem then html_loop rest (html_parts ++ [clean_elem])
        else html_loop rest html_parts
      else html_loop rest html_parts
  end.

Definition _extract_html_content (article : option node) : string :=
  match article with
  | None => ""
  | Some article => PyStr.join NL (html_loop (find_all HTML_BLOCKS article) [])
  end.

(** ** [_find_content_area] *)

Definition CONTENT_SELECTORS : list string :=
  ["div.elementor-widget-theme-post-content"; "div.entry-content";
   "div.post-content"; "div.article-content"; "div.td-post-content";
   "div.blog-post-content"; "div.single-post-content"].

Definition EXCLUDE_CLASSES : list string :=
  ["toc"; "table-of-contents"; "widget"; "sidebar"; "menu"; "nav";
   "header"; "footer"; "related"; "comment"].

(** [max(items, key=key)] of a list headed by [best]: the first item of
    the greatest key. *)
Fixpoint max_by {A : Type} (key : A -> nat) (best : A) (items : list A) : A :=
  match items with
  | [] => best
  | x :: rest => if (key best <? key x)%nat then max_by key x rest
                 else max_by key best rest
  end.

(** The inner function [is_content_div]. *)
Definition is_content_div (tag : node) : bool :=
  if negb (String.eqb (name_of tag) "div") then false
  else
    match get "class" tag with
    | None => false
    | Some value =>
        let classes := words value in
        match classes with
        | [] => false
        | _ :: _ =>
            let class_str := PyStr.lower (PyStr.join " " classes) in
            if negb (PyStr.contains "content" class_str) then false
            else if existsb (fun ex => PyStr.contains ex class_str) EXCLUDE_CLASSES
                 then false
                 else true
        end
    end.

(** [soup.find(test)] for a test on elements. *)
Definition find_tag (test : node -> bool) (soup : node) : option node :=
  List.head (List.filter (fun d => match d with Tag _ _ _ => test d | Text _ => false end)
                         (descendants soup)).

Section Area.

(** [soup.select_one(selector)]. *)
Variable select_one : string -> node -> option node.

(** The loop over [CONTENT_SELECTORS]. *)
Fixpoint first_selected (selectors : list string) (soup : node) : option node :=
  match selectors with
  | [] => None
  | selector :: rest =>
      match select_one selector soup with
      | Some article => Some article
      | None => first_selected rest soup
      end
  end.

Definition _find_content_area (soup : node) : option node :=
  match first_selected CONTENT_SELECTORS soup with
  | Some article => Some article
  | None =>
      match find_all ["article"] soup with
      | a :: articles =>
          Some (max_by (fun a => String.length (get_text a)) a articles)
      | [] =>
          match find_tag is_content_div soup with
          | Some article => Some article
          | None => or_else (find "main" soup) (find "body" soup)
          end
      end
  end.

(** ** [extract_content] *)

Definition extract_content (soup : node) : Scraper.content_dict :=
  let title :=
    match find "h1" soup with
    | Some h1 => get_text_strip h1
    | None => ""
    end in
  match _find_content_area soup with
  | Some article =>
      Scraper.mkContent (Some title)
                        (Some (_extract_html_content (Some article)))
                        (Some (_extract_sections article))
  | None => Scraper.mkContent (Some title) (Some "") (Some [])
  end.

End Area.

End Content.

(* ===================================================================== *)
(** * scraper.py: [scrape] and [scrape_from_sitemap] *)
(* ===================================================================== *)

Module Pipeline.
Import Soup Models Sitemap.

Section Scrape.

(** The world of a run: how a URL parses, what the pages and sitemaps
    are, what the probes answer, and the successive readings of the
    clock ([datetime.now().isoformat()]). *)
Variable unquote_escapes : string -> string.
Variable min_path_depth : Z.
Variable urlparse : string -> Url.ParseResult.
Variable fetch_page : string -> option node.
Variable select_one : string -> node -> option node.
Variable search_date : string -> option string.
Variable clock : nat -> string.
Variable float : Type.
Variable float_of_str : string -> option float.
Variable fetch_sitemap : string -> option node.
Variable head : string -> option Z.

(** [self.url_validator.is_single_post(url)]. *)
Definition is_single_post (url : string) : bool * string :=
  Validators.is_single_post unquote_escapes min_path_depth (urlparse url).

(** [scrape(url, validate_url)] when [tick] records have been built
    before: the record, if any, and the pages requested. *)
Definition scrape (url : string) (validate_url : bool) (tick : nat)
  : option ArticleContent * list string :=
  if validate_url && negb (is_single_post url).1 then (None, [])
  else
    match fetch_page url with
    | None => (None, [url])
    | Some soup =>
        let meta := Content.extract_meta soup in
        let info := Content.extract_article_info search_date soup in
        let content := Content.extract_content select_one soup in
        let tags := Extractors.extract_tags soup in
        let '(is_valid, reason) := Scraper.is_valid_article content in
        if negb is_valid then (None, [url])
        else
          let title := Scraper.get_or (Scraper.title content) "" in
          (Some (mkArticle url
                           (if PyStr.truthy title then title
                            else Content.og_title meta)
                           (Content.author info) (Content.date info)
                           (Content.category info) (Content.description meta)
                           (Scraper.get_or (Scraper.content_html content) "")
                           (Scraper.get_or (Scraper.sections content) [])
                           tags (clock tick)),
           [url])
    end.

(** [max_articles is not None and len(valid_urls) >= max_articles]. *)
Definition enough (max_articles : option Z) (valid_urls : list (SitemapEntry float))
  : bool :=
  match max_articles with
  | None => false
  | Some m => (m <=? Z.of_nat (length valid_urls))%Z
  end.

(** The loop that keeps the entries whose URL is a single post. *)
Fixpoint select_valid (max_articles : option Z) (all_entries : list (SitemapEntry float))
         (valid_urls : list (SitemapEntry float)) : list (SitemapEntry float) :=
  match all_entries with
  | [] => valid_urls
  | entry :: rest =>
      if (is_single_post (url entry)).1 then
        let valid_urls := valid_urls ++ [entry] in
        if enough max_articles valid_urls then valid_urls
        else select_valid max_articles rest valid_urls
      else select_valid max_articles rest valid_urls
  end.

(** The loop that scrapes the kept entries: the records yielded and the
    pages requested ([tick] counts the records built). *)
Fixpoint scrape_loop (valid_urls : list (SitemapEntry float)) (tick : nat)
  : list ArticleContent * list string :=
  match valid_urls with
  | [] => ([], [])
  | entry :: rest =>
      let '(article, pages) := scrape (url entry) false tick in
      match article with
      | Some a =>
          let '(articles, pages') := scrape_loop rest (S tick) in
          (a :: articles, pages ++ pages')
      | None =>
          let '(articles, pages') := scrape_loop rest tick in
          (articles, pages ++ pages')
      end
  end.

(** [scrape_from_sitemap(sitemap_url, base_url, url_filter, max_articles)],
    run to its end: the records yielded and the pages requested.
    [pattern] is the compiled [url_filter]. *)
Definition scrape_from_sitemap (sitemap_url : option string) (base_url : string)
           (pattern : option (string -> bool)) (max_articles : option Z)
  : list ArticleContent * list string :=
  let sitemap_url :=
    match sitemap_url with
    | Some u => if PyStr.truthy u then Some u
                else (Discovery.discover_sitemap head base_url).1
    | None => (Discovery.discover_sitemap head base_url).1
    end in
  match sitemap_url with
  | None => ([], [])
  | Some sitemap_url =>
      let fetch_limit :=
        match max_articles with
        | Some m => Some (m * 3)%Z
        | None => None
        end in
      let all_entries :=
        yielded (get_all_urls float float_of_str fetch_sitemap sitemap_url
                              pattern fetch_limit) in
      let valid_urls := select_valid max_articles all_entries [] in
      scrape_loop valid_urls 0
  end.

End Scrape.

End Pipeline.

(* ===================================================================== *)
(** * config.py: [ScraperConfig] and [HistoryManager] *)
(* ===================================================================== *)

Module Config.

Record AirtableConfig : Type := mkAirtable {
  api_key : string;
  base_id : string;
  table_id : string
}.

(** [bool(self.api_key and self.base_id and self.table_id)]. *)
Definition is_configured (c : AirtableConfig) : bool :=
  PyStr.truthy (api_key c) && PyStr.truthy (base_id c) && PyStr.truthy (table_id c).

Record ScraperConfig : Type := mkConfig {
  output_format : string;
  timeout : Z;
  prevent_duplicates : bool;
  worker_mode : bool;
  cycle_delay : Z;
  urls : list string;
  airtable : option AirtableConfig
}.

(** [cls()]. *)
Definition default_config : ScraperConfig :=
  mkConfig "json" 60 true false 3600 [] None.

(** The object of a configuration file, key by key; a key may be
    missing.  The values are taken to have the types [save] writes. *)
Record airtable_json : Type := mkAirtableJson {
  j_api_key : option string;
  j_base_id : option string;
  j_table_id : option string
}.

Record config_json : Type := mkConfigJson {
  j_output_format : option string;
  j_timeout : option Z;
  j_prevent_duplicates : option bool;
  j_worker_mode : option bool;
  j_cycle_delay : option Z;
  j_urls : option (list string);
  j_airtable : option airtable_json
}.

(** What is at the path of a JSON file: nothing, something that cannot
    be read as JSON ([JSONDecodeError], [IOError]), a directory (for the
    history file), or an object. *)
Inductive file (A : Type) : Type :=
| Missing
| Unreadable
| Directory
| Holds (data : A).

Arguments Missing {A}.
Arguments Unreadable {A}.
Arguments Directory {A}.
Arguments Holds {A}.

(** [ScraperConfig.load(path)]. *)
Definition load (f : file config_json) : ScraperConfig :=
  match f with
  | Missing => default_config
  | Holds data =>
      let airtable_config :=
        match j_airtable data with
        | Some at_ =>
            Some (mkAirtable (Scraper.get_or (j_api_key at_) "")
                             (Scraper.get_or (j_base_id at_) "")
                             (Scraper.get_or (j_table_id at_) ""))
        | None => None
        end in
      mkConfig (Scraper.get_or (j_output_format data) "json")
               (Scraper.get_or (j_timeout data) 60%Z)
               (Scraper.get_or (j_prevent_duplicates data) true)
               (Scraper.get_or (j_worker_mode data) false)
               (Scraper.get_or (j_cycle_delay data) 3600%Z)
               (Scraper.get_or (j_urls data) [])
               airtable_config
  | Unreadable | Directory => default_config
  end.

(** [self.save(path)]: the object written. *)
Definition save (c : ScraperConfig) : file config_json :=
  Holds (mkConfigJson
           (Some (output_format c)) (Some (timeout c))
           (Some (prevent_duplicates c)) None None (Some (urls c))
           match airtable c with
           | Some a => Some (mkAirtableJson (Some (api_key a)) (Some (base_id a))
                                            (Some (table_id a)))
           | None => None
           end).

(** ** [HistoryManager] *)

(** The object of the history file: its [urls] key, if present (the
    [last_updated] stamp is not read back). *)
Record history_json : Type := mkHistoryJson {
  h_urls : option (list string)
}.

(** A manager: its set of URLs, and the history file as it stands. *)
Record HistoryManager : Type := mkHistory {
  scraped_urls : gset string;
  history_file : file history_json
}.

(** [_save_history]. *)
Definition _save_history (h : HistoryManager) : HistoryManager :=
  mkHistory (scraped_urls h)
            (Holds (mkHistoryJson (Some (elements (scraped_urls h))))).

(** [__init__] with [_load_history], on the file as it stands. *)
Definition new_history (f : file history_json) : HistoryManager :=
  let h := mkHistory ∅ f in
  match f with
  | Missing => h
  | Directory => _save_history h       (* removed and created again as a file *)
  | Holds data => mkHistory (list_to_set (Scraper.get_or (h_urls data) [])) f
  | Unreadable => h
  end.

Definition is_scraped (url : string) (h : HistoryManager) : bool :=
  bool_decide (url ∈ scraped_urls h).

Definition mark_scraped (url : string) (h : HistoryManager) : HistoryManager :=
  _save_history (mkHistory ({[ url ]} ∪ scraped_urls h) (history_file h)).

Definition clear_history (h : HistoryManager) : HistoryManager :=
  _save_history (mkHistory ∅ (history_file h)).

End Config.

(* ===================================================================== *)
(** * storage.py: [_generate_filename] *)
(* ===================================================================== *)

Module Storage.

(** [str.isalnum] on one character. *)
Definition is_alnum (c : ascii) : bool :=
  PyStr.in_range 48 57 c || PyStr.in_range 65 90 c || PyStr.in_range 97 122 c
  || PyStr.in_range 170 170 c || PyStr.in_range 178 179 c
  || PyStr.in_range 181 181 c || PyStr.in_range 185 186 c
  || PyStr.in_range 188 190 c || PyStr.in_range 192 214 c
  || PyStr.in_range 216 246 c || PyStr.in_range 248 255 c.

(** [c.isalnum() or c in (' ', '-', '_')]. *)
Definition kept_char (c : ascii) : bool :=
  is_alnum c || Ascii.eqb c " " || Ascii.eqb c "-" || Ascii.eqb c "_".

(** ["".join(c for c in s if keep(c))]. *)
Fixpoint keep_chars (keep : ascii -> bool) (s : string) : string :=
  match s with
  | EmptyString => EmptyString
  | String c s' => if keep c then String c (keep_chars keep s') else keep_chars keep s'
  end.

(** [s[:n]]. *)
Fixpoint prefix_of_length (n : nat) (s : string) : string :=
  match n, s with
  | S n', String c s' => String c (prefix_of_length n' s')
  | _, _ => EmptyString
  end.

(** The value of [safe_title]. *)
Definition safe_title (title : string) : string :=
  let safe_title := keep_chars kept_char title in
  prefix_of_length 50 (PyStr.replace_char " " "_" safe_title).

(** [_generate_filename]; [timestamp] is
    [datetime.now().strftime('%Y%m%d_%H%M%S')]. *)
Definition _generate_filename (timestamp : string) (article : Models.ArticleContent)
           (ext : string) : string :=
  safe_title (Models.a_title article) +:+ "_" +:+ timestamp +:+ "." +:+ ext.

End Storage.

(* ===================================================================== *)
(** * worker.py: [_group_urls_by_domain] *)
(* ===================================================================== *)

Module Worker.

Section Group.

Variable urlparse : string -> Url.ParseResult.

(** [domain_urls[domain].append(url)] on a [defaultdict(list)]. *)
Definition append_url (domain_urls : gmap string (list string)) (url : string)
  : gmap string (list string) :=
  let parsed := urlparse url in
  let domain := PyStr.lower (Url.netloc parsed) in
  match domain_urls !! domain with
  | Some l => <[domain := l ++ [url]]> domain_urls
  | None => <[domain := [url]]> domain_urls
  end.

Definition _group_urls_by_domain (urls : list string) : gmap string (list string) :=
  fold_left append_url urls ∅.

End Group.

End Worker.

(* ===================================================================== *)
(** * integrations/airtable.py: the escaped content *)
(* ===================================================================== *)

Module Airtable.

(** [s.replace('\n', '\\n')]. *)
Fixpoint escape_newlines (s : string) : string :=
  match s with
  | EmptyString => EmptyString
  | String c s' =>
      if Ascii.eqb c "010" then String "\" (String "n" (escape_newlines s'))
      else String c (escape_newlines s')
  end.

(** [s.replace('\r', '')]. *)
Fixpoint remove_returns (s : string) : string :=
  match s with
  | EmptyString => EmptyString
  | String c s' =>
      if Ascii.eqb c "013" then remove_returns s' else String c (remove_returns s')
  end.

(** [content_escaped] of [create_record]. *)
Definition content_escaped (content_html : string) : string :=
  remove_returns (escape_newlines content_html).

(** [self.endpoint]. *)
Definition endpoint (base_id table_id : string) : string :=
  "https://api.airtable.com/v0" +:+ "/" +:+ base_id +:+ "/" +:+ table_id.

End Airtable.

(* ===================================================================== *)
(** * More vocabulary *)
(* ===================================================================== *)

Module MoreProps.

(** The probe of a location is answered with status 200. *)
Definition answers_200 (head : string -> option Z) (url : string) : Prop :=
  head url = Some 200%Z.

(** A section whose body has more than blanks. *)
Definition nonblank (s : Models.ContentSection) : Prop :=
  PyStr.truthy (PyStr.strip (Models.content s)) = true.

(** The texts of the level-2 headings among the blocks, in order. *)
Definition h2_texts (elements : list Soup.node) : list string :=
  map Soup.get_text_strip
      (List.filter (fun e => String.eqb (Extractors.name_of e) "h2") elements).

(** A state of the loop of [_extract_sections] in which the sections
    closed so far are non-blank and of level 2, and the open one, if
    any, is of level 2. *)
Definition tidy (st : Extractors.state) : Prop :=
  Forall (fun s => nonblank s /\ Models.level s = 2%Z) (Extractors.sections st) /\
  (forall cur, Extractors.current_section st = Some cur -> Models.level cur = 2%Z).

(** The headings of the sections of a state, the open one last. *)
Definition headings (st : Extractors.state) : list string :=
  map Models.heading
      (Extractors.sections st ++ option_list (Extractors.current_section st)).

(** The state at the start of the loop of [_extract_sections]. *)
Definition start : Extractors.state := Extractors.mkState [] None [].

(** A character of a safe title: alphanumeric, [-] or [_]. *)
Definition safe_char (c : ascii) : bool :=
  Storage.is_alnum c || Ascii.eqb c "-" || Ascii.eqb c "_".

(** Neither a line feed nor a carriage return. *)
Definition one_line_char (c : ascii) : bool :=
  negb (Ascii.eqb c "010") && negb (Ascii.eqb c "013").

(** The URLs of a list whose host, in lower case, is [domain]. *)
Definition of_domain (urlparse : string -> Url.ParseResult) (domain : string)
           (urls : list string) : list string :=
  List.filter (fun u => String.eqb (PyStr.lower (Url.netloc (urlparse u))) domain) urls.

End MoreProps.

(* ===================================================================== *)
(** * More sample data *)
(* ===================================================================== *)

Module MoreExamples.
Import Soup Examples.

(** The answers of a site to the probes of its sitemap locations: 404
    at [/sitemap.xml], a failed request at [/sitemap_index.xml], 200 at
    [/post-sitemap.xml], 404 elsewhere. *)
Definition sample_head (url : string) : option Z :=
  if String.eqb url "https://example.com/sitemap_index.xml" then None
  else if String.eqb url "https://example.com/post-sitemap.xml" then Some 200%Z
  else Some 404%Z.

(** An article with a heading that has nothing under it. *)
Definition empty_heading : node :=
  elem "div" [elem "h2" [Text "Empty"];
              elem "h2" [Text "Full"];
              elem "p" [Text "Body."]].

(** A page with two [article] elements and no other container. *)
Definition two_articles : node :=
  elem "[document]"
       [elem "body" [elem "article" [elem "p" [Text "Short."]];
                     elem "article" [elem "p" [Text "The longer one."]]]].

(** A [urlparse] for addresses of the form [https://host/path]. *)
Definition split_host (url : string) : Url.ParseResult :=
  match PyStr.split "/" url with
  | _ :: _ :: host :: rest =>
      Url.mkUrl host (String.concat "" (map (fun seg => "/" +:+ seg) rest)) ""
  | _ => Url.mkUrl "" url ""
  end.

(** A [select_one] that finds nothing. *)
Definition select_nothing (selector : string) (soup : node) : option node := None.

End MoreExamples.

(* ===================================================================== *)
(** * Facts about the string operations *)
(* ===================================================================== *)

Module StrFacts.
Import PyStr.

Lemma append_nil_l (s : string) : "" +:+ s = s.
Proof. reflexivity. Qed.

Lemma append_cons (c : ascii) (a b : string) :
  String c a +:+ b = String c (a +:+ b).
Proof. reflexivity. Qed.

(** [String.append] does not unfold under [simpl]; its two equations
    are rewritten instead. *)
Ltac app_simpl := rewrite ?append_cons, ?append_nil_l in *; simpl.

Lemma append_nil_r (s : string) : s +:+ "" = s.
Proof. induction s as [|c s IH]; app_simpl; [reflexivity | now rewrite IH]. Qed.

Lemma append_assoc (a b c : string) : (a +:+ b) +:+ c = a +:+ (b +:+ c).
Proof. induction a as [|x a IH]; app_simpl; [reflexivity | now rewrite IH]. Qed.

Lemma append_eq_nil (a b : string) : a +:+ b = "" -> a = "" /\ b = "".
Proof. destruct a; app_simpl; [auto | discriminate]. Qed.

Lemma is_empty_true (s : string) : is_empty s = true <-> s = "".
Proof. destruct s; unfold is_empty; split; intros H; congruence. Qed.

Lemma truthy_true (s : string) : truthy s = true <-> s <> "".
Proof. destruct s; unfold truthy, is_empty; simpl; split; intros H; congruence. Qed.

Lemma all_chars_app (p : ascii -> bool) (a b : string) :
  all_chars p (a +:+ b) = all_chars p a && all_chars p b.
Proof.
  induction a as [|c a IH]; app_simpl; [reflexivity|].
  now rewrite IH, andb_assoc.
Qed.

(** ** [strip] *)

Lemma lstrip_all (p : ascii -> bool) (s : string) :
  all_chars p s = true -> lstrip p s = "".
Proof.
  induction s as [|c s IH]; simpl; [reflexivity|].
  intros [Hc Hs]%andb_true_iff. rewrite Hc. auto.
Qed.

Lemma rstrip_all (p : ascii -> bool) (s : string) :
  all_chars p s = true -> rstrip p s = "".
Proof.
  induction s as [|c s IH]; simpl; [reflexivity|].
  intros [Hc Hs]%andb_true_iff. rewrite (IH Hs), Hc. reflexivity.
Qed.

Lemma rstrip_nil_all (p : ascii -> bool) (s : string) :
  rstrip p s = "" -> all_chars p s = true.
Proof.
  induction s as [|c s IH]; simpl; [reflexivity|].
  destruct (p c); simpl; [|discriminate].
  destruct (rstrip p s); simpl; [auto | discriminate].
Qed.

Lemma all_chars_lstrip (p : ascii -> bool) (s : string) :
  all_chars p (lstrip p s) = true -> all_chars p s = true.
Proof.
  induction s as [|c s IH]; simpl; [reflexivity|].
  destruct (p c) eqn:Hc; simpl; [assumption|].
  rewrite Hc. discriminate.
Qed.

(** A text is stripped to nothing only if it consists of stripped
    characters. *)
Lemma strip_chars_nil_all (p : ascii -> bool) (s : string) :
  strip_chars p s = "" -> all_chars p s = true.
Proof.
  unfold strip_chars. intros H%rstrip_nil_all. now apply all_chars_lstrip.
Qed.

Lemma rstrip_keep (p : ascii -> bool) (a b : string) :
  all_chars (fun c => negb (p c)) a = true ->
  all_chars p b = true ->
  rstrip p (a +:+ b) = a.
Proof.
  intros Ha Hb. induction a as [|c a IH]; app_simpl.
  - now apply rstrip_all.
  - apply andb_true_iff in Ha as [Hc Ha].
    rewrite (IH Ha). apply negb_true_iff in Hc. rewrite Hc. reflexivity.
Qed.

(** [("/" + seg + tail).strip("/")] is [seg] when [seg] is non-empty and
    free of [/] and [tail] is made of [/]. *)
Lemma strip_slash_segment (seg tail : string) :
  seg <> "" ->
  all_chars (fun c => negb (Ascii.eqb "/" c)) seg = true ->
  all_chars (Ascii.eqb "/") tail = true ->
  strip_slash (String "/" (seg +:+ tail)) = seg.
Proof.
  intros Hne Hseg Htail. unfold strip_slash, strip_chars. simpl.
  destruct seg as [|c seg]; [congruence|].
  pose proof Hseg as Hseg'.
  simpl in Hseg. apply andb_true_iff in Hseg as [Hc Hseg].
  rewrite append_cons. simpl. apply negb_true_iff in Hc as Hc'. rewrite Hc'.
  rewrite <- append_cons. now apply rstrip_keep.
Qed.

(** ** [split] *)

Lemma split_cons (sep : ascii) (s : string) :
  exists h t, split sep s = h :: t.
Proof.
  induction s as [|c s [h [t IH]]]; simpl; [eauto|].
  destruct (Ascii.eqb c sep); [eauto|]. rewrite IH. eauto.
Qed.

Lemma split_app (sep : ascii) (a b : string) :
  split sep (a +:+ String sep b) = split sep a ++ split sep b.
Proof.
  induction a as [|c a IH]; app_simpl.
  - now rewrite Ascii.eqb_refl.
  - destruct (Ascii.eqb c sep); [now rewrite IH|].
    rewrite IH. destruct (split_cons sep a) as [h [t ->]]. reflexivity.
Qed.

Lemma split_none (sep : ascii) (s : string) :
  all_chars (fun c => negb (Ascii.eqb sep c)) s = true -> split sep s = [s].
Proof.
  induction s as [|c s IH]; simpl; [reflexivity|].
  intros [Hc Hs]%andb_true_iff. apply negb_true_iff in Hc.
  rewrite Ascii.eqb_sym, Hc, (IH Hs). reflexivity.
Qed.

Lemma pieces_app (sep : ascii) (a b : string) :
  pieces sep (a +:+ String sep b) = pieces sep a + pieces sep b.
Proof. unfold pieces. now rewrite split_app, List.filter_app, length_app. Qed.

Lemma pieces_head (sep c : ascii) (s : string) :
  Ascii.eqb c sep = false -> 1 <= pieces sep (String c s).
Proof.
  intros Hc. unfold pieces. simpl. rewrite Hc.
  destruct (split_cons sep s) as [h [t ->]]. simpl. lia.
Qed.

End StrFacts.

(* ===================================================================== *)
(** * The matcher decides the language of a regex *)
(* ===================================================================== *)

Module ReFacts.
Import Re StrFacts.

Section Lang.

Variable ic : bool.

Lemma lang_nil_nullable (r : regex) (s : string) :
  lang ic r s -> s = "" -> nullable r = true.
Proof.
  induction 1 as [ | a c Ha | r1 r2 s1 s2 _ IH1 _ IH2 | r1 r2 s _ IH
                 | r1 r2 s _ IH | r | r s1 s2 _ _ _ _ ]; intros E; simpl;
    try reflexivity.
  - discriminate.
  - apply append_eq_nil in E as [-> ->]. now rewrite IH1, IH2.
  - now rewrite IH.
  - rewrite IH by assumption. apply orb_true_r.
Qed.

Lemma nullable_lang_nil (r : regex) : nullable r = true -> lang ic r "".
Proof.
  induction r as [ | | a | r1 IH1 r2 IH2 | r1 IH1 r2 IH2 | r IH ]; simpl;
    intros H; try discriminate.
  - constructor.
  - apply andb_true_iff in H as [H1 H2].
    change "" with ("" +:+ ""). constructor; auto.
  - apply orb_true_iff in H as [H | H];
      [apply L_alt_l | apply L_alt_r]; auto.
  - constructor.
Qed.

Lemma deriv_sound (r : regex) :
  forall c s, lang ic (deriv ic c r) s -> lang ic r (String c s).
Proof.
  induction r as [ | | a | r1 IH1 r2 IH2 | r1 IH1 r2 IH2 | r IH ];
    intros c s H; simpl in H.
  - inversion H.
  - inversion H.
  - destruct (atom_match ic a c) eqn:Ha; inversion H; subst.
    now constructor.
  - destruct (nullable r1) eqn:Hn.
    + inversion H as [ | | | ? ? ? HL | ? ? ? HR | | ]; subst.
      * inversion HL as [ | | ? ? s1 s2 H1 H2 | | | | ]; subst.
        rewrite <- append_cons. constructor; auto.
      * rewrite <- (append_nil_l (String c s)).
        constructor; [now apply nullable_lang_nil | auto].
    + inversion H as [ | | ? ? s1 s2 H1 H2 | | | | ]; subst.
      rewrite <- append_cons. constructor; auto.
  - inversion H; subst; [apply L_alt_l | apply L_alt_r]; auto.
  - inversion H as [ | | ? ? s1 s2 H1 H2 | | | | ]; subst.
    rewrite <- append_cons. constructor; auto.
Qed.

Lemma deriv_complete (r : regex) (s' : string) :
  lang ic r s' ->
  forall c s, s' = String c s -> lang ic (deriv ic c r) s.
Proof.
  induction 1 as [ | a c0 Ha | r1 r2 s1 s2 H1 IH1 H2 IH2 | r1 r2 s0 _ IH
                 | r1 r2 s0 _ IH | r | r s1 s2 H1 IH1 H2 IH2 ];
    intros c s E; simpl.
  - discriminate.
  - injection E as -> <-. rewrite Ha. constructor.
  - destruct s1 as [|c1 s1].
    + rewrite append_nil_l in E.
      rewrite (lang_nil_nullable r1 "" H1 eq_refl).
      apply L_alt_r. auto.
    + rewrite append_cons in E. injection E as -> <-.
      assert (lang ic (Cat (deriv ic c r1) r2) (s1 +:+ s2))
        by (constructor; auto).
      destruct (nullable r1); [now apply L_alt_l | assumption].
  - apply L_alt_l. auto.
  - apply L_alt_r. auto.
  - discriminate.
  - destruct s1 as [|c1 s1].
    + rewrite append_nil_l in E. exact (IH2 c s E).
    + rewrite append_cons in E. injection E as -> <-.
      constructor; auto.
Qed.

(** The matcher accepts exactly the strings of the regex. *)
Theorem fullmatch_lang (s : string) :
  forall r, fullmatch ic r s = true <-> lang ic r s.
Proof.
  induction s as [|c s IH]; intros r; simpl.
  - split; [apply nullable_lang_nil | intros H; now apply (lang_nil_nullable r "")].
  - rewrite IH. split; [apply deriv_sound | intros H; now apply (deriv_complete r _ H)].
Qed.

Lemma lang_star_any (s : string) : lang ic (Star (Atom AAny)) s.
Proof.
  induction s as [|c s IH]; [constructor|].
  change (String c s) with (String c "" +:+ s).
  constructor; [now constructor | assumption].
Qed.

(** [a+] holds of a non-empty text of characters that [a] accepts. *)
Lemma lang_plus_atom (a : atom) (s : string) :
  s <> "" ->
  PyStr.all_chars (atom_match ic a) s = true ->
  lang ic (Plus (Atom a)) s.
Proof.
  intros Hne Hall. destruct s as [|c s]; [congruence|].
  simpl in Hall. apply andb_true_iff in Hall as [Hc Hs].
  change (String c s) with (String c "" +:+ s).
  constructor; [now constructor|].
  clear Hne Hc. induction s as [|d s IH]; [constructor|].
  simpl in Hs. apply andb_true_iff in Hs as [Hd Hs].
  change (String d s) with (String d "" +:+ s).
  constructor; [now constructor | auto].
Qed.

End Lang.

(** Without [re.IGNORECASE] a literal matches itself and nothing else. *)
Lemma lang_lit (w : string) : lang false (Lit w) w.
Proof.
  induction w as [|c w IH]; simpl; [constructor|].
  change (String c w) with (String c "" +:+ w).
  constructor; [|assumption].
  constructor. simpl. apply Ascii.eqb_refl.
Qed.

Lemma lang_lit_inv (w s : string) : lang false (Lit w) s -> s = w.
Proof.
  revert s. induction w as [|c w IH]; simpl; intros s H.
  - now inversion H.
  - inversion H as [ | | ? ? s1 s2 H1 H2 | | | | ]; subst.
    inversion H1 as [ | a c' Ha | | | | | ]; subst.
    simpl in Ha. apply Ascii.eqb_eq in Ha as <-.
    rewrite (IH _ H2). reflexivity.
Qed.

(** A text of [\d+] starts with a decimal digit. *)
Lemma lang_digits_inv (ic : bool) (s : string) :
  lang ic (Plus (Atom ADigit)) s ->
  exists d s', s = String d s' /\ PyStr.is_decimal d = true.
Proof.
  intros H. inversion H as [ | | ? ? s1 s2 H1 H2 | | | | ]; subst.
  inversion H1 as [ | a c' Ha | | | | | ]; subst.
  exists c', s2. split; [reflexivity | exact Ha].
Qed.

End ReFacts.

(* ===================================================================== *)
(** * Properties of the URL classifier *)
(* ===================================================================== *)

Module ValidatorFacts.
Import PyStr Re Url Validators UrlProps StrFacts ReFacts.

(** ** [parse_qs] *)

Lemma has_key_add_pair (k : string) (d : gmap string (list string))
      (nv : string * string) :
  has_key k (add_pair d nv) = true <-> k = nv.1 \/ has_key k d = true.
Proof.
  unfold has_key, add_pair.
  destruct (decide (nv.1 = k)) as [<- | Hne].
  - destruct (d !! nv.1) eqn:E; rewrite lookup_insert_eq; tauto.
  - destruct (d !! nv.1) eqn:E; rewrite lookup_insert_ne by assumption;
      destruct (d !! k); split; intros H; auto; destruct H; congruence.
Qed.

Lemma has_key_fold (k : string) (l : list (string * string)) :
  forall d, has_key k (fold_left add_pair l d) = true <->
            In k (map fst l) \/ has_key k d = true.
Proof.
  induction l as [|nv l IH]; intros d; simpl; [tauto|].
  rewrite IH, has_key_add_pair. intuition congruence.
Qed.

Lemma has_key_parse_qs (ue : string -> string) (k qs : string) :
  has_key k (parse_qs ue qs) = true <-> In k (map fst (parse_qsl ue qs)).
Proof.
  unfold parse_qs. rewrite has_key_fold. unfold has_key.
  rewrite lookup_empty. intuition discriminate.
Qed.

Lemma parse_qs_nil (ue : string -> string) (k : string) :
  has_key k (parse_qs ue "") = false.
Proof. reflexivity. Qed.

(** A field with a value puts its decoded name among the keys. *)
Lemma pagination_field_key (ue : string -> string) (qs field : string) :
  In field (split "&" qs) -> pagination_field ue field ->
  exists param, In param PAGINATION_PARAMS /\
                has_key param (parse_qs ue qs) = true.
Proof.
  intros Hin (name & value & Hpart & Hval & Hparam).
  eexists; split; [exact Hparam|].
  apply has_key_parse_qs. unfold parse_qsl.
  apply in_map_iff.
  exists (unquote ue (replace_char "+" " " name),
          unquote ue (replace_char "+" " " value)).
  split; [reflexivity|].
  apply list_elem_of_In, list_elem_of_omap.
  exists field. split; [now apply list_elem_of_In|].
  unfold parse_field. destruct field as [|c field]; [discriminate|].
  unfold is_empty. rewrite Hpart.
  apply truthy_true in Hval. rewrite Hval. reflexivity.
Qed.

Lemma existsb_pagination (ue : string -> string) (qs param : string) :
  In param PAGINATION_PARAMS -> has_key param (parse_qs ue qs) = true ->
  existsb (fun param => has_key param (parse_qs ue qs)) PAGINATION_PARAMS = true.
Proof. intros Hin Hk. apply existsb_exists. eauto. Qed.

Lemma existsb_no_pagination (ue : string -> string) (qs : string) :
  no_pagination_key ue qs ->
  existsb (fun param => has_key param (parse_qs ue qs)) PAGINATION_PARAMS = false.
Proof.
  intros H. apply not_true_is_false. intros (param & Hin & Hk)%existsb_exists.
  rewrite (H param Hin) in Hk. discriminate.
Qed.

(** ** The pattern [/page/\d+] *)

Lemma search_page_complete (p : string) :
  page_in_path p -> search PAGE_IN_PATH p = true.
Proof.
  intros (pre & ds & post & -> & Hne & Hds).
  unfold search. apply fullmatch_lang. simpl.
  constructor; [apply lang_star_any|].
  rewrite <- !append_assoc. constructor; [|apply lang_star_any].
  constructor; [apply (lang_lit "/page/")|].
  now apply lang_plus_atom.
Qed.

Lemma search_page_sound (p : string) :
  search PAGE_IN_PATH p = true ->
  exists pre d post, p = pre +:+ "/page/" +:+ String d post /\ is_decimal d = true.
Proof.
  unfold search. intros H%fullmatch_lang. simpl in H.
  inversion H as [ | | ? ? pre s2 _ H2 | | | | ]; subst.
  inversion H2 as [ | | ? ? s3 post H3 _ | | | | ]; subst.
  inversion H3 as [ | | ? ? w ds Hw Hds | | | | ]; subst.
  apply (lang_lit_inv "/page/") in Hw as ->.
  apply lang_digits_inv in Hds as (d & ds' & -> & Hd).
  exists pre, d, (ds' +:+ post). split; [|assumption].
  now rewrite !append_assoc.
Qed.

Lemma decimal_not_slash (d : ascii) : is_decimal d = true -> Ascii.eqb d "/" = false.
Proof.
  intros Hd. destruct (Ascii.eqb_spec d "/") as [-> | ]; [discriminate | reflexivity].
Qed.

(** A path with [/page/<digit>] has two segments at least. *)
Lemma page_two_pieces (pre post : string) (d : ascii) :
  is_decimal d = true ->
  2 <= pieces "/" (pre +:+ "/page/" +:+ String d post).
Proof.
  intros Hd.
  change ("/page/" +:+ String d post)
    with (String "/" ("page" +:+ String "/" (String d post))).
  rewrite pieces_app, pieces_app.
  pose proof (pieces_head "/" d post (decimal_not_slash d Hd)).
  change (pieces "/" "page") with 1. lia.
Qed.

Lemma single_segment_pieces (p seg : string) :
  single_segment p seg -> pieces "/" p = 1.
Proof.
  intros (Hne & Hseg & [-> | ->]).
  - change (String "/" seg) with ("" +:+ String "/" seg).
    rewrite pieces_app. unfold pieces at 2. rewrite (split_none _ _ Hseg).
    simpl. apply truthy_true in Hne. now rewrite Hne.
  - change (String "/" (seg +:+ "/")) with ("" +:+ String "/" (seg +:+ "/")).
    rewrite pieces_app, pieces_app.
    unfold pieces at 2. rewrite (split_none _ _ Hseg).
    simpl. apply truthy_true in Hne. now rewrite Hne.
Qed.

Lemma single_segment_no_page (p seg : string) :
  single_segment p seg -> search PAGE_IN_PATH p = false.
Proof.
  intros Hs. apply not_true_is_false.
  intros (pre & d & post & -> & Hd)%search_page_sound.
  pose proof (page_two_pieces pre post d Hd).
  pose proof (single_segment_pieces _ _ Hs). lia.
Qed.

Lemma single_segment_strip (p seg : string) :
  single_segment p seg -> strip_slash p = seg.
Proof.
  intros (Hne & Hseg & [-> | ->]).
  - rewrite <- (append_nil_r seg) at 1. now apply strip_slash_segment.
  - now apply strip_slash_segment.
Qed.

(** A path with [/page/] in it is not made of [/] alone. *)
Lemma page_in_path_not_root (p : string) :
  page_in_path p -> truthy (strip_slash p) = true.
Proof.
  intros (pre & ds & post & -> & _ & _).
  apply truthy_true. intros H%strip_chars_nil_all.
  rewrite all_chars_app in H. apply andb_true_iff in H as [_ H].
  discriminate.
Qed.

(** ** [has_subdomain] *)

Lemma mem_In (x : string) (xs : list string) : mem x xs = true <-> In x xs.
Proof.
  unfold mem. rewrite existsb_exists. split.
  - intros (y & Hin & ->%String.eqb_eq). assumption.
  - intros Hin. exists x. split; [assumption | apply String.eqb_refl].
Qed.

Lemma has_subdomain_blog_host (u : ParseResult) :
  has_subdomain u = true <-> blog_host (netloc u).
Proof.
  unfold has_subdomain, blog_host.
  set (parts := split "." (lower (netloc u))).
  destruct (3 <=? length parts)%nat eqn:Hlen.
  - apply Nat.leb_le in Hlen. split.
    + intros H. split; [assumption|].
      destruct (negb _ && mem _ _) eqn:E; [|discriminate].
      apply andb_true_iff in E as [_ E]. now apply mem_In.
    + intros [_ Hin]. simpl in Hin.
      destruct Hin as [<- | [<- | [<- | [<- | []]]]]; reflexivity.
  - apply Nat.leb_gt in Hlen. split; [discriminate | intros [H _]; lia].
Qed.

Lemma has_subdomain_not_blog_host (u : ParseResult) :
  ~ blog_host (netloc u) -> has_subdomain u = false.
Proof.
  intros H. apply not_true_is_false. intros Hs. apply H.
  now apply has_subdomain_blog_host.
Qed.

(** ** [matches_archive_pattern] *)

Lemma archive_loop_false (sub : bool) (p : string) (patterns : list pattern) :
  forall k,
    (forall i pat, patterns !! i = Some pat ->
                   Nat.eqb (k + i) 1 && sub = false -> search pat p = false) ->
    archive_loop sub p k patterns = false.
Proof.
  induction patterns as [|pat rest IH]; intros k H; simpl; [reflexivity|].
  destruct (Nat.eqb k 1 && sub) eqn:E.
  - apply IH. intros i pat' Hi Hk. apply (H (S i) pat' Hi).
    now replace (k + S i) with (S k + i) by lia.
  - rewrite (H 0 pat eq_refl) by now rewrite Nat.add_0_r.
    apply IH. intros i pat' Hi Hk. apply (H (S i) pat' Hi).
    now replace (k + S i) with (S k + i) by lia.
Qed.

Lemma lower_char_slash (c : ascii) :
  Ascii.eqb (lower_char "/") (lower_char c) = Ascii.eqb "/" c.
Proof. destruct c as [[] [] [] [] [] [] [] []]; reflexivity. Qed.

Lemma all_chars_not_slash (seg : string) :
  all_chars (fun c => negb (Ascii.eqb "/" c)) seg = true ->
  all_chars (atom_match true (ANot "/")) seg = true.
Proof.
  induction seg as [|c seg IH]; cbn [all_chars]; [reflexivity|].
  intros [Hc Hs]%andb_true_iff.
  unfold atom_match at 1, char_eq. rewrite lower_char_slash, Hc. auto.
Qed.

(** The pattern [^/[^/]+/?$] holds of a path of one segment. *)
Lemma single_segment_archive (p seg : string) :
  single_segment p seg ->
  search (archive true (Cat slash (Cat seg_re (Opt slash))) true) p = true.
Proof.
  intros (Hne & Hseg & Hp).
  unfold search. apply fullmatch_lang. simpl.
  assert (exists tail, p = "" +:+ ((String "/" "" +:+ (seg +:+ tail)) +:+ "")
                       /\ lang true (Opt slash) tail) as (tail & -> & Htail).
  { destruct Hp as [-> | ->].
    - exists "". split; [now rewrite !append_nil_r | apply L_alt_r; constructor].
    - exists "/". split; [now rewrite !append_nil_r|].
      apply L_alt_l. now constructor. }
  constructor; [constructor|].
  constructor; [|apply L_alt_r; constructor].
  constructor; [now constructor|].
  constructor; [|assumption].
  apply lang_plus_atom; [assumption | now apply all_chars_not_slash].
Qed.

Lemma single_segment_matches_archive (u : ParseResult) (seg : string) :
  single_segment (path u) seg -> has_subdomain u = false ->
  matches_archive_pattern u = true.
Proof.
  intros Hs Hsub. unfold matches_archive_pattern, ARCHIVE_PATTERNS.
  rewrite Hsub. cbn [archive_loop Nat.eqb andb].
  destruct (search _ (path u)); [reflexivity|].
  now rewrite (single_segment_archive _ _ Hs).
Qed.

End ValidatorFacts.

(* ===================================================================== *)
(** * The URL classifier: blog subdomains and pagination *)
(* ===================================================================== *)

Module ValidatorClaims.
Import PyStr Re Url Validators UrlProps StrFacts ReFacts ValidatorFacts.

Lemma not_root_of_segment (u : ParseResult) (seg : string) :
  single_segment (path u) seg -> is_root_domain u = false.
Proof.
  intros Hs. unfold is_root_domain.
  rewrite (single_segment_strip _ _ Hs).
  destruct Hs as (Hne%truthy_true & _). now rewrite Hne.
Qed.

Lemma no_pagination_of_segment (ue : string -> string) (u : ParseResult)
      (seg : string) :
  single_segment (path u) seg -> no_pagination_key ue (query u) ->
  has_pagination ue u = false.
Proof.
  intros Hs Hq. unfold has_pagination.
  rewrite (existsb_no_pagination _ _ Hq).
  now rewrite (single_segment_no_page _ _ Hs).
Qed.

(** C2, as stated, fails: [blog.example.com/feed] is on a blog
    subdomain, its path is the single non-numeric segment [feed], it has
    no query, and it is rejected with the archive-pattern reason. *)
Lemma C2_counterexample_feed :
  blog_host "blog.example.com" /\
  single_segment "/feed" "feed" /\ isdigit "feed" = false /\
  is_single_post (fun s => s) 3 (mkUrl "blog.example.com" "/feed" "")
  = (false, "URL matches archive pattern").
Proof.
  split; [|split; [|split]].
  - split; simpl; [lia | auto].
  - split; [discriminate | split; [reflexivity | now left]].
  - reflexivity.
  - vm_compute. reflexivity.
Qed.

(** C2 (amended).  For a URL whose path is [/seg] or [/seg/] with [seg]
    non-empty and without [/], and whose parsed query has no pagination
    key:
    - on a host whose first label, of three or more, is one of
      blog/news/articles/content, if [seg] is not numeric and no
      archive pattern other than the single-segment one (index 1)
      matches the path, [is_single_post] accepts the URL;
    - on any other host, [is_single_post] rejects it with the
      archive-pattern reason. *)
Theorem C2_single_segment_on_blog_subdomain
        (ue : string -> string) (min_path_depth : Z)
        (u : ParseResult) (seg : string) :
  single_segment (path u) seg ->
  no_pagination_key ue (query u) ->
  (blog_host (netloc u) ->
   isdigit seg = false ->
   (forall i pat, ARCHIVE_PATTERNS !! i = Some pat -> i <> 1 ->
                  search pat (path u) = false) ->
   is_single_post ue min_path_depth u = (true, "Valid single post URL"))
  /\
  (~ blog_host (netloc u) ->
   is_single_post ue min_path_depth u = (false, "URL matches archive pattern")).
Proof.
  intros Hs Hq. unfold is_single_post.
  rewrite (not_root_of_segment _ _ Hs), (no_pagination_of_segment _ _ _ Hs Hq).
  split.
  - intros Hhost%has_subdomain_blog_host Hnum Hother.
    assert (matches_archive_pattern u = false) as ->.
    { unfold matches_archive_pattern. apply archive_loop_false.
      intros i pat Hi Hk. apply (Hother i pat Hi).
      intros ->. rewrite Hhost in Hk. discriminate. }
    rewrite Hhost. unfold get_path_depth.
    rewrite (single_segment_strip _ _ Hs).
    destruct Hs as (Hne & Hseg & _).
    rewrite (split_none _ _ Hseg).
    apply truthy_true in Hne as Ht. unfold truthy in Ht.
    apply negb_true_iff in Ht. rewrite Ht.
    unfold last_item, truthy. simpl. now rewrite Ht, Hnum.
  - intros Hhost%has_subdomain_not_blog_host.
    now rewrite (single_segment_matches_archive _ _ Hs Hhost).
Qed.

Lemma C2_single_segment_on_blog_subdomain_witness :
  is_single_post (fun s => s) 3 (mkUrl "blog.example.com" "/my-post" "")
  = (true, "Valid single post URL") /\
  is_single_post (fun s => s) 3 (mkUrl "www.example.com" "/my-post" "")
  = (false, "URL matches archive pattern").
Proof.
  split.
  - apply (proj1 (C2_single_segment_on_blog_subdomain
                    (fun s => s) 3
                    (mkUrl "blog.example.com" "/my-post" "") "my-post"
                    ltac:(split; [discriminate | split; [reflexivity | now left]])
                    ltac:(intros param _; reflexivity))).
    + split; simpl; [lia | auto].
    + reflexivity.
    + intros i pat Hi Hne.
      do 10 (destruct i as [|i];
             [first [congruence | injection Hi as <-; vm_compute; reflexivity]|]).
      discriminate.
  - apply (proj2 (C2_single_segment_on_blog_subdomain
                    (fun s => s) 3
                    (mkUrl "www.example.com" "/my-post" "") "my-post"
                    ltac:(split; [discriminate | split; [reflexivity | now left]])
                    ltac:(intros param _; reflexivity))).
    intros [_ Hin]. simpl in Hin.
    destruct Hin as [H | [H | [H | [H | []]]]]; discriminate.
Defined.

(** C6, as stated, fails: the query of [example.com/a/b/c?page=] contains
    the pagination key [page], but [parse_qs] drops a field with a blank
    value, and the URL is accepted. *)
Lemma C6_counterexample_blank_value :
  query_mentions_key "page" "page=" = true /\
  is_single_post (fun s => s) 3 (mkUrl "example.com" "/a/b/c" "page=")
  = (true, "Valid single post URL").
Proof. split; vm_compute; reflexivity. Qed.

(** C6 (amended).  A URL whose query has a field [name=value] with a
    non-empty value and a pagination key (page/paged/p/offset) as its
    decoded name, or whose path contains [/page/] followed by a decimal
    digit, is rejected by [is_single_post] with the pagination reason,
    whatever the depth of its path and whatever [min_path_depth]. *)
Theorem C6_pagination_rejected
        (ue : string -> string) (min_path_depth : Z) (u : ParseResult) :
  (exists field, In field (split "&" (query u)) /\ pagination_field ue field)
  \/ page_in_path (path u) ->
  is_single_post ue min_path_depth u = (false, "URL has pagination parameters").
Proof.
  intros H. unfold is_single_post.
  assert (is_root_domain u = false /\ has_pagination ue u = true) as [-> ->];
    [|reflexivity].
  unfold is_root_domain, has_pagination.
  destruct H as [(field & Hin & Hf) | Hp].
  - destruct (pagination_field_key ue _ _ Hin Hf) as (param & Hparam & Hkey).
    rewrite (existsb_pagination _ _ _ Hparam Hkey). split; [|reflexivity].
    destruct (query u) eqn:Eq.
    + rewrite parse_qs_nil in Hkey. discriminate.
    + apply andb_false_r.
  - rewrite (page_in_path_not_root _ Hp), (search_page_complete _ Hp).
    split; [reflexivity|].
    now destruct (existsb _ PAGINATION_PARAMS).
Qed.

Lemma C6_pagination_rejected_witness :
  is_single_post (fun s => s) 3 (mkUrl "example.com" "/news/2024/my-post" "ref=x&page=2")
  = (false, "URL has pagination parameters") /\
  is_single_post (fun s => s) 1 (mkUrl "example.com" "/blog/page/12" "")
  = (false, "URL has pagination parameters").
Proof.
  split.
  - apply C6_pagination_rejected. left. exists "page=2". split.
    + simpl. auto.
    + exists "page", "2". split; [reflexivity|].
      split; [discriminate | simpl; auto].
  - apply C6_pagination_rejected. right. exists "/blog", "12", "".
    split; [reflexivity | split; [discriminate | reflexivity]].
Defined.

End ValidatorClaims.

(* ===================================================================== *)
(** * Properties of the sitemap traversal *)
(* ===================================================================== *)

Module SitemapFacts.
Import Soup Sitemap SitemapProps.

Section Facts.

Variable float : Type.
Variable float_of_str : string -> option float.
Variable fetch_sitemap : string -> option node.
Variable pattern : option (string -> bool).
Variable max_urls : option Z.

Abbreviation entry := (SitemapEntry float).
Abbreviation yield_loop := (yield_loop float pattern max_urls).
Abbreviation child_loop :=
  (child_loop float float_of_str fetch_sitemap pattern max_urls).
Abbreviation matching := (matching float pattern).
Abbreviation child_entries :=
  (child_entries float float_of_str fetch_sitemap pattern).

(** ** [parse_urlset] *)

Lemma urlset_loop_omap (elems : list node) :
  forall entries,
    urlset_loop float float_of_str elems entries
    = entries ++ omap (parse_url_elem float float_of_str) elems.
Proof.
  induction elems as [|e elems IH]; intros entries; simpl.
  - now rewrite app_nil_r.
  - destruct (parse_url_elem float float_of_str e); rewrite IH;
      [now rewrite <- app_assoc | reflexivity].
Qed.

Lemma parse_urlset_omap (soup : node) :
  parse_urlset float float_of_str soup
  = omap (parse_url_elem float float_of_str) (find_all ["url"] soup).
Proof. unfold parse_urlset. now rewrite urlset_loop_omap. Qed.

Lemma sitemap_locs_omap (elems : list node) :
  forall sitemaps,
    sitemap_locs elems sitemaps
    = sitemaps ++ omap (fun sitemap => get_text_strip <$> find "loc" sitemap) elems.
Proof.
  induction elems as [|e elems IH]; intros sitemaps; simpl.
  - now rewrite app_nil_r.
  - destruct (find "loc" e); simpl; rewrite IH;
      [now rewrite <- app_assoc | reflexivity].
Qed.

(** The children of an index, in the order of its [sitemap] elements. *)
Lemma parse_sitemap_index_omap (soup : node) :
  parse_sitemap_index soup
  = omap (fun sitemap => get_text_strip <$> find "loc" sitemap)
         (find_all ["sitemap"] soup).
Proof. unfold parse_sitemap_index. now rewrite sitemap_locs_omap. Qed.

(** ** The limit *)

Lemma limit_reached_quota (count : Z) :
  limit_reached max_urls count = true <-> quota max_urls count = Some 0.
Proof.
  unfold limit_reached, quota. destruct max_urls as [m|]; [|easy].
  destruct (m =? 0)%Z eqn:E; simpl; [easy|].
  rewrite Z.leb_le. split; [intros H; f_equal; lia | intros [= H]; lia].
Qed.

Lemma cut_reached {A : Type} (count : Z) (l : list A) :
  limit_reached max_urls count = true -> cut (quota max_urls count) l = [].
Proof. intros H%limit_reached_quota. now rewrite H. Qed.

Lemma cut_cons {A : Type} (count : Z) (x : A) (l : list A) :
  limit_reached max_urls count = false ->
  cut (quota max_urls count) (x :: l) = x :: cut (quota max_urls (count + 1)) l.
Proof.
  intros H. assert (quota max_urls count <> Some 0) as Hq
      by (intros Hq%limit_reached_quota; congruence).
  unfold quota in *. destruct max_urls as [m|]; [|reflexivity].
  destruct (m =? 0)%Z; [reflexivity|]. simpl.
  destruct (Z.to_nat (m - count)) as [|n] eqn:E; [congruence|].
  simpl. do 2 f_equal. lia.
Qed.

Lemma cut_app {A : Type} (count : Z) (a b : list A) :
  cut (quota max_urls count) (a ++ b)
  = cut (quota max_urls count) a
    ++ cut (quota max_urls
                  (count + Z.of_nat (length (cut (quota max_urls count) a)))) b.
Proof.
  unfold quota. destruct max_urls as [m|]; [|reflexivity].
  destruct (m =? 0)%Z; [reflexivity|]. simpl.
  rewrite firstn_app. f_equal. f_equal.
  rewrite length_firstn. lia.
Qed.

(** ** The loops *)

Lemma yield_loop_spec (entries : list entry) :
  forall count,
    let out := cut (quota max_urls count) (matching entries) in
    yielded (yield_loop entries count).1 = out /\
    fetched (yield_loop entries count).1 = [] /\
    (yield_loop entries count).2 = (count + Z.of_nat (length out))%Z.
Proof.
  induction entries as [|e entries IH]; intros count; simpl.
  - destruct (quota max_urls count); simpl; rewrite ?firstn_nil; simpl;
      repeat split; lia.
  - destruct (limit_reached max_urls count) eqn:Hl.
    + rewrite cut_reached by assumption. simpl. repeat split; lia.
    + destruct (filtered_out float pattern e) eqn:Hf; simpl.
      * apply IH.
      * rewrite cut_cons by assumption.
        destruct (IH (count + 1)%Z) as (Hy & Hfe & Hc).
        destruct (yield_loop entries (count + 1)) as [evs count'].
        simpl in *. rewrite Hy, Hfe, Hc. repeat split. lia.
Qed.

Lemma yielded_app (a b : list (event float)) :
  yielded (a ++ b) = yielded a ++ yielded b.
Proof. apply omap_app. Qed.

Lemma fetched_app (a b : list (event float)) :
  fetched (a ++ b) = fetched a ++ fetched b.
Proof. apply omap_app. Qed.

Lemma child_loop_spec (fp : bool) (targets : list string) :
  forall count,
    let out := cut (quota max_urls count) (flat_map child_entries (kept fp targets)) in
    yielded (child_loop fp targets count).1 = out /\
    (child_loop fp targets count).2 = (count + Z.of_nat (length out))%Z /\
    fetched (child_loop fp targets count).1 `prefix_of` kept fp targets /\
    (quota max_urls count = None ->
     fetched (child_loop fp targets count).1 = kept fp targets).
Proof.
  induction targets as [|c targets IH]; intros count; simpl.
  - unfold kept. simpl. destruct (quota max_urls count); simpl;
      rewrite ?firstn_nil; simpl; repeat split; lia || reflexivity.
  - destruct (limit_reached max_urls count) eqn:Hl.
    + rewrite cut_reached by assumption. simpl.
      repeat split; [lia | apply prefix_nil |].
      apply limit_reached_quota in Hl. congruence.
    + unfold kept. simpl. fold (kept fp targets).
      destruct (negb fp && ignored c) eqn:Hskip; simpl; [apply IH|].
      assert (child_entries c
              = match fetch_sitemap c with
                | Some soup => matching (parse_urlset float float_of_str soup)
                | None => []
                end) as -> by reflexivity.
      destruct (fetch_sitemap c) as [child_soup|] eqn:Hfetch.
      * destruct (yield_loop_spec (parse_urlset float float_of_str child_soup) count)
          as (Hy & Hfe & Hc).
        destruct (yield_loop (parse_urlset float float_of_str child_soup) count)
          as [evs count'].
        simpl in Hy, Hfe, Hc.
        destruct (IH count') as (Hy' & Hc' & Hp' & Hall').
        destruct (child_loop fp targets count') as [evs' count''].
        simpl in *. rewrite yielded_app, fetched_app, Hy, Hfe, Hy', Hc'.
        rewrite cut_app. subst count'. simpl.
        repeat split.
        -- rewrite length_app. lia.
        -- now apply prefix_cons.
        -- intros Hq. f_equal. apply Hall'.
           unfold quota in *. destruct max_urls as [m|]; [|reflexivity].
           destruct (m =? 0)%Z; [reflexivity | discriminate].
      * destruct (IH count) as (Hy' & Hc' & Hp' & Hall').
        destruct (child_loop fp targets count) as [evs' count''].
        simpl in *. repeat split; try assumption.
        -- now apply prefix_cons.
        -- intros Hq. f_equal. now apply Hall'.
Qed.

(** The retained children are the kept ones among the targets. *)
Lemma kept_retained (child_sitemaps : list string) :
  let post_sitemaps := List.filter has_post child_sitemaps in
  let fp := match post_sitemaps with [] => false | _ :: _ => true end in
  kept fp (if fp then post_sitemaps else child_sitemaps)
  = retained child_sitemaps.
Proof.
  unfold retained, kept. simpl.
  assert (existsb has_post child_sitemaps
          = match List.filter has_post child_sitemaps with
            | [] => false | _ :: _ => true end) as ->.
  { induction child_sitemaps as [|c cs IH]; simpl; [reflexivity|].
    destruct (has_post c); simpl; [reflexivity | assumption]. }
  destruct (List.filter has_post child_sitemaps) as [|x xs] eqn:E; simpl.
  - reflexivity.
  - f_equal. clear. induction xs as [|y ys IH]; simpl; [reflexivity | now f_equal].
Qed.

Lemma filter_sublist {A : Type} (f : A -> bool) (l : list A) :
  sublist (List.filter f l) l.
Proof.
  induction l as [|x l IH]; simpl; [constructor|].
  destruct (f x); now constructor.
Qed.

(** Smart filtering keeps the order of the index. *)
Lemma retained_sublist (child_sitemaps : list string) :
  sublist (retained child_sitemaps) child_sitemaps.
Proof. unfold retained. destruct (existsb _ _); apply filter_sublist. Qed.

(** A run over a sitemap index. *)
Lemma get_all_urls_index (sitemap_url : string) (soup : node) :
  fetch_sitemap sitemap_url = Some soup ->
  is_sitemap_index soup = true ->
  let evs := get_all_urls float float_of_str fetch_sitemap sitemap_url
                          pattern max_urls in
  let children := retained (parse_sitemap_index soup) in
  yielded evs = cut (quota max_urls 0) (flat_map child_entries children) /\
  (exists rest, fetched evs = sitemap_url :: rest /\
                rest `prefix_of` children /\
                (unlimited max_urls -> rest = children)).
Proof.
  intros Hfetch Hidx. unfold get_all_urls. rewrite Hfetch, Hidx. simpl.
  pose proof (kept_retained (parse_sitemap_index soup)) as Hk. simpl in Hk.
  match goal with
  | |- context [child_loop ?fp ?targets 0%Z] =>
      destruct (child_loop_spec fp targets 0%Z) as (Hy & _ & Hp & Hall)
  end.
  rewrite Hk in Hy, Hp, Hall. split; [exact Hy|].
  eexists. split; [reflexivity|]. split; [exact Hp|].
  intros Hu. apply Hall. unfold quota. destruct Hu as [-> | ->]; reflexivity.
Qed.

(** A run over a plain url set. *)
Lemma get_all_urls_urlset (sitemap_url : string) (soup : node) :
  fetch_sitemap sitemap_url = Some soup ->
  is_sitemap_index soup = false ->
  yielded (get_all_urls float float_of_str fetch_sitemap sitemap_url
                        pattern max_urls)
  = cut (quota max_urls 0) (matching (parse_urlset float float_of_str soup)).
Proof.
  intros Hfetch Hidx. unfold get_all_urls. rewrite Hfetch, Hidx. simpl.
  apply yield_loop_spec.
Qed.

End Facts.

End SitemapFacts.

(* ===================================================================== *)
(** * The sitemap traversal: filtering, limit and bad priorities *)
(* ===================================================================== *)

Module SitemapClaims.
Import Soup Sitemap SitemapProps SitemapFacts Examples.

Lemma yield_loop_zero {float : Type} (pattern : option (string -> bool))
      (entries : list (SitemapEntry float)) :
  forall count,
    yield_loop float pattern (Some 0%Z) entries count
    = yield_loop float pattern None entries count.
Proof.
  induction entries as [|e entries IH]; intros count; simpl; [reflexivity|].
  now rewrite !IH.
Qed.

Lemma child_loop_zero {float : Type} (float_of_str : string -> option float)
      (fetch_sitemap : string -> option node) (pattern : option (string -> bool))
      (fp : bool) (targets : list string) :
  forall count,
    child_loop float float_of_str fetch_sitemap pattern (Some 0%Z) fp targets count
    = child_loop float float_of_str fetch_sitemap pattern None fp targets count.
Proof.
  induction targets as [|c targets IH]; intros count; simpl; [reflexivity|].
  destruct (negb fp && ignored c); [apply IH|].
  destruct (fetch_sitemap c); [|now rewrite IH].
  rewrite yield_loop_zero.
  destruct (yield_loop float pattern None _ count) as [evs count'].
  now rewrite IH.
Qed.

(** C3.  On a sitemap index, [get_all_urls] requests the index and then
    only retained children, in the order of the index: the children whose
    last segment contains "post" if there is one, else the children whose
    URL contains none of category/tag/author/user/page.  It requests all
    of them when there is no limit and, under a limit, those before the
    limit is reached.  The entries it yields are the filter-matching
    entries of the retained children, up to the limit. *)
Theorem C3_smart_filtering
        (float : Type) (float_of_str : string -> option float)
        (fetch_sitemap : string -> option node)
        (pattern : option (string -> bool)) (max_urls : option Z)
        (sitemap_url : string) (soup : node) :
  fetch_sitemap sitemap_url = Some soup ->
  is_sitemap_index soup = true ->
  let evs := get_all_urls float float_of_str fetch_sitemap sitemap_url
                          pattern max_urls in
  let children := retained (parse_sitemap_index soup) in
  (exists rest, fetched evs = sitemap_url :: rest /\
                rest `prefix_of` children /\
                (unlimited max_urls -> rest = children)) /\
  yielded evs
  = cut (quota max_urls 0)
        (index_entries float float_of_str fetch_sitemap pattern soup).
Proof.
  intros Hfetch Hidx.
  destruct (get_all_urls_index float float_of_str fetch_sitemap pattern max_urls
                               sitemap_url soup Hfetch Hidx) as [Hy Hf].
  split; [exact Hf | exact Hy].
Qed.

Lemma C3_smart_filtering_witness :
  fetched (get_all_urls Z tenths site "https://example.com/sitemap.xml" None None)
  = ["https://example.com/sitemap.xml"; "https://example.com/post-sitemap.xml"] /\
  yielded (get_all_urls Z tenths site "https://example.com/sitemap-taxonomies.xml"
                        None None)
  = [].
Proof.
  split.
  - destruct (C3_smart_filtering
                Z tenths site None None "https://example.com/sitemap.xml"
                (sitemap_index ["https://example.com/post-sitemap.xml";
                                "https://example.com/category-sitemap.xml";
                                "https://example.com/tag-sitemap.xml"])
                eq_refl eq_refl) as [(rest & -> & _ & Hall) _].
    rewrite (Hall (or_introl eq_refl)). vm_compute. reflexivity.
  - destruct (C3_smart_filtering
                Z tenths site None None "https://example.com/sitemap-taxonomies.xml"
                (sitemap_index ["https://example.com/category-sitemap.xml";
                                "https://example.com/tag-sitemap.xml"])
                eq_refl eq_refl) as [_ ->].
    vm_compute. reflexivity.
Defined.

(** C4 (the code departs from it).  With [max_urls = 0] on the sample
    index, whose two retained children hold ten entries (at least zero),
    [get_all_urls] yields all ten, where C4 and the docstring
    ("max_urls: Maximum number of URLs to return") give none: the test
    [max_urls and count >= max_urls] is never true for a limit of zero.
    [scrape_from_sitemap], which passes the limit on, tests
    [max_articles is not None] instead. *)
Theorem C4_zero_limit_yields_all_entries :
  let soup := sitemap_index ["https://example.com/post-sitemap.xml";
                             "https://example.com/post-sitemap2.xml"] in
  site "https://example.com/sitemap-posts.xml" = Some soup /\
  is_sitemap_index soup = true /\
  (0 <= Z.of_nat (length (index_entries Z tenths site None soup)))%Z /\
  length (yielded (get_all_urls Z tenths site
                                "https://example.com/sitemap-posts.xml"
                                None (Some 0%Z))) = 10.
Proof. vm_compute. repeat split. discriminate. Qed.

(** C4 holds for every limit of one or more.  For such a [max_urls] and
    a sitemap index whose retained children together hold at least [max_urls]
    filter-matching entries, [get_all_urls] yields exactly [max_urls]
    entries: the first [max_urls] of the entries of the retained children,
    taken child after child in the order of the index (the retained
    children are a sublist of the [sitemap] elements' addresses) and,
    within a child, in document order (a url set is read element after
    element). *)
Theorem C4_limit_on_index
        (float : Type) (float_of_str : string -> option float)
        (fetch_sitemap : string -> option node)
        (pattern : option (string -> bool)) (max_urls : Z)
        (sitemap_url : string) (soup : node) :
  fetch_sitemap sitemap_url = Some soup ->
  is_sitemap_index soup = true ->
  (1 <= max_urls)%Z ->
  (max_urls
   <= Z.of_nat (length (index_entries float float_of_str fetch_sitemap pattern soup)))%Z ->
  let out := yielded (get_all_urls float float_of_str fetch_sitemap sitemap_url
                                   pattern (Some max_urls)) in
  out = firstn (Z.to_nat max_urls)
               (index_entries float float_of_str fetch_sitemap pattern soup) /\
  Z.of_nat (length out) = max_urls /\
  sublist (retained (parse_sitemap_index soup))
          (omap (fun sitemap => get_text_strip <$> find "loc" sitemap)
                (find_all ["sitemap"] soup)) /\
  (forall child_soup,
      parse_urlset float float_of_str child_soup
      = omap (parse_url_elem float float_of_str) (find_all ["url"] child_soup)).
Proof.
  intros Hfetch Hidx Hpos Hle.
  destruct (get_all_urls_index float float_of_str fetch_sitemap pattern (Some max_urls)
                               sitemap_url soup Hfetch Hidx) as [Hy _].
  simpl. rewrite Hy. unfold quota.
  destruct (max_urls =? 0)%Z eqn:E; [lia|]. simpl.
  rewrite Z.sub_0_r. split; [reflexivity|].
  split; [rewrite length_firstn; unfold index_entries in Hle; lia|].
  split; [|apply parse_urlset_omap].
  rewrite <- parse_sitemap_index_omap. apply retained_sublist.
Qed.

Lemma C4_limit_on_index_witness :
  map url (yielded (get_all_urls Z tenths site "https://example.com/sitemap-posts.xml"
                                 None (Some 5%Z)))
  = ["https://example.com/blog/2024/post-1";
     "https://example.com/blog/2024/post-2";
     "https://example.com/blog/2024/post-3";
     "https://example.com/blog/2023/post-1";
     "https://example.com/blog/2023/post-2"].
Proof.
  destruct (C4_limit_on_index
              Z tenths site None 5 "https://example.com/sitemap-posts.xml"
              (sitemap_index ["https://example.com/post-sitemap.xml";
                              "https://example.com/post-sitemap2.xml"])
              eq_refl eq_refl ltac:(lia) ltac:(vm_compute; discriminate))
    as [-> _].
  vm_compute. reflexivity.
Defined.

(** C8.  In a url set, a [url] element that has a [loc] and a [priority]
    whose text is no number still gives its entry, with [priority = None]
    and with the [lastmod] and [changefreq] it has; the entries of the
    elements before it and after it are produced as usual. *)
Theorem C8_bad_priority_ignored
        (float : Type) (float_of_str : string -> option float)
        (soup : node) (before after : list node) (url_elem loc priority : node) :
  find_all ["url"] soup = before ++ url_elem :: after ->
  find "loc" url_elem = Some loc ->
  find "priority" url_elem = Some priority ->
  float_of_str (get_text_strip priority) = None ->
  parse_urlset float float_of_str soup
  = omap (parse_url_elem float float_of_str) before
    ++ mkEntry (get_text_strip loc)
               (get_text_strip <$> find "lastmod" url_elem)
               (get_text_strip <$> find "changefreq" url_elem)
               None
    :: omap (parse_url_elem float float_of_str) after.
Proof.
  intros Hall Hloc Hprio Hbad.
  rewrite parse_urlset_omap, Hall, omap_app. f_equal. simpl.
  unfold parse_url_elem at 1. rewrite Hloc, Hprio, Hbad.
  destruct (find "lastmod" url_elem), (find "changefreq" url_elem); reflexivity.
Qed.

Lemma C8_bad_priority_ignored_witness :
  parse_urlset Z tenths urlset_bad_priority
  = [mkEntry "https://example.com/a" None None (Some 8%Z);
     mkEntry "https://example.com/b" (Some "2024-01-02") (Some "weekly") None;
     mkEntry "https://example.com/c" None None None].
Proof.
  rewrite (C8_bad_priority_ignored
             Z tenths urlset_bad_priority
             [elem "url" [Examples.loc "https://example.com/a";
                          elem "priority" [Text "0.8"]]]
             [elem "url" [Examples.loc "https://example.com/c"]]
             (elem "url" [Examples.loc "https://example.com/b";
                          elem "lastmod" [Text "2024-01-02"];
                          elem "changefreq" [Text " weekly "];
                          elem "priority" [Text "high"]])
             (Examples.loc "https://example.com/b")
             (elem "priority" [Text "high"])
             eq_refl eq_refl eq_refl eq_refl).
  vm_compute. reflexivity.
Defined.

(** C9.  With [max_urls = 0] the run of [get_all_urls] is the run without
    a limit: the limit test is false at every count, and every
    filter-matching entry behind the sitemap is yielded. *)
Theorem C9_zero_limit_is_no_limit
        (float : Type) (float_of_str : string -> option float)
        (fetch_sitemap : string -> option node)
        (pattern : option (string -> bool)) (sitemap_url : string) :
  (forall count, limit_reached (Some 0%Z) count = false) /\
  get_all_urls float float_of_str fetch_sitemap sitemap_url pattern (Some 0%Z)
  = get_all_urls float float_of_str fetch_sitemap sitemap_url pattern None /\
  yielded (get_all_urls float float_of_str fetch_sitemap sitemap_url pattern (Some 0%Z))
  = all_entries float float_of_str fetch_sitemap pattern sitemap_url.
Proof.
  split; [reflexivity|]. split.
  - unfold get_all_urls. destruct (fetch_sitemap sitemap_url) as [soup|]; [|reflexivity].
    f_equal. destruct (is_sitemap_index soup).
    + now rewrite child_loop_zero.
    + now rewrite yield_loop_zero.
  - unfold all_entries.
    destruct (fetch_sitemap sitemap_url) as [soup|] eqn:Hfetch.
    + destruct (is_sitemap_index soup) eqn:Hidx.
      * now destruct (get_all_urls_index float float_of_str fetch_sitemap pattern
                                         (Some 0%Z) sitemap_url soup Hfetch Hidx).
      * now rewrite (get_all_urls_urlset float float_of_str fetch_sitemap pattern
                                         (Some 0%Z) sitemap_url soup Hfetch Hidx).
    + unfold get_all_urls. now rewrite Hfetch.
Qed.

(** The sample index under a zero limit: all ten entries. *)
Example zero_limit_sample :
  length (yielded (get_all_urls Z tenths site "https://example.com/sitemap-posts.xml"
                                None (Some 0%Z))) = 10.
Proof. vm_compute. reflexivity. Qed.

End SitemapClaims.

(* ===================================================================== *)
(** * Properties of the content extractor *)
(* ===================================================================== *)

Module ExtractorFacts.
Import Soup Models Extractors ExtractorProps.

(** ** [extract_tags] *)

Lemma add_keywords_spec (keywords : list string) :
  forall tags : gset string,
    add_keywords keywords tags
    = list_to_set (List.filter PyStr.truthy (map PyStr.strip keywords)) ∪ tags.
Proof.
  induction keywords as [|kw rest IH]; intros tags; simpl.
  - set_solver.
  - rewrite IH. destruct (PyStr.truthy (PyStr.strip kw)); simpl; unfold add; set_solver.
Qed.

Lemma add_article_tags_spec (metas : list node) :
  forall tags : gset string,
    add_article_tags metas tags
    = list_to_set
        (omap (fun meta_tag =>
                 match get "content" meta_tag with
                 | Some c => if PyStr.truthy c then Some (PyStr.strip c) else None
                 | None => None
                 end) metas) ∪ tags.
Proof.
  induction metas as [|m rest IH]; intros tags; simpl.
  - set_solver.
  - rewrite IH. destruct (get "content" m) as [c|]; [|reflexivity].
    destruct (PyStr.truthy c); simpl; unfold add; set_solver.
Qed.

Lemma add_links_spec (links : list node) :
  forall tags : gset string,
    add_links links tags
    = list_to_set (List.filter PyStr.truthy (map get_text_strip links)) ∪ tags.
Proof.
  induction links as [|l rest IH]; intros tags; simpl.
  - set_solver.
  - rewrite IH. destruct (PyStr.truthy (get_text_strip l)); simpl; unfold add; set_solver.
Qed.

Lemma add_short_links_spec (links : list node) :
  forall tags : gset string,
    add_short_links links tags
    = list_to_set
        (List.filter (fun t => PyStr.truthy t && (String.length t <? 50)%nat)
                     (map get_text_strip links)) ∪ tags.
Proof.
  induction links as [|l rest IH]; intros tags; simpl.
  - set_solver.
  - rewrite IH.
    destruct (PyStr.truthy (get_text_strip l) && _); simpl; unfold add; set_solver.
Qed.

Lemma add_containers_spec (containers : list node) :
  forall tags : gset string,
    add_containers containers tags
    = list_to_set
        (List.filter (fun t => PyStr.truthy t && (String.length t <? 50)%nat)
                     (map get_text_strip (flat_map (find_all ["a"]) containers)))
      ∪ tags.
Proof.
  induction containers as [|c rest IH]; intros tags; simpl.
  - set_solver.
  - rewrite IH, add_short_links_spec, map_app, List.filter_app, list_to_set_app_L.
    set_solver.
Qed.

Lemma strategy_a_spec (soup : node) (tags : gset string) :
  strategy_a soup tags = list_to_set (keywords_tags soup) ∪ tags.
Proof.
  unfold strategy_a, keywords_tags.
  destruct (find_where _ _ soup) as [m|]; [|set_solver].
  destruct (get "content" m) as [c|]; [|set_solver].
  destruct c as [|x c]; [set_solver|].
  apply add_keywords_spec.
Qed.

(** The set of tags is the union of what the four strategies find. *)
Lemma extract_tags_set_spec (soup : node) :
  extract_tags_set soup
  = list_to_set (keywords_tags soup ++ article_tags soup
                 ++ rel_tags soup ++ container_tags soup).
Proof.
  unfold extract_tags_set, strategy_d, strategy_c, strategy_b.
  rewrite add_containers_spec, add_links_spec, add_article_tags_spec, strategy_a_spec.
  rewrite !list_to_set_app_L.
  unfold container_tags, rel_tags, article_tags. set_solver.
Qed.

(** ** [_extract_sections] *)

Lemma descendants_app (name : string) (attrs : gmap string string)
      (xs ys : list node) :
  descendants (Tag name attrs (xs ++ ys))
  = descendants (Tag name attrs xs) ++ descendants (Tag name attrs ys).
Proof. simpl. apply flat_map_app. Qed.

Lemma find_all_app (names : list string) (name : string)
      (attrs : gmap string string) (xs ys : list node) :
  find_all names (Tag name attrs (xs ++ ys))
  = find_all names (Tag name attrs xs) ++ find_all names (Tag name attrs ys).
Proof.
  unfold find_all, find_all_where. rewrite descendants_app. apply List.filter_app.
Qed.

Lemma find_all_cons (names : list string) (name : string)
      (attrs : gmap string string) (x : node) (ys : list node) :
  find_all names (Tag name attrs (x :: ys))
  = (if has_name names x then [x] else [])
    ++ find_all names x ++ find_all names (Tag name attrs ys).
Proof.
  unfold find_all, find_all_where. simpl. rewrite List.filter_app.
  rewrite andb_true_r.
  destruct x as [t | n a cs]; simpl; [reflexivity|].
  destruct (PyStr.mem n names); reflexivity.
Qed.

(** Without an open section a level-3 heading changes nothing. *)
Lemma step_h3_no_section (st : state) (element : node) :
  name_of element = "h3" -> current_section st = None -> step st element = st.
Proof. intros Hn Hc. unfold step. rewrite Hn, Hc. reflexivity. Qed.

(** Without an open section a table changes nothing. *)
Lemma step_table_no_section (st : state) (element : node) :
  name_of element = "table" -> current_section st = None -> step st element = st.
Proof. intros Hn Hc. unfold step. rewrite Hn, Hc. reflexivity. Qed.

(** Without an open section a list goes to the introduction. *)
Lemma step_list_no_section (st : state) (element : node) :
  name_of element = "ul" -> current_section st = None ->
  step st element
  = mkState (intro_parts st
             ++ [PyStr.join NL (map (fun li => BULLET +:+ get_text_strip li)
                                    (find_all ["li"] element))])
            None (sections st).
Proof. intros Hn Hc. unfold step. rewrite Hn, Hc. reflexivity. Qed.

(** Only a level-2 heading opens a section. *)
Lemma step_keeps_no_section (st : state) (element : node) :
  name_of element <> "h2" -> current_section st = None ->
  current_section (step st element) = None.
Proof.
  intros Hn Hc. unfold step.
  destruct (String.eqb_spec (name_of element) "h2") as [E | _]; [congruence|].
  rewrite Hc.
  destruct (String.eqb (name_of element) "h3");
    (destruct (String.eqb (name_of element) "p");
     [destruct (PyStr.truthy (get_text_strip element)); [reflexivity | assumption]|];
     destruct (PyStr.mem (name_of element) ["ul"; "ol"]); [reflexivity|];
     destruct (String.eqb (name_of element) "table"); assumption).
Qed.

Lemma fold_keeps_no_section (elements : list node) :
  forall st,
    (forall d, In d elements -> name_of d <> "h2") ->
    current_section st = None ->
    current_section (fold_left step elements st) = None.
Proof.
  induction elements as [|e rest IH]; intros st Hno Hc; simpl; [assumption|].
  apply IH.
  - intros d Hd. apply Hno. now right.
  - apply step_keeps_no_section; [apply Hno; now left | assumption].
Qed.

(** A level-3 heading met before every level-2 heading contributes
    nothing to the state of the loop. *)
Lemma fold_skip_early_h3 (before after : list node) (h3 : node) :
  name_of h3 = "h3" ->
  (forall d, In d before -> name_of d <> "h2") ->
  let st := fold_left step before (mkState [] None []) in
  step st h3 = st /\
  fold_left step (before ++ h3 :: after) (mkState [] None [])
  = fold_left step (before ++ after) (mkState [] None []).
Proof.
  intros Hname Hno st.
  assert (current_section st = None) as Hst
      by (apply fold_keeps_no_section; [assumption | reflexivity]).
  pose proof (step_h3_no_section st h3 Hname Hst) as Hstep.
  split; [assumption|].
  rewrite !fold_left_app. simpl. fold st. now rewrite Hstep.
Qed.

End ExtractorFacts.

(* ===================================================================== *)
(** * The content extractor: tables, early headings and tags *)
(* ===================================================================== *)

Module ExtractorClaims.
Import Soup Models Extractors ExtractorProps ExtractorFacts Examples.

(** C1 (the code departs from it).  The article whose only block is a
    table of text "a | b", met while no section is open, gets no
    introduction section: the result is empty.  A list in the same place
    does reach the introduction. *)
Theorem C1_table_before_first_h2_is_dropped :
  _extract_table_text small_table = "a | b" /\
  _extract_sections table_only = [] /\
  _extract_sections list_only = [mkSection "" (BULLET +:+ "a") 0].
Proof. split; [reflexivity | split; reflexivity]. Qed.

(** C10.  A level-3 heading met among the blocks of the article before
    every level-2 heading, that is while no section is open, is
    discarded: the loop leaves its state as it is at this element, and
    the sections returned are those computed from the other blocks
    alone. *)
Theorem C10_h3_before_first_h2_is_discarded
        (article : node) (before after : list node) (h3 : node) :
  find_all BLOCKS article = before ++ h3 :: after ->
  name_of h3 = "h3" ->
  (forall d, In d before -> name_of d <> "h2") ->
  step (fold_left step before (mkState [] None [])) h3
  = fold_left step before (mkState [] None []) /\
  _extract_sections article
  = finish (fold_left step (before ++ after) (mkState [] None [])).
Proof.
  intros Hblocks Hname Hno.
  destruct (fold_skip_early_h3 before after h3 Hname Hno) as [Hstep Hfold].
  split; [exact Hstep|].
  unfold _extract_sections. now rewrite Hblocks, Hfold.
Qed.

Lemma C10_h3_before_first_h2_is_discarded_witness :
  _extract_sections early_h3
  = [mkSection "" "Lead." 0;
     mkSection "First" (NL +:+ NL +:+ "### Inside" +:+ NL +:+ NL +:+ "Body.") 2].
Proof.
  destruct (C10_h3_before_first_h2_is_discarded
              early_h3
              [elem "p" [Text "Lead."]]
              [elem "h2" [Text "First"]; elem "h3" [Text "Inside"];
               elem "p" [Text "Body."]]
              (elem "h3" [Text "Too early"])
              eq_refl eq_refl
              ltac:(intros d [<- | []]; discriminate)) as [_ ->].
  reflexivity.
Defined.

(** For a heading that holds no block of its own, the sections are those
    of the article with the heading taken out. *)
Lemma early_h3_can_be_removed
      (name : string) (attrs : gmap string string)
      (before after : list node) (h3 : node) :
  name_of h3 = "h3" ->
  find_all BLOCKS h3 = [] ->
  (forall d, In d (find_all BLOCKS (Tag name attrs before)) -> name_of d <> "h2") ->
  _extract_sections (Tag name attrs (before ++ h3 :: after))
  = _extract_sections (Tag name attrs (before ++ after)).
Proof.
  intros Hname Hinner Hno. unfold _extract_sections.
  rewrite !find_all_app, find_all_cons, Hinner. simpl.
  destruct h3 as [t | n a cs]; [discriminate|].
  simpl in Hname. subst n. simpl.
  now destruct (fold_skip_early_h3
                  (find_all BLOCKS (Tag name attrs before))
                  (find_all BLOCKS (Tag name attrs after))
                  (Tag "h3" a cs) eq_refl Hno) as [_ ->].
Qed.

Example early_h3_removed_same :
  _extract_sections early_h3 = _extract_sections early_h3_removed.
Proof. reflexivity. Qed.

(** C7.  [extract_tags] returns, without duplicates, exactly the tags
    that one of the four strategies finds: the trimmed comma-separated
    keywords, the [article:tag] meta contents, the texts of the anchors
    with [rel="tag"], and the short anchor texts inside tag-classed
    containers.  For the page with keywords "a, b, a" and one [rel="tag"]
    anchor "c" these are the three tags a, b, c. *)
Theorem C7_tags_are_the_union_of_the_strategies (soup : node) :
  NoDup (extract_tags soup) /\
  (forall t, In t (extract_tags soup) <->
             In t (keywords_tags soup) \/ In t (article_tags soup) \/
             In t (rel_tags soup) \/ In t (container_tags soup)) /\
  length (extract_tags tags_page) = 3 /\
  (forall t, In t (extract_tags tags_page) <-> t = "a" \/ t = "b" \/ t = "c").
Proof.
  assert (forall s t, In t (extract_tags s) <->
                      In t (keywords_tags s) \/ In t (article_tags s) \/
                      In t (rel_tags s) \/ In t (container_tags s)) as Hunion.
  { intros s t. unfold extract_tags.
    rewrite <- list_elem_of_In, elem_of_elements, extract_tags_set_spec.
    rewrite elem_of_list_to_set, list_elem_of_In, !in_app_iff. reflexivity. }
  split; [unfold extract_tags; apply NoDup_elements|].
  split; [apply Hunion|].
  split; [vm_compute; reflexivity|].
  intros t. rewrite Hunion.
  change (keywords_tags tags_page) with ["a"; "b"; "a"].
  change (article_tags tags_page) with (@nil string).
  change (rel_tags tags_page) with ["c"].
  change (container_tags tags_page) with (@nil string).
  simpl. intuition.
Qed.

End ExtractorClaims.

(* ===================================================================== *)
(** * The validity of an extracted article *)
(* ===================================================================== *)

Module ScraperClaims.
Import Models Scraper ScraperProps.

Lemma add_lengths_sum (sections : list ContentSection) :
  forall total,
    add_lengths sections total
    = total + list_sum (map (fun s => String.length (content s)) sections).
Proof.
  induction sections as [|s rest IH]; intros total; simpl; [lia|].
  rewrite IH. lia.
Qed.

Lemma is_valid_article_total (c : content_dict) :
  is_valid_article c
  = if (total_length c <? 100)%nat then (false, "Content too short")
    else (true, "Valid article").
Proof.
  unfold is_valid_article, total_length.
  destruct (String.length (get_or (content_html c) "") =? 0)%nat eqn:E;
    [|reflexivity].
  apply Nat.eqb_eq in E. now rewrite add_lengths_sum, E.
Qed.

(** C5.  [is_valid_article] rejects with "Content too short" exactly the
    contents whose total length (that of [content_html], or, when it is
    zero, the sum over the section bodies) is below 100, and accepts all
    others, 100 included; a rejected content gives no record. *)
Theorem C5_content_length_threshold (c : content_dict) :
  (is_valid_article c = (false, "Content too short") <-> total_length c < 100) /\
  (is_valid_article c = (true, "Valid article") <-> 100 <= total_length c) /\
  (forall url og_title description author date category tags now,
      scrape_extracted url og_title description author date category c tags now = None
      <-> total_length c < 100).
Proof.
  pose proof (is_valid_article_total c) as H.
  destruct (total_length c <? 100)%nat eqn:E.
  - apply Nat.ltb_lt in E. repeat split; intros; try lia; try congruence.
    + unfold scrape_extracted. now rewrite H.
  - apply Nat.ltb_ge in E. repeat split; intros; try lia; try congruence.
    unfold scrape_extracted in *. rewrite H in *. simpl in *. discriminate.
Qed.

(** 99 characters are too few, 100 are enough; the sections count only
    when there is no [content_html]. *)
Example length_99_rejected :
  is_valid_article
    (mkContent (Some "t")
       (Some "<p>123456789012345678901234567890123456789012345678901234567890123456789012345678901234567890ab</p>")
       (Some []))
  = (false, "Content too short").
Proof. reflexivity. Qed.

Example length_100_accepted :
  is_valid_article
    (mkContent (Some "t")
       (Some "<p>123456789012345678901234567890123456789012345678901234567890123456789012345678901234567890abc</p>")
       (Some []))
  = (true, "Valid article").
Proof. reflexivity. Qed.

Example sections_ignored_when_html_present :
  is_valid_article
    (mkContent (Some "t") (Some "<p>short</p>")
       (Some [mkSection "h"
                "123456789012345678901234567890123456789012345678901234567890123456789012345678901234567890123456789012345" 2]))
  = (false, "Content too short").
Proof. reflexivity. Qed.

End ScraperClaims.

(* ===================================================================== *)
(** * More on the URL classifier *)
(* ===================================================================== *)

Module ValidatorExtras.
Import PyStr Re Url Validators UrlProps StrFacts ReFacts ValidatorFacts.

Lemma strip_chars_all (p : ascii -> bool) (s : string) :
  all_chars p s = true -> strip_chars p s = "".
Proof. intros H. unfold strip_chars. now rewrite (lstrip_all p s H). Qed.

Lemma lstrip_app (p : ascii -> bool) (s t : string) :
  lstrip p (s +:+ t) = if all_chars p s then lstrip p t else lstrip p s +:+ t.
Proof.
  induction s as [|c s IH]; app_simpl; [reflexivity|].
  destruct (p c); simpl; [exact IH | reflexivity].
Qed.

Lemma rstrip_app_all (p : ascii -> bool) (s t : string) :
  all_chars p t = true -> rstrip p (s +:+ t) = rstrip p s.
Proof.
  intros Ht. induction s as [|c s IH]; app_simpl.
  - now apply rstrip_all.
  - now rewrite IH.
Qed.

(** Stripped characters added at the end are stripped again. *)
Lemma strip_chars_app_all (p : ascii -> bool) (s t : string) :
  all_chars p t = true -> strip_chars p (s +:+ t) = strip_chars p s.
Proof.
  intros Ht. unfold strip_chars. rewrite lstrip_app.
  destruct (all_chars p s) eqn:Hs.
  - now rewrite (lstrip_all p t Ht), (lstrip_all p s Hs).
  - now apply rstrip_app_all.
Qed.

(** X1.  A URL is a root domain exactly when its path is made of [/]
    alone (or is empty) and it has no query; these are exactly the URLs
    that [is_single_post] rejects with the root-domain reason. *)
Theorem root_domain_exactly
        (ue : string -> string) (min_path_depth : Z) (u : ParseResult) :
  (is_root_domain u = true <->
   all_chars (Ascii.eqb "/") (path u) = true /\ query u = "") /\
  (is_single_post ue min_path_depth u
   = (false, "URL is a root domain (use sitemap discovery)") <->
   is_root_domain u = true).
Proof.
  split.
  - unfold is_root_domain, truthy. rewrite andb_true_iff, !negb_involutive.
    rewrite !is_empty_true. split.
    + intros [Hp Hq]. split; [|assumption].
      now apply strip_chars_nil_all.
    + intros [Hp Hq]. split; [|assumption].
      now apply strip_chars_all.
  - unfold is_single_post. destruct (is_root_domain u); [tauto|].
    split; [|discriminate].
    destruct (has_pagination ue u); [discriminate|].
    destruct (matches_archive_pattern u); [discriminate|].
    destruct (_ <? _)%Z.
    + unfold too_shallow. rewrite !append_cons. discriminate.
    + destruct (negb _ || _); discriminate.
Qed.

Lemma last_item_nonempty_depth (p : string) :
  truthy (last_item (split "/" p)) = true ->
  is_empty p = false /\ 1 <= length (split "/" p).
Proof.
  intros H. split.
  - destruct p; [discriminate | reflexivity].
  - destruct (split_cons "/" p) as (h & t & ->). simpl. lia.
Qed.

(** What an accepted URL satisfies, test by test. *)
Lemma accepted_iff (ue : string -> string) (min_path_depth : Z) (u : ParseResult)
      (reason : string) :
  is_single_post ue min_path_depth u = (true, reason) <->
  reason = "Valid single post URL" /\
  is_root_domain u = false /\
  has_pagination ue u = false /\
  matches_archive_pattern u = false /\
  (Z.of_nat (get_path_depth u)
   <? (if has_subdomain u then 1 else min_path_depth))%Z = false /\
  truthy (last_item (split "/" (strip_slash (path u)))) = true /\
  isdigit (last_item (split "/" (strip_slash (path u)))) = false.
Proof.
  unfold is_single_post.
  destruct (is_root_domain u); [split; [discriminate | intros (_ & ? & _); discriminate]|].
  destruct (has_pagination ue u);
    [split; [discriminate | intros (_ & _ & ? & _); discriminate]|].
  destruct (matches_archive_pattern u);
    [split; [discriminate | intros (_ & _ & _ & ? & _); discriminate]|].
  destruct (_ <? _)%Z;
    [split; [discriminate | intros (_ & _ & _ & _ & ? & _); discriminate]|].
  destruct (truthy (last_item _)) eqn:Ht; simpl;
    [|split; [discriminate | intros (_ & _ & _ & _ & _ & ? & _); discriminate]].
  destruct (isdigit (last_item _)) eqn:Hd; simpl;
    [split; [discriminate | intros (_ & _ & _ & _ & _ & _ & ?); discriminate]|].
  split.
  - intros [= <-]. repeat split; reflexivity.
  - intros (-> & _). reflexivity.
Qed.

Lemma accepted_depth
      (ue : string -> string) (min_path_depth : Z) (u : ParseResult)
      (reason : string) :
  is_single_post ue min_path_depth u = (true, reason) -> 1 <= get_path_depth u.
Proof.
  intros (_ & _ & _ & _ & _ & Hslug & _)%accepted_iff.
  unfold get_path_depth.
  destruct (last_item_nonempty_depth _ Hslug) as [-> Hlen]. exact Hlen.
Qed.

(** X2.  An accepted URL has the reason "Valid single post URL", is no
    root domain, has no pagination and matches no archive pattern that
    applies to its host; its last path segment is non-empty and not made
    of digits alone; and it has at least one path segment whatever
    [min_path_depth] is, and at least [min_path_depth] off a blog
    subdomain. *)
Theorem accepted_url_is_sound
        (ue : string -> string) (min_path_depth : Z) (u : ParseResult)
        (reason : string) :
  is_single_post ue min_path_depth u = (true, reason) ->
  reason = "Valid single post URL" /\
  is_root_domain u = false /\
  has_pagination ue u = false /\
  matches_archive_pattern u = false /\
  last_item (split "/" (strip_slash (path u))) <> "" /\
  isdigit (last_item (split "/" (strip_slash (path u)))) = false /\
  1 <= get_path_depth u /\
  (has_subdomain u = false -> (min_path_depth <= Z.of_nat (get_path_depth u))%Z).
Proof.
  intros Hacc. pose proof (accepted_depth _ _ _ _ Hacc) as H1.
  apply accepted_iff in Hacc as (Hr & Hroot & Hpag & Harch & Hdepth & Hslug & Hdig).
  repeat split; try assumption.
  - now apply truthy_true.
  - intros Hsub. rewrite Hsub in Hdepth. apply Z.ltb_ge in Hdepth. exact Hdepth.
Qed.

Lemma accepted_url_is_sound_witness :
  1 <= get_path_depth (mkUrl "example.com" "/news/2024/my-post" "") /\
  (3 <= Z.of_nat (get_path_depth (mkUrl "example.com" "/news/2024/my-post" "")))%Z.
Proof.
  destruct (accepted_url_is_sound
              (fun s => s) 3 (mkUrl "example.com" "/news/2024/my-post" "")
              "Valid single post URL" eq_refl) as (_ & _ & _ & _ & _ & _ & H1 & H2).
  split; [exact H1 | exact (H2 eq_refl)].
Defined.

Lemma archive_loop_more_skipped (p : string) (patterns : list pattern) :
  forall k sub,
    archive_loop sub p k patterns = false ->
    archive_loop true p k patterns = false.
Proof.
  induction patterns as [|pat rest IH]; intros k sub H; simpl in *; [reflexivity|].
  destruct (Nat.eqb k 1); simpl in *.
  - destruct sub; simpl in *; [eauto|].
    destruct (search pat p); [discriminate | eauto].
  - destruct (search pat p); [discriminate | eauto].
Qed.

(** X3.  The blog-subdomain rule only widens acceptance: a URL that is
    accepted stays accepted, for the same path and query, on any host
    with a blog subdomain. *)
Theorem blog_subdomain_only_widens
        (ue : string -> string) (min_path_depth : Z) (u u' : ParseResult)
        (reason : string) :
  path u' = path u -> query u' = query u ->
  has_subdomain u' = true ->
  is_single_post ue min_path_depth u = (true, reason) ->
  is_single_post ue min_path_depth u' = (true, reason).
Proof.
  intros Hp Hq Hsub Hacc.
  pose proof (accepted_depth _ _ _ _ Hacc) as H1.
  apply accepted_iff in Hacc as (Hr & Hroot & Hpag & Harch & Hdepth & Hslug & Hdig).
  apply accepted_iff.
  unfold is_root_domain, has_pagination, matches_archive_pattern, get_path_depth in *.
  rewrite Hp, Hq, Hsub. repeat split; try assumption.
  - eapply archive_loop_more_skipped. exact Harch.
  - apply Z.ltb_ge. unfold get_path_depth in H1. lia.
Qed.

Lemma blog_subdomain_only_widens_witness :
  is_single_post (fun s => s) 3 (mkUrl "news.example.com" "/a/b/my-post" "")
  = (true, "Valid single post URL").
Proof.
  apply (blog_subdomain_only_widens
           (fun s => s) 3 (mkUrl "example.com" "/a/b/my-post" "")
           (mkUrl "news.example.com" "/a/b/my-post" "")
           "Valid single post URL" eq_refl eq_refl eq_refl eq_refl).
Defined.

Lemma lower_char_idem (c : ascii) : lower_char (lower_char c) = lower_char c.
Proof. destruct c as [[] [] [] [] [] [] [] []]; reflexivity. Qed.

Lemma lower_idem (s : string) : lower (lower s) = lower s.
Proof.
  induction s as [|c s IH]; simpl; [reflexivity|].
  now rewrite lower_char_idem, IH.
Qed.

(** X4.  The classification does not depend on the case of the host:
    the host is read through [lower] only. *)
Theorem host_case_is_ignored
        (ue : string -> string) (min_path_depth : Z) (host p q : string) :
  has_subdomain (mkUrl (lower host) p q) = has_subdomain (mkUrl host p q) /\
  is_single_post ue min_path_depth (mkUrl (lower host) p q)
  = is_single_post ue min_path_depth (mkUrl host p q).
Proof.
  assert (has_subdomain (mkUrl (lower host) p q) = has_subdomain (mkUrl host p q)) as Hs.
  { unfold has_subdomain. simpl. now rewrite lower_idem. }
  split; [exact Hs|].
  unfold is_single_post, matches_archive_pattern. rewrite Hs. reflexivity.
Qed.

(** X5.  Slashes at the end of a path change neither its depth nor
    whether the URL is a root domain. *)
Theorem trailing_slashes_are_ignored (host p q slashes : string) :
  all_chars (Ascii.eqb "/") slashes = true ->
  get_path_depth (mkUrl host (p +:+ slashes) q) = get_path_depth (mkUrl host p q) /\
  is_root_domain (mkUrl host (p +:+ slashes) q) = is_root_domain (mkUrl host p q).
Proof.
  intros H. unfold get_path_depth, is_root_domain, strip_slash. simpl.
  now rewrite (strip_chars_app_all _ p slashes H).
Qed.

Lemma trailing_slashes_are_ignored_witness :
  get_path_depth (mkUrl "example.com" "/a/b//" "") = 2.
Proof.
  destruct (trailing_slashes_are_ignored "example.com" "/a/b" "" "//" eq_refl)
    as [H _].
  exact (eq_trans H eq_refl).
Defined.

End ValidatorExtras.

(* ===================================================================== *)
(** * More on the sitemap traversal and on sitemap discovery *)
(* ===================================================================== *)

Module SitemapExtras.
Import Soup Sitemap SitemapProps SitemapFacts Examples StrFacts.

Section Runs.

Variable float : Type.
Variable float_of_str : string -> option float.
Variable fetch_sitemap : string -> option node.
Variable pattern : option (string -> bool).

(** Every run yields the filter-matching entries behind the sitemap, up
    to the limit. *)
Lemma yielded_cut (sitemap_url : string) (max_urls : option Z) :
  yielded (get_all_urls float float_of_str fetch_sitemap sitemap_url pattern max_urls)
  = cut (quota max_urls 0)
        (all_entries float float_of_str fetch_sitemap pattern sitemap_url).
Proof.
  unfold all_entries.
  destruct (fetch_sitemap sitemap_url) as [soup|] eqn:Hfetch.
  - destruct (is_sitemap_index soup) eqn:Hidx.
    + now destruct (get_all_urls_index float float_of_str fetch_sitemap pattern
                                       max_urls sitemap_url soup Hfetch Hidx).
    + now apply get_all_urls_urlset.
  - unfold get_all_urls. rewrite Hfetch.
    destruct (quota max_urls 0); simpl; now rewrite ?firstn_nil.
Qed.

Lemma cut_prefix {A : Type} (q : option nat) (l : list A) : cut q l `prefix_of` l.
Proof.
  destruct q as [n|]; simpl; [|reflexivity].
  exists (skipn n l). now rewrite firstn_skipn.
Qed.

Lemma all_entries_match (sitemap_url : string) :
  Forall (fun e => filtered_out float pattern e = false)
         (all_entries float float_of_str fetch_sitemap pattern sitemap_url).
Proof.
  assert (forall l, Forall (fun e => filtered_out float pattern e = false)
                           (matching float pattern l)) as Hm.
  { intros l. apply List.Forall_forall. intros e [_ He]%filter_In.
    now apply negb_true_iff in He. }
  unfold all_entries. destruct (fetch_sitemap sitemap_url) as [soup|]; [|constructor].
  destruct (is_sitemap_index soup); [|apply Hm].
  unfold index_entries.
  induction (retained (parse_sitemap_index soup)) as [|c cs IH]; simpl; [constructor|].
  apply Forall_app. split; [|exact IH].
  unfold child_entries. destruct (fetch_sitemap c); [apply Hm | constructor].
Qed.

End Runs.

(** X6.  Under a limit of one or more, no run of [get_all_urls] yields
    more than [max_urls] entries, whatever the sitemap is (an index, a
    plain url set, or a failed request). *)
Theorem never_more_than_the_limit
        (float : Type) (float_of_str : string -> option float)
        (fetch_sitemap : string -> option node)
        (pattern : option (string -> bool)) (sitemap_url : string) (max_urls : Z) :
  (1 <= max_urls)%Z ->
  (Z.of_nat (length (yielded (get_all_urls float float_of_str fetch_sitemap
                                           sitemap_url pattern (Some max_urls))))
   <= max_urls)%Z.
Proof.
  intros Hpos. rewrite yielded_cut. unfold quota.
  destruct (max_urls =? 0)%Z eqn:E; [lia|]. simpl.
  rewrite length_firstn. lia.
Qed.

Lemma never_more_than_the_limit_witness :
  (Z.of_nat (length (yielded (get_all_urls Z tenths site
                                           "https://example.com/post-sitemap2.xml"
                                           None (Some 4%Z))))
   <= 4)%Z.
Proof.
  apply (never_more_than_the_limit Z tenths site None
                                   "https://example.com/post-sitemap2.xml" 4).
  lia.
Defined.

(** X7.  What a run yields is an initial part of the filter-matching
    entries behind the sitemap, in their order; in particular every
    yielded entry passes the URL filter. *)
Theorem yielded_entries_are_filtered
        (float : Type) (float_of_str : string -> option float)
        (fetch_sitemap : string -> option node)
        (pattern : option (string -> bool)) (sitemap_url : string)
        (max_urls : option Z) :
  let out := yielded (get_all_urls float float_of_str fetch_sitemap
                                   sitemap_url pattern max_urls) in
  out `prefix_of` all_entries float float_of_str fetch_sitemap pattern sitemap_url /\
  Forall (fun e => match pattern with
                   | Some search => search (url e) = true
                   | None => True
                   end) out.
Proof.
  simpl. rewrite yielded_cut. split; [apply cut_prefix|].
  pose proof (all_entries_match float float_of_str fetch_sitemap pattern sitemap_url)
    as Hall.
  assert (Forall (fun e => filtered_out float pattern e = false)
                 (cut (quota max_urls 0)
                      (all_entries float float_of_str fetch_sitemap pattern
                                   sitemap_url))) as Hcut
      by (destruct (quota max_urls 0); simpl; [now apply Forall_take | exact Hall]).
  eapply Forall_impl; [exact Hcut|].
  intros e He. unfold filtered_out in He. destruct pattern as [search|]; [|exact I].
  now apply negb_false_iff in He.
Qed.

(** X8.  On a plain url set, and when the request fails, the run makes
    the one request for the sitemap itself and no other. *)
Theorem plain_url_set_makes_one_request
        (float : Type) (float_of_str : string -> option float)
        (fetch_sitemap : string -> option node)
        (pattern : option (string -> bool)) (sitemap_url : string)
        (max_urls : option Z) :
  match fetch_sitemap sitemap_url with
  | Some soup => is_sitemap_index soup = false
  | None => True
  end ->
  fetched (get_all_urls float float_of_str fetch_sitemap sitemap_url pattern max_urls)
  = [sitemap_url].
Proof.
  intros H. unfold get_all_urls.
  destruct (fetch_sitemap sitemap_url) as [soup|]; [|reflexivity].
  rewrite H. simpl. f_equal.
  apply (yield_loop_spec float pattern max_urls (parse_urlset float float_of_str soup) 0).
Qed.

Lemma plain_url_set_makes_one_request_witness :
  fetched (get_all_urls Z tenths site "https://example.com/tag-sitemap.xml" None None)
  = ["https://example.com/tag-sitemap.xml"].
Proof.
  apply (plain_url_set_makes_one_request
           Z tenths site None "https://example.com/tag-sitemap.xml" None).
  reflexivity.
Defined.

Lemma parse_url_elem_url {float : Type} (float_of_str : string -> option float)
      (url_elem : node) :
  url <$> parse_url_elem float float_of_str url_elem
  = get_text_strip <$> find "loc" url_elem.
Proof.
  unfold parse_url_elem. destruct (find "loc" url_elem) as [loc|]; [|reflexivity].
  destruct (find "lastmod" url_elem), (find "changefreq" url_elem),
    (find "priority" url_elem) as [p|]; simpl; try reflexivity;
    destruct (float_of_str (get_text_strip p)); reflexivity.
Qed.

(** X9.  [parse_urlset] gives one entry for each [url] element that has
    a [loc], in document order, with the stripped text of the [loc] as
    its URL; an element without [loc] is passed over. *)
Theorem parse_urlset_urls
        (float : Type) (float_of_str : string -> option float) (soup : node) :
  map url (parse_urlset float float_of_str soup)
  = omap (fun url_elem => get_text_strip <$> find "loc" url_elem)
         (find_all ["url"] soup).
Proof.
  rewrite parse_urlset_omap.
  induction (find_all ["url"] soup) as [|e l IH]; simpl; [reflexivity|].
  pose proof (parse_url_elem_url float_of_str e) as He.
  destruct (parse_url_elem float float_of_str e) as [entry|];
    destruct (find "loc" e) as [loc|]; simpl in *; try discriminate.
  - injection He as ->. f_equal. exact IH.
  - exact IH.
Qed.

End SitemapExtras.

Module DiscoveryExtras.
Import Discovery MoreProps StrFacts ValidatorExtras.

Section Probes.

Variable head : string -> option Z.

Lemma probe_found (base : string) (before : list string) :
  forall path after,
    (forall p, In p before -> ~ answers_200 head (base +:+ p)) ->
    answers_200 head (base +:+ path) ->
    probe head base (before ++ path :: after)
    = (Some (base +:+ path), map (String.append base) (before ++ [path])).
Proof.
  induction before as [|b before IH]; intros path after Hno Hyes; simpl.
  - unfold answers_200 in Hyes. now rewrite Hyes.
  - assert (~ answers_200 head (base +:+ b)) as Hb by (apply Hno; now left).
    rewrite (IH path after); [|intros p Hp; apply Hno; now right | assumption].
    unfold answers_200 in Hb.
    destruct (head (base +:+ b)) as [status|]; [|reflexivity].
    destruct (status =? 200)%Z eqn:E; [|reflexivity].
    apply Z.eqb_eq in E. congruence.
Qed.

Lemma probe_none (base : string) (paths : list string) :
  (forall p, In p paths -> ~ answers_200 head (base +:+ p)) ->
  probe head base paths = (None, map (String.append base) paths).
Proof.
  induction paths as [|b paths IH]; intros Hno; simpl; [reflexivity|].
  assert (~ answers_200 head (base +:+ b)) as Hb by (apply Hno; now left).
  rewrite IH by (intros p Hp; apply Hno; now right).
  unfold answers_200 in Hb.
  destruct (head (base +:+ b)) as [status|]; [|reflexivity].
  destruct (status =? 200)%Z eqn:E; [|reflexivity].
  apply Z.eqb_eq in E. congruence.
Qed.

Lemma probe_none_inv (base : string) (paths : list string) :
  (probe head base paths).1 = None ->
  forall p, In p paths -> ~ answers_200 head (base +:+ p).
Proof.
  induction paths as [|b paths IH]; intros Hnone p Hin; [destruct Hin|].
  simpl in Hnone. unfold answers_200.
  destruct (head (base +:+ b)) as [status|] eqn:Hb.
  - destruct (status =? 200)%Z eqn:E; [discriminate|].
    destruct (probe head base paths) as [found requested]. simpl in *.
    destruct Hin as [<- | Hin]; [|now apply IH].
    rewrite Hb. intros [= ->]. discriminate.
  - destruct (probe head base paths) as [found requested]. simpl in *.
    destruct Hin as [<- | Hin]; [|now apply IH].
    rewrite Hb. discriminate.
Qed.

End Probes.

(** X10.  [discover_sitemap] returns the first of the conventional
    locations, in their order, that answers 200; it has then requested
    the locations up to that one and no later one, and a failed or
    non-200 probe does not stop the search. *)
Theorem discover_returns_first_answer
        (head : string -> option Z) (base_url : string)
        (before after : list string) (path : string) :
  common_paths = before ++ path :: after ->
  let base := PyStr.rstrip (Ascii.eqb "/") base_url in
  (forall p, In p before -> ~ answers_200 head (base +:+ p)) ->
  answers_200 head (base +:+ path) ->
  discover_sitemap head base_url
  = (Some (base +:+ path), map (String.append base) (before ++ [path])).
Proof.
  intros Hpaths base Hno Hyes. unfold discover_sitemap. rewrite Hpaths.
  now apply probe_found.
Qed.

Lemma discover_returns_first_answer_witness :
  discover_sitemap MoreExamples.sample_head "https://example.com/"
  = (Some "https://example.com/post-sitemap.xml",
     ["https://example.com/sitemap.xml"; "https://example.com/sitemap_index.xml";
      "https://example.com/sitemap-index.xml"; "https://example.com/post-sitemap.xml"]).
Proof.
  apply (discover_returns_first_answer
           MoreExamples.sample_head "https://example.com/"
           ["/sitemap.xml"; "/sitemap_index.xml"; "/sitemap-index.xml"]
           ["/page-sitemap.xml"; "/wp-sitemap.xml"] "/post-sitemap.xml" eq_refl).
  - intros p [<- | [<- | [<- | []]]]; vm_compute; discriminate.
  - reflexivity.
Defined.

(** X11.  [discover_sitemap] returns [None] exactly when none of the six
    conventional locations answers 200, and it has then requested all
    six. *)
Theorem discover_none_iff (head : string -> option Z) (base_url : string) :
  let base := PyStr.rstrip (Ascii.eqb "/") base_url in
  ((discover_sitemap head base_url).1 = None <->
   forall p, In p common_paths -> ~ answers_200 head (base +:+ p)) /\
  ((discover_sitemap head base_url).1 = None ->
   (discover_sitemap head base_url).2 = map (String.append base) common_paths).
Proof.
  simpl. unfold discover_sitemap. split; [split|].
  - apply probe_none_inv.
  - intros H. now rewrite probe_none.
  - intros H. rewrite probe_none; [reflexivity|]. now apply probe_none_inv.
Qed.

(** X12.  Slashes at the end of the base URL make no difference to the
    discovery. *)
Theorem discover_ignores_trailing_slashes
        (head : string -> option Z) (base_url slashes : string) :
  PyStr.all_chars (Ascii.eqb "/") slashes = true ->
  discover_sitemap head (base_url +:+ slashes) = discover_sitemap head base_url.
Proof.
  intros H. unfold discover_sitemap. now rewrite (rstrip_app_all _ base_url slashes H).
Qed.

Lemma discover_ignores_trailing_slashes_witness :
  discover_sitemap MoreExamples.sample_head ("https://example.com" +:+ "//")
  = discover_sitemap MoreExamples.sample_head "https://example.com".
Proof.
  apply (discover_ignores_trailing_slashes
           MoreExamples.sample_head "https://example.com" "//").
  reflexivity.
Defined.

End DiscoveryExtras.

(* ===================================================================== *)
(** * More on the content extractor *)
(* ===================================================================== *)

Module ExtractorExtras.
Import Soup Models Extractors Content MoreProps MoreExamples Examples StrFacts
       ExtractorFacts.

(** ** Invariants of the loop of [_extract_sections] *)

Lemma fold_left_invariant {S E : Type} (f : S -> E -> S) (P : S -> Prop)
      (l : list E) :
  (forall st e, P st -> P (f st e)) -> forall st, P st -> P (fold_left f l st).
Proof.
  intros Hstep. induction l as [|e l IH]; intros st Hst; simpl; [assumption|].
  apply IH. now apply Hstep.
Qed.

Lemma closed_tidy (cur : option ContentSection) :
  (forall c, cur = Some c -> level c = 2%Z) ->
  Forall (fun s => nonblank s /\ level s = 2%Z) (closed cur).
Proof.
  intros Hlevel. unfold closed. destruct cur as [c|]; [|constructor].
  destruct (PyStr.truthy (PyStr.strip (content c))) eqn:E; [|constructor].
  constructor; [|constructor]. split; [exact E | now apply Hlevel].
Qed.

Lemma step_tidy (st : state) (element : node) : tidy st -> tidy (step st element).
Proof.
  intros [Hsec Hcur]. unfold step.
  destruct (String.eqb (name_of element) "h2").
  { split; simpl.
    - apply Forall_app. split; [assumption | now apply closed_tidy].
    - now intros cur [= <-]. }
  destruct (current_section st) as [cur|] eqn:Ecur.
  - assert (level cur = 2%Z) as Hl by now apply Hcur.
    destruct (String.eqb (name_of element) "h3");
      [split; simpl; [assumption | now intros c [= <-]]|].
    destruct (String.eqb (name_of element) "p").
    { destruct (PyStr.truthy (get_text_strip element));
        split; simpl; try assumption; try (now intros c [= <-]).
      rewrite Ecur. now intros c [= <-]. }
    destruct (PyStr.mem (name_of element) ["ul"; "ol"]);
      [split; simpl; [assumption | now intros c [= <-]]|].
    destruct (String.eqb (name_of element) "table");
      split; simpl; try assumption; try (now intros c [= <-]).
    rewrite Ecur. now intros c [= <-].
  - destruct (String.eqb (name_of element) "h3");
      (destruct (String.eqb (name_of element) "p");
       [destruct (PyStr.truthy (get_text_strip element));
        split; simpl; try assumption; try discriminate;
        rewrite Ecur; discriminate|];
       destruct (PyStr.mem (name_of element) ["ul"; "ol"]);
       [split; simpl; [assumption | discriminate]|];
       destruct (String.eqb (name_of element) "table");
       split; simpl; try assumption; rewrite Ecur; discriminate).
Qed.

Lemma fold_tidy (elements : list node) : tidy (fold_left step elements start).
Proof.
  apply fold_left_invariant; [apply step_tidy|].
  split; [constructor | discriminate].
Qed.

(** X13.  No section that [_extract_sections] returns has a blank body:
    a heading with nothing under it, and an introduction of blanks, are
    left out. *)
Theorem sections_are_never_blank (article : node) :
  Forall nonblank (_extract_sections article).
Proof.
  unfold _extract_sections, finish.
  destruct (fold_tidy (find_all BLOCKS article)) as [Hsec Hcur].
  fold start.
  set (st := fold_left step (find_all BLOCKS article) start) in *.
  apply Forall_app. split.
  - destruct (PyStr.truthy (PyStr.strip _)) eqn:E; constructor; [exact E | constructor].
  - apply Forall_app. split.
    + eapply Forall_impl; [exact Hsec|]. now intros s [H _].
    + eapply Forall_impl; [apply closed_tidy; exact Hcur|]. now intros s [H _].
Qed.

(** X14.  The list that [_extract_sections] returns is at most one
    introduction (level 0, empty heading) followed by sections of level
    2: an introduction is never anywhere but first. *)
Theorem introduction_comes_first (article : node) :
  exists intro rest,
    _extract_sections article = intro ++ rest /\
    (intro = [] \/ exists text, intro = [mkSection "" text 0]) /\
    Forall (fun s => level s = 2%Z) rest.
Proof.
  unfold _extract_sections, finish.
  destruct (fold_tidy (find_all BLOCKS article)) as [Hsec Hcur].
  fold start.
  set (st := fold_left step (find_all BLOCKS article) start) in *.
  eexists _, _. split; [reflexivity|]. split.
  - destruct (PyStr.truthy (PyStr.strip _)); [right; eauto | now left].
  - apply Forall_app. split.
    + eapply Forall_impl; [exact Hsec|]. now intros s [_ H].
    + eapply Forall_impl; [apply closed_tidy; exact Hcur|]. now intros s [_ H].
Qed.

(** ** Headings *)

Lemma closed_sublist (cur : option ContentSection) :
  sublist (closed cur) (option_list cur).
Proof.
  unfold closed. destruct cur as [c|]; simpl; [|constructor].
  destruct (PyStr.truthy _); [reflexivity | apply sublist_nil_l].
Qed.

Lemma step_headings (st : state) (element : node) :
  if String.eqb (name_of element) "h2"
  then sublist (headings (step st element)) (headings st ++ [get_text_strip element])
  else headings (step st element) = headings st.
Proof.
  unfold step, headings.
  destruct (String.eqb (name_of element) "h2").
  { simpl. rewrite !map_app, <- !app_assoc. simpl.
    apply sublist_app; [reflexivity|].
    apply sublist_app; [|reflexivity].
    apply (fmap_sublist heading), closed_sublist. }
  destruct (current_section st) as [cur|] eqn:Ecur.
  - destruct (String.eqb (name_of element) "h3");
      [simpl; now rewrite !map_app|].
    destruct (String.eqb (name_of element) "p").
    { destruct (PyStr.truthy (get_text_strip element));
        simpl; rewrite ?Ecur; simpl; now rewrite ?map_app. }
    destruct (PyStr.mem (name_of element) ["ul"; "ol"]);
      [simpl; now rewrite !map_app|].
    destruct (String.eqb (name_of element) "table");
      simpl; rewrite ?Ecur; simpl; now rewrite ?map_app.
  - destruct (String.eqb (name_of element) "h3");
      (destruct (String.eqb (name_of element) "p");
       [destruct (PyStr.truthy (get_text_strip element));
        simpl; rewrite ?Ecur; reflexivity|];
       destruct (PyStr.mem (name_of element) ["ul"; "ol"]); [reflexivity|];
       destruct (String.eqb (name_of element) "table");
       simpl; rewrite ?Ecur; reflexivity).
Qed.

Lemma fold_headings (elements : list node) :
  forall st seen,
    sublist (headings st) (h2_texts seen) ->
    sublist (headings (fold_left step elements st)) (h2_texts (seen ++ elements)).
Proof.
  induction elements as [|e elements IH]; intros st seen H; simpl.
  - now rewrite app_nil_r.
  - replace (seen ++ e :: elements) with ((seen ++ [e]) ++ elements)
      by now rewrite <- app_assoc.
    apply IH. pose proof (step_headings st e) as He.
    unfold h2_texts in *. rewrite List.filter_app, map_app. simpl.
    destruct (String.eqb (name_of e) "h2"); simpl.
    + etransitivity; [exact He|]. apply sublist_app; [exact H | reflexivity].
    + rewrite He, app_nil_r. exact H.
Qed.

(** X15.  The headings of the level-2 sections returned are texts of
    level-2 headings of the article, in document order, each heading
    element giving one section at most. *)
Theorem headings_come_from_h2 (article : node) :
  sublist (map heading (List.filter (fun s => negb (level s =? 0)%Z)
                                    (_extract_sections article)))
          (h2_texts (find_all BLOCKS article)).
Proof.
  unfold _extract_sections, finish.
  destruct (fold_tidy (find_all BLOCKS article)) as [Hsec Hcur].
  pose proof (fold_headings (find_all BLOCKS article) start [] (sublist_nil_l _))
    as Hh. simpl in Hh.
  fold start.
  set (st := fold_left step (find_all BLOCKS article) start) in *.
  assert (List.filter (fun s => negb (level s =? 0)%Z)
                      (sections st ++ closed (current_section st))
          = sections st ++ closed (current_section st)) as Hkeep.
  { apply forallb_filter_id, forallb_forall. intros s Hs.
    assert (level s = 2%Z) as ->; [|reflexivity].
    apply in_app_iff in Hs as [Hs | Hs].
    - now apply (proj1 (List.Forall_forall _ _) Hsec s Hs).
    - apply (proj1 (List.Forall_forall _ _) (closed_tidy _ Hcur) s Hs). }
  rewrite List.filter_app, Hkeep.
  assert (List.filter (fun s => negb (level s =? 0)%Z)
                      (if PyStr.truthy
                            (PyStr.strip (PyStr.join (NL +:+ NL) (intro_parts st)))
                       then [mkSection "" (PyStr.join (NL +:+ NL) (intro_parts st)) 0]
                       else []) = []) as ->
      by now destruct (PyStr.truthy _).
  simpl. etransitivity; [|exact Hh].
  unfold headings. apply (fmap_sublist heading).
  apply sublist_app; [reflexivity | apply closed_sublist].
Qed.

(** X16.  A level-2 heading with nothing under it, because the next
    block is another level-2 heading or because it is the last block,
    leaves no trace: the sections are those computed without it. *)
Theorem empty_heading_leaves_no_section
        (article : node) (before after : list node) (h2 : node) :
  find_all BLOCKS article = before ++ h2 :: after ->
  name_of h2 = "h2" ->
  match after with
  | [] => True
  | next :: _ => name_of next = "h2"
  end ->
  _extract_sections article = finish (fold_left step (before ++ after) start).
Proof.
  intros Hblocks Hname Hnext. unfold _extract_sections. fold start.
  rewrite Hblocks, !fold_left_app. simpl.
  set (st := fold_left step before start).
  assert (step st h2
          = mkState (intro_parts st) (Some (mkSection (get_text_strip h2) "" 2))
                    (sections st ++ closed (current_section st))) as ->
      by (unfold step; now rewrite Hname).
  destruct after as [|next rest]; simpl.
  - unfold finish. simpl. now rewrite app_nil_r.
  - f_equal. unfold step. rewrite Hnext. simpl. now rewrite app_nil_r.
Qed.

Lemma empty_heading_leaves_no_section_witness :
  _extract_sections empty_heading = [mkSection "Full" (NL +:+ "Body.") 2].
Proof.
  rewrite (empty_heading_leaves_no_section
             empty_heading [] [elem "h2" [Text "Full"]; elem "p" [Text "Body."]]
             (elem "h2" [Text "Empty"]) eq_refl eq_refl eq_refl).
  reflexivity.
Defined.

End ExtractorExtras.

(* ===================================================================== *)
(** * The cleaned HTML and the content area *)
(* ===================================================================== *)

Module ContentExtras.
Import Soup Models Extractors Content MoreProps MoreExamples Examples StrFacts
       ValidatorFacts.

Lemma find_all_has_name (names : list string) (article d : node) :
  In d (find_all names article) -> has_name names d = true.
Proof.
  unfold find_all, find_all_where. intros [_ H]%filter_In.
  now apply andb_true_iff in H as [H _].
Qed.

Lemma html_block_allowed (d : node) :
  has_name HTML_BLOCKS d = true -> PyStr.mem (name_of d) allowed_tags = true.
Proof.
  destruct d as [t | name attrs cs]; [intros H; discriminate H|].
  unfold has_name, name_of. intros H%mem_In. simpl in H.
  destruct H as [<- | [<- | [<- | [<- | [<- | [<- | [<- | [<- | []]]]]]]]];
    reflexivity.
Qed.

Lemma html_loop_spec (elements : list node) :
  (forall d, In d elements -> PyStr.mem (name_of d) allowed_tags = true) ->
  forall html_parts,
    html_loop elements html_parts
    = html_parts ++ List.filter PyStr.truthy (map _clean_html_element elements).
Proof.
  induction elements as [|e elements IH]; intros Hall parts.
  - simpl. now rewrite app_nil_r.
  - cbn [html_loop map List.filter]. rewrite (Hall e) by now left.
    assert (forall d, In d elements -> PyStr.mem (name_of d) allowed_tags = true)
      as Hrest by (intros d Hd; apply Hall; now right).
    destruct (PyStr.truthy (_clean_html_element e)); rewrite (IH Hrest);
      [now rewrite <- app_assoc | reflexivity].
Qed.

Lemma wrap_nonempty (tag text : string) : wrap tag text <> "".
Proof. unfold wrap. rewrite append_cons. discriminate. Qed.

(** A list and a table always give a fragment. *)
Lemma clean_list_or_table (element : node) :
  PyStr.mem (name_of element) ["ul"; "ol"; "table"] = true ->
  _clean_html_element element <> "".
Proof.
  intros H%mem_In. unfold _clean_html_element, _extract_table_html.
  simpl in H. destruct H as [<- | [<- | [<- | []]]]; simpl; apply wrap_nonempty.
Qed.

Lemma join_nonempty (sep : string) (parts : list string) :
  Forall (fun x => x <> "") parts ->
  PyStr.join sep parts = "" -> parts = [].
Proof.
  intros Hall Hj. destruct parts as [|x xs]; [reflexivity|].
  apply Forall_cons in Hall as [Hx _]. exfalso. apply Hx.
  unfold PyStr.join in Hj. simpl in Hj.
  destruct xs; [assumption|]. now apply append_eq_nil in Hj as [-> _].
Qed.

Lemma no_fragment (elements : list node) :
  (forall d, In d elements -> _clean_html_element d = "") ->
  List.filter PyStr.truthy (map _clean_html_element elements) = [].
Proof.
  induction elements as [|e l IH]; intros Hall; simpl; [reflexivity|].
  rewrite (Hall e) by now left. simpl. apply IH.
  intros d Hd. apply Hall. now right.
Qed.

(** X17.  [content_html] is the cleaned fragments of the blocks of the
    content area, one per line, the empty ones left out (the test on
    [allowed_tags] never removes a block).  It is empty exactly when
    every block cleans to nothing, and a list or a table never does: an
    article with a list or a table has a [content_html]. *)
Theorem content_html_is_empty_only_without_blocks (article : node) :
  let blocks := find_all HTML_BLOCKS article in
  _extract_html_content (Some article)
  = PyStr.join NL (List.filter PyStr.truthy (map _clean_html_element blocks)) /\
  (_extract_html_content (Some article) = "" <->
   forall d, In d blocks -> _clean_html_element d = "") /\
  (forall d, In d blocks ->
             PyStr.mem (name_of d) ["ul"; "ol"; "table"] = true ->
             _extract_html_content (Some article) <> "").
Proof.
  simpl.
  assert (_extract_html_content (Some article)
          = PyStr.join NL (List.filter PyStr.truthy
                             (map _clean_html_element (find_all HTML_BLOCKS article))))
    as Hspec.
  { unfold _extract_html_content. rewrite html_loop_spec; [reflexivity|].
    intros d Hd. apply html_block_allowed. now apply find_all_has_name in Hd. }
  assert (_extract_html_content (Some article) = "" <->
          forall d, In d (find_all HTML_BLOCKS article) -> _clean_html_element d = "")
    as Hempty.
  { rewrite Hspec. split.
    - intros Hj d Hd.
      apply join_nonempty in Hj.
      + destruct (_clean_html_element d) eqn:E; [reflexivity|].
        assert (In (_clean_html_element d)
                   (List.filter PyStr.truthy
                      (map _clean_html_element (find_all HTML_BLOCKS article)))) as Hin
            by (apply filter_In; split; [now apply in_map | now rewrite E]).
        rewrite Hj in Hin. destruct Hin.
      + apply List.Forall_forall. intros x [_ Hx]%filter_In. now apply truthy_true.
    - intros Hall.
      now rewrite (no_fragment _ Hall). }
  split; [exact Hspec|]. split; [exact Hempty|].
  intros d Hd Hname Hnone.
  apply (clean_list_or_table d Hname). now apply Hempty.
Qed.

(** ** [_find_content_area] *)

Lemma max_by_spec {A : Type} (key : A -> nat) (items : list A) :
  forall pre best mid,
    (forall y, In y pre -> key y < key best) ->
    (forall y, In y mid -> key y <= key best) ->
    exists before after,
      pre ++ best :: mid ++ items = before ++ max_by key best items :: after /\
      (forall y, In y before -> key y < key (max_by key best items)) /\
      (forall y, In y after -> key y <= key (max_by key best items)).
Proof.
  induction items as [|x items IH]; intros pre best mid Hpre Hmid; simpl.
  - exists pre, mid. rewrite app_nil_r. auto.
  - destruct (key best <? key x)%nat eqn:E.
    + apply Nat.ltb_lt in E.
      destruct (IH (pre ++ best :: mid) x []) as (before & after & Heq & Hb & Ha).
      * intros y [Hy | [<- | Hy]]%in_app_iff; [specialize (Hpre y Hy) | | specialize (Hmid y Hy)]; lia.
      * intros y [].
      * exists before, after. split; [|auto].
        rewrite <- Heq. simpl. now rewrite <- app_assoc.
    + apply Nat.ltb_ge in E.
      destruct (IH pre best (mid ++ [x])) as (before & after & Heq & Hb & Ha).
      * assumption.
      * intros y [Hy | [<- | []]]%in_app_iff; [now apply Hmid | assumption].
      * exists before, after. split; [|auto].
        rewrite <- Heq. now rewrite <- app_assoc.
Qed.

Lemma first_selected_none (select_one : string -> node -> option node)
      (selectors : list string) (soup : node) :
  (forall selector, In selector selectors -> select_one selector soup = None) ->
  first_selected select_one selectors soup = None.
Proof.
  induction selectors as [|sel rest IH]; intros H; simpl; [reflexivity|].
  rewrite (H sel) by now left. apply IH. intros s Hs. apply H. now right.
Qed.

(** X18.  When no selector of [CONTENT_SELECTORS] matches and the page
    has [article] elements, the content area is the article with the
    longest text, and the first of these when several are as long. *)
Theorem longest_article_is_chosen
        (select_one : string -> node -> option node) (soup : node)
        (a : node) (articles : list node) :
  (forall selector, In selector CONTENT_SELECTORS -> select_one selector soup = None) ->
  find_all ["article"] soup = a :: articles ->
  exists chosen before after,
    _find_content_area select_one soup = Some chosen /\
    a :: articles = before ++ chosen :: after /\
    (forall x, In x before ->
               String.length (get_text x) < String.length (get_text chosen)) /\
    (forall x, In x after ->
               String.length (get_text x) <= String.length (get_text chosen)).
Proof.
  intros Hsel Harts. unfold _find_content_area.
  rewrite (first_selected_none _ _ _ Hsel), Harts.
  destruct (max_by_spec (fun a => String.length (get_text a)) articles [] a [])
    as (before & after & Heq & Hb & Ha); [intros y [] | intros y [] |].
  eexists _, before, after. split; [reflexivity|]. simpl in Heq. auto.
Qed.

Lemma longest_article_is_chosen_witness :
  exists chosen before after,
    _find_content_area select_nothing two_articles = Some chosen /\
    [elem "article" [elem "p" [Text "Short."]];
     elem "article" [elem "p" [Text "The longer one."]]]
    = before ++ chosen :: after /\
    (forall x, In x before ->
               String.length (get_text x) < String.length (get_text chosen)) /\
    (forall x, In x after ->
               String.length (get_text x) <= String.length (get_text chosen)).
Proof.
  apply (longest_article_is_chosen
           select_nothing two_articles
           (elem "article" [elem "p" [Text "Short."]])
           [elem "article" [elem "p" [Text "The longer one."]]]).
  - intros selector _. reflexivity.
  - reflexivity.
Defined.

Example longer_article_chosen :
  _find_content_area select_nothing two_articles
  = Some (elem "article" [elem "p" [Text "The longer one."]]).
Proof. reflexivity. Qed.

End ContentExtras.

(* ===================================================================== *)
(** * The scraping pipeline *)
(* ===================================================================== *)

Module PipelineExtras.
Import Soup Models Sitemap Pipeline ScraperProps ScraperClaims.

Section World.

Variable unquote_escapes : string -> string.
Variable min_path_depth : Z.
Variable urlparse : string -> Url.ParseResult.
Variable fetch_page : string -> option node.
Variable select_one : string -> node -> option node.
Variable search_date : string -> option string.
Variable clock : nat -> string.
Variable float : Type.
Variable float_of_str : string -> option float.
Variable fetch_sitemap : string -> option node.
Variable head : string -> option Z.

Abbreviation valid url :=
  ((is_single_post unquote_escapes min_path_depth urlparse url).1 = true).
Abbreviation scrape :=
  (scrape unquote_escapes min_path_depth urlparse fetch_page select_one
          search_date clock).

Lemma total_100_not_empty (c : Scraper.content_dict) :
  100 <= total_length c ->
  Scraper.get_or (Scraper.content_html c) "" <> ""
  \/ Scraper.get_or (Scraper.sections c) [] <> [].
Proof.
  unfold total_length.
  destruct (Scraper.get_or (Scraper.content_html c) "") as [|x s]; simpl.
  - destruct (Scraper.get_or (Scraper.sections c) []); simpl; [lia | right; discriminate].
  - intros _. left. discriminate.
Qed.

(** What a record returned by [scrape] tells. *)
Lemma scrape_some (url : string) (validate_url : bool) (tick : nat)
      (a : ArticleContent) :
  (scrape url validate_url tick).1 = Some a ->
  (scrape url validate_url tick).2 = [url] /\
  a_url a = url /\
  (validate_url = true -> valid url) /\
  exists soup,
    fetch_page url = Some soup /\
    100 <= total_length (Content.extract_content select_one soup) /\
    a_tags a = Extractors.extract_tags soup /\
    (a_content_html a <> "" \/ a_sections a <> []).
Proof.
  unfold Pipeline.scrape.
  destruct (validate_url && negb _) eqn:Ev; [discriminate|].
  destruct (fetch_page url) as [soup|]; [|discriminate].
  rewrite is_valid_article_total.
  destruct (total_length (Content.extract_content select_one soup) <? 100)%nat eqn:Et;
    simpl; [discriminate|].
  apply Nat.ltb_ge in Et. intros [= <-]. simpl.
  repeat split.
  - intros ->. simpl in Ev. now apply negb_false_iff in Ev.
  - exists soup. repeat split; try assumption.
    now apply total_100_not_empty.
Qed.

Lemma scrape_unvalidated_pages (url : string) (tick : nat) :
  (scrape url false tick).2 = [url].
Proof.
  unfold Pipeline.scrape. simpl.
  destruct (fetch_page url); [|reflexivity].
  destruct (Scraper.is_valid_article _) as [[] reason]; reflexivity.
Qed.

Lemma select_valid_spec (max_articles : option Z)
      (all_entries : list (SitemapEntry float)) :
  forall valid_urls,
    Forall (fun e => valid (url e)) valid_urls ->
    let out := select_valid unquote_escapes min_path_depth urlparse float
                            max_articles all_entries valid_urls in
    Forall (fun e => valid (url e)) out /\
    match max_articles with
    | Some m => (Z.of_nat (length out)
                 <= Z.max (Z.of_nat (length valid_urls) + 1) m)%Z
    | None => True
    end.
Proof.
  induction all_entries as [|e rest IH]; intros acc Hacc; simpl.
  - split; [assumption|]. destruct max_articles; [lia | exact I].
  - destruct (is_single_post _ _ _ (url e)).1 eqn:Ev.
    + assert (Forall (fun e => valid (url e)) (acc ++ [e])) as Hacc'
          by (apply Forall_app; split; [assumption | now repeat constructor]).
      destruct (enough float max_articles (acc ++ [e])) eqn:En.
      * split; [assumption|]. destruct max_articles; [|exact I].
        rewrite length_app. simpl. lia.
      * destruct (IH (acc ++ [e]) Hacc') as [Hv Hb]. split; [assumption|].
        destruct max_articles as [m|]; [|exact I].
        unfold enough in En. apply Z.leb_gt in En.
        rewrite length_app in *. simpl in *. lia.
    + apply IH. assumption.
Qed.

Lemma scrape_loop_spec (valid_urls : list (SitemapEntry float)) :
  forall tick,
    let out := scrape_loop unquote_escapes min_path_depth urlparse fetch_page
                           select_one search_date clock float valid_urls tick in
    out.2 = map url valid_urls /\ sublist (map a_url out.1) (map url valid_urls).
Proof.
  induction valid_urls as [|e rest IH]; intros tick; simpl; [split; reflexivity|].
  pose proof (scrape_unvalidated_pages (url e) tick) as Hpages.
  pose proof (fun a => scrape_some (url e) false tick a) as Hsome.
  destruct (scrape (url e) false tick) as [[a|] pages]; simpl in *; subst pages.
  - destruct (Hsome a eq_refl) as (_ & Hurl & _).
    destruct (IH (S tick)) as [Hp Hs].
    destruct (scrape_loop _ _ _ _ _ _ _ _ rest (S tick)) as [articles pages'].
    simpl in *. rewrite Hp, Hurl. split; [reflexivity | now constructor].
  - destruct (IH tick) as [Hp Hs].
    destruct (scrape_loop _ _ _ _ _ _ _ _ rest tick) as [articles pages'].
    simpl in *. rewrite Hp. split; [reflexivity | now constructor].
Qed.

End World.

(** X19.  [scrape] with validation on makes no request for a URL that
    [is_single_post] rejects.  A record it returns is for the URL asked,
    comes from the one page requested, carries the tags of that page,
    and has passed the length test: its content has 100 characters at
    least, so its [content_html] and its sections are never both
    empty. *)
Theorem scrape_returns_only_checked_records
        (unquote_escapes : string -> string) (min_path_depth : Z)
        (urlparse : string -> Url.ParseResult)
        (fetch_page : string -> option node)
        (select_one : string -> node -> option node)
        (search_date : string -> option string) (clock : nat -> string)
        (url : string) (validate_url : bool) (tick : nat) :
  let run := scrape unquote_escapes min_path_depth urlparse fetch_page select_one
                    search_date clock url validate_url tick in
  ((is_single_post unquote_escapes min_path_depth urlparse url).1 = false ->
   scrape unquote_escapes min_path_depth urlparse fetch_page select_one
          search_date clock url true tick = (None, [])) /\
  (forall a, run.1 = Some a ->
     run.2 = [url] /\ a_url a = url /\
     (validate_url = true ->
      (is_single_post unquote_escapes min_path_depth urlparse url).1 = true) /\
     exists soup,
       fetch_page url = Some soup /\
       100 <= total_length (Content.extract_content select_one soup) /\
       a_tags a = Extractors.extract_tags soup /\
       (a_content_html a <> "" \/ a_sections a <> [])).
Proof.
  simpl. split.
  - intros H. unfold scrape. now rewrite H.
  - apply scrape_some.
Qed.

(** X20.  [scrape_from_sitemap] requests only pages whose URL
    [is_single_post] accepts, the records it yields are for requested
    pages, in their order, and under [max_articles = m] it requests at
    most [m] pages, or one page when [m] is zero or less. *)
Theorem scrape_from_sitemap_is_bounded
        (unquote_escapes : string -> string) (min_path_depth : Z)
        (urlparse : string -> Url.ParseResult)
        (fetch_page : string -> option node)
        (select_one : string -> node -> option node)
        (search_date : string -> option string) (clock : nat -> string)
        (float : Type) (float_of_str : string -> option float)
        (fetch_sitemap : string -> option node) (head : string -> option Z)
        (sitemap_url : option string) (base_url : string)
        (pattern : option (string -> bool)) (max_articles : option Z) :
  let run := scrape_from_sitemap unquote_escapes min_path_depth urlparse fetch_page
                                 select_one search_date clock float float_of_str
                                 fetch_sitemap head sitemap_url base_url pattern
                                 max_articles in
  Forall (fun page =>
            (is_single_post unquote_escapes min_path_depth urlparse page).1 = true)
         run.2 /\
  sublist (map a_url run.1) run.2 /\
  match max_articles with
  | Some m => (Z.of_nat (length run.2) <= Z.max 1 m)%Z
  | None => True
  end.
Proof.
  simpl. unfold scrape_from_sitemap.
  match goal with
  | |- context [match ?s with Some _ => _ | None => ([], [])  end] =>
      destruct s as [found|]
  end.
  2: { simpl. repeat split; [constructor | constructor |].
       destruct max_articles; [lia | exact I]. }
  match goal with
  | |- context [select_valid _ _ _ _ _ ?es []] => set (entries := es)
  end.
  destruct (select_valid_spec unquote_escapes min_path_depth urlparse float
                              max_articles entries [] (List.Forall_nil _)) as [Hv Hb].
  destruct (scrape_loop_spec unquote_escapes min_path_depth urlparse fetch_page
                             select_one search_date clock float
                             (select_valid unquote_escapes min_path_depth urlparse
                                           float max_articles entries []) 0)
    as [Hp Hs].
  rewrite Hp. repeat split.
  - apply Forall_fmap. exact Hv.
  - exact Hs.
  - destruct max_articles as [m|]; [|exact I].
    rewrite length_map. simpl in Hb. lia.
Qed.

End PipelineExtras.

(* ===================================================================== *)
(** * Configuration, history, file names, workers and the Airtable content *)
(* ===================================================================== *)

Module ConfigExtras.
Import Config.

(** X21.  Saving a configuration and loading it back keeps the output
    format, the timeout, the duplicates flag, the URLs and the Airtable
    settings, but not [worker_mode] and [cycle_delay], which [save] does
    not write: they come back as [False] and 3600.  The round trip is
    the identity exactly on the configurations that have these two
    defaults. *)
Theorem config_round_trip (c : ScraperConfig) :
  load (save c)
  = mkConfig (output_format c) (timeout c) (prevent_duplicates c)
             false 3600 (urls c) (airtable c) /\
  (load (save c) = c <-> worker_mode c = false /\ cycle_delay c = 3600%Z).
Proof.
  assert (load (save c)
          = mkConfig (output_format c) (timeout c) (prevent_duplicates c)
                     false 3600 (urls c) (airtable c)) as H
      by (destruct c as [? ? ? ? ? ? [[? ? ?]|]]; reflexivity).
  split; [exact H|]. rewrite H. destruct c; simpl. split.
  - intros [= <- <-]. split; reflexivity.
  - intros [-> ->]. reflexivity.
Qed.

(** X22.  A URL marked as scraped is remembered: a manager started
    afterwards on the same history file holds the same set of URLs, the
    marked one included, and marking changes the answer for no other
    URL. *)
Theorem history_survives_restart (h : HistoryManager) (url : string) :
  let h' := mark_scraped url h in
  scraped_urls (new_history (history_file h')) = scraped_urls h' /\
  is_scraped url (new_history (history_file h')) = true /\
  (forall other, is_scraped other h'
                 = (String.eqb other url || is_scraped other h)).
Proof.
  simpl. unfold mark_scraped, _save_history, new_history, is_scraped. simpl.
  rewrite list_to_set_elements_L. split; [reflexivity|]. split.
  - apply bool_decide_eq_true. set_solver.
  - intros other. destruct (String.eqb_spec other url) as [-> | Hne]; simpl.
    + apply bool_decide_eq_true. set_solver.
    + apply bool_decide_ext. set_solver.
Qed.

(** X23.  After [clear_history] no URL is scraped, for this manager and
    for one started afterwards on the same file; the same holds of a
    manager started on a missing or unreadable file. *)
Theorem cleared_history_is_empty (h : HistoryManager) (url : string) :
  is_scraped url (clear_history h) = false /\
  is_scraped url (new_history (history_file (clear_history h))) = false /\
  is_scraped url (new_history Missing) = false /\
  is_scraped url (new_history Unreadable) = false.
Proof.
  unfold clear_history, _save_history, new_history, is_scraped. simpl.
  rewrite elements_empty. repeat split; apply bool_decide_eq_false; set_solver.
Qed.

End ConfigExtras.

Module StorageExtras.
Import Storage MoreProps PyStr.

Lemma keep_chars_all (keep : ascii -> bool) (s : string) :
  all_chars keep (keep_chars keep s) = true.
Proof.
  induction s as [|c s IH]; simpl; [reflexivity|].
  destruct (keep c) eqn:E; simpl; [now rewrite E | assumption].
Qed.

Lemma replace_space_safe (s : string) :
  all_chars kept_char s = true ->
  all_chars safe_char (replace_char " " "_" s) = true.
Proof.
  induction s as [|c s IH]; simpl; [reflexivity|].
  intros [Hc Hs]%andb_true_iff. rewrite (IH Hs), andb_true_r.
  destruct (Ascii.eqb_spec c " ") as [-> | Hne]; [reflexivity|].
  unfold kept_char in Hc. unfold safe_char.
  apply Ascii.eqb_neq in Hne. rewrite Hne in Hc.
  now rewrite orb_false_r in Hc.
Qed.

Lemma prefix_all (p : ascii -> bool) (n : nat) (s : string) :
  all_chars p s = true -> all_chars p (prefix_of_length n s) = true.
Proof.
  revert s. induction n as [|n IH]; intros [|c s]; simpl; try reflexivity.
  intros [Hc Hs]%andb_true_iff. now rewrite Hc, IH.
Qed.

Lemma prefix_length (n : nat) (s : string) :
  String.length (prefix_of_length n s) <= n.
Proof.
  revert s. induction n as [|n IH]; intros [|c s]; simpl; try lia.
  specialize (IH s). lia.
Qed.

Lemma safe_char_excludes (c : ascii) :
  safe_char c = true ->
  c <> "/"%char /\ c <> "\"%char /\ c <> "."%char /\ c <> " "%char /\ c <> ":"%char.
Proof.
  intros H. repeat split; intros ->; discriminate H.
Qed.

(** X24.  The title part of a file name has 50 characters at most and
    only letters, digits, [-] and [_]: no blank, no dot and no path
    separator, whatever the title of the article. *)
Theorem file_name_title_is_safe (title : string) :
  String.length (safe_title title) <= 50 /\
  all_chars safe_char (safe_title title) = true /\
  all_chars (fun c => negb (Ascii.eqb c "/") && negb (Ascii.eqb c "\")
                      && negb (Ascii.eqb c ".") && negb (Ascii.eqb c " "))
            (safe_title title) = true.
Proof.
  assert (all_chars safe_char (safe_title title) = true) as Hsafe
      by (unfold safe_title; apply prefix_all, replace_space_safe, keep_chars_all).
  split; [apply prefix_length|]. split; [exact Hsafe|].
  induction (safe_title title) as [|c s IH]; simpl; [reflexivity|].
  simpl in Hsafe. apply andb_true_iff in Hsafe as [Hc Hs].
  rewrite (IH Hs), andb_true_r.
  destruct (safe_char_excludes c Hc) as (H1 & H2 & H3 & H4 & _).
  apply Ascii.eqb_neq in H1, H2, H3, H4. now rewrite H1, H2, H3, H4.
Qed.

End StorageExtras.

Module WorkerExtras.
Import Worker MoreProps MoreExamples.

Lemma group_fold (urlparse : string -> Url.ParseResult) (domain : string)
      (urls : list string) :
  forall m : gmap string (list string),
    fold_left (append_url urlparse) urls m !! domain
    = match m !! domain, of_domain urlparse domain urls with
      | Some l, more => Some (l ++ more)
      | None, [] => None
      | None, more => Some more
      end.
Proof.
  induction urls as [|u urls IH]; intros m; simpl.
  - destruct (m !! domain); [now rewrite app_nil_r | reflexivity].
  - rewrite IH. unfold append_url, of_domain. simpl.
    set (d := PyStr.lower (Url.netloc (urlparse u))).
    destruct (String.eqb_spec d domain) as [-> | Hne].
    + destruct (m !! domain) as [l|]; rewrite lookup_insert_eq;
        [now rewrite <- app_assoc | reflexivity].
    + destruct (m !! d); rewrite lookup_insert_ne by assumption; reflexivity.
Qed.

(** X25.  [_group_urls_by_domain] gives each host, in lower case, the
    URLs of that host and no others, in the order of the configuration;
    a host without URL has no entry, so no URL is lost, repeated or
    given to two workers. *)
Theorem urls_are_grouped_by_host
        (urlparse : string -> Url.ParseResult) (urls : list string)
        (domain : string) :
  _group_urls_by_domain urlparse urls !! domain
  = match of_domain urlparse domain urls with
    | [] => None
    | group => Some group
    end.
Proof.
  unfold _group_urls_by_domain. rewrite group_fold, lookup_empty. reflexivity.
Qed.

Example grouping_sample :
  _group_urls_by_domain split_host
    ["https://a.example.com/x"; "https://b.example.com/y"; "https://A.example.com/z"]
  !! "a.example.com"
  = Some ["https://a.example.com/x"; "https://A.example.com/z"].
Proof. vm_compute. reflexivity. Qed.

End WorkerExtras.

Module AirtableExtras.
Import Airtable MoreProps PyStr.

Lemma remove_returns_all (p : ascii -> bool) (s : string) :
  all_chars p s = true -> all_chars p (remove_returns s) = true.
Proof.
  induction s as [|c s IH]; simpl; [reflexivity|].
  intros [Hc Hs]%andb_true_iff.
  destruct (Ascii.eqb c "013"); simpl; [auto | now rewrite Hc, IH].
Qed.

Lemma escaped_no_line_feed (s : string) :
  all_chars (fun c => negb (Ascii.eqb c "010")) (escape_newlines s) = true.
Proof.
  induction s as [|c s IH]; simpl; [reflexivity|].
  destruct (Ascii.eqb c "010") eqn:E; simpl; [assumption | now rewrite E].
Qed.

Lemma removed_no_return (s : string) :
  all_chars (fun c => negb (Ascii.eqb c "013")) (remove_returns s) = true.
Proof.
  induction s as [|c s IH]; simpl; [reflexivity|].
  destruct (Ascii.eqb c "013") eqn:E; simpl; [assumption | now rewrite E].
Qed.

Lemma all_chars_and (p q : ascii -> bool) (s : string) :
  all_chars p s = true -> all_chars q s = true ->
  all_chars (fun c => p c && q c) s = true.
Proof.
  induction s as [|c s IH]; simpl; [reflexivity|].
  intros [Hp Hs]%andb_true_iff [Hq Hs']%andb_true_iff. now rewrite Hp, Hq, IH.
Qed.

(** X26.  The content sent to Airtable is one line: it has neither a
    line feed nor a carriage return; a content that had none is sent as
    it is. *)
Theorem airtable_content_is_one_line (content_html : string) :
  all_chars one_line_char (content_escaped content_html) = true /\
  (all_chars one_line_char content_html = true ->
   content_escaped content_html = content_html).
Proof.
  split.
  - unfold content_escaped, one_line_char. apply all_chars_and.
    + apply remove_returns_all, escaped_no_line_feed.
    + apply removed_no_return.
  - unfold content_escaped, one_line_char.
    induction content_html as [|c s IH]; simpl; [reflexivity|].
    intros [[Hn Hr]%andb_true_iff Hs]%andb_true_iff.
    apply negb_true_iff in Hn, Hr. rewrite Hn. simpl. rewrite Hr.
    now rewrite IH.
Qed.

End AirtableExtras.
